(** * py-tree-sitter: the CPython binding [tree_sitter/binding.c]

    A shallow embedding of the object-model layer (Node, Tree, TreeCursor,
    Parser, Query) that [binding.c] builds on top of the tree-sitter engine,
    together with the properties of that layer.

    Conventions of the embedding.
    - The engine ([tree_sitter/api.h]) is an interface: its types and
      primitives are the fields of the class [Engine]; every binding
      function is defined once, for an arbitrary engine.
    - Python objects with identity and mutable fields (Node, Tree,
      TreeCursor, list, ...) live in a store [gmap loc PyObject]; a C
      pointer [PyObject *] that may be [NULL] is an [option].
    - Immutable Python values (None, bool, int, bytes, str, tuple) are
      carried by value.
    - C [unsigned]/[uint32_t] quantities the engine hands out are [N];
      those the binding converts from Python integers are [Z] with the
      wrap-around written out at the conversion.
    - Reference counts are not modelled; allocation never fails. *)

From Stdlib Require Import ZArith String Ascii List Lia.
From Stdlib.Strings Require Import Byte.
From Stdlib Require Import DecimalString.
From stdpp Require Import base option list gmap strings.

Local Open Scope Z_scope.

(** ** The engine interface *)

Record TSPoint := { row : Z; column : Z }.

Record TSInputEdit := {
  start_byte : Z; old_end_byte : Z; new_end_byte : Z;
  start_point : TSPoint; old_end_point : TSPoint; new_end_point : TSPoint
}.

Inductive TSQueryError :=
  | TSQueryErrorNone
  | TSQueryErrorSyntax
  | TSQueryErrorNodeType
  | TSQueryErrorField
  | TSQueryErrorCapture.

Class Engine := {
  TSNode : Type;
  TSTree : Type;
  TSTreeCursor : Type;
  TSQuery : Type;
  TSQueryCursor : Type;
  TSParser : Type;
  TSLanguage : Type;
  (* nodes *)
  ts_node_eq : TSNode -> TSNode -> bool;
  ts_node_child_count : TSNode -> N;
  ts_node_start_byte : TSNode -> N;
  ts_node_end_byte : TSNode -> N;
  ts_node_start_point : TSNode -> TSPoint;
  ts_node_end_point : TSNode -> TSPoint;
  (* trees *)
  ts_tree_root_node : TSTree -> TSNode;
  ts_tree_edit : TSTree -> TSInputEdit -> TSTree;
  (* tree cursors; the C primitives update the cursor in place and the
     movement primitives return whether they moved *)
  ts_tree_cursor_new : TSNode -> TSTreeCursor;
  ts_tree_cursor_reset : TSTreeCursor -> TSNode -> TSTreeCursor;
  ts_tree_cursor_goto_parent : TSTreeCursor -> bool * TSTreeCursor;
  ts_tree_cursor_goto_first_child : TSTreeCursor -> bool * TSTreeCursor;
  ts_tree_cursor_goto_next_sibling : TSTreeCursor -> bool * TSTreeCursor;
  ts_tree_cursor_current_node : TSTreeCursor -> TSNode;
  ts_tree_cursor_current_field_name : TSTreeCursor -> option string;
  (* parser and languages *)
  ts_parser_new : TSParser;
  ts_parser_parse_string :
    TSParser -> option TSTree -> list byte -> Z -> option TSTree * TSParser;
  ts_parser_set_language : TSParser -> TSLanguage -> TSParser;
  ts_language_version : TSLanguage -> N;
  TREE_SITTER_LANGUAGE_VERSION : N;
  TREE_SITTER_MIN_COMPATIBLE_LANGUAGE_VERSION : N;
  (* the language at the address a Python integer denotes
     ([PyLong_AsVoidPtr] followed by the cast to [TSLanguage *]); [None]
     when no language is there: for the null pointer, which an integer
     that no pointer can hold denotes as well, and for every other
     address that is not a language's *)
  language_of_id : Z -> option TSLanguage;
  (* queries *)
  ts_query_new :
    TSLanguage -> list byte -> Z -> TSQuery + (N * TSQueryError);
  ts_query_capture_count : TSQuery -> nat;
  ts_query_capture_name_for_id : TSQuery -> nat -> string;
  ts_query_cursor_new : TSQueryCursor;
  ts_query_cursor_set_point_range :
    TSQueryCursor -> TSPoint -> TSPoint -> TSQueryCursor;
  ts_query_cursor_exec : TSQueryCursor -> TSQuery -> TSNode -> TSQueryCursor;
  (* [Some ((node, index), c')] when a capture was produced *)
  ts_query_cursor_next_capture :
    TSQueryCursor -> option ((TSNode * nat) * TSQueryCursor)
}.

(** ** Python values and objects *)

Abbreviation loc := positive.

#[warnings="-register-all"]
Inductive PyValue :=
  | Py_None
  | PyBool (b : bool)
  | PyLong (z : Z)
  | PyBytes (bs : list byte)
  | PyUnicode (s : string)
  | PyTuple (items : list PyValue)
  | PyMemoryView (bs : list byte)
  | PyRef (l : loc).

Abbreviation Py_True := (PyBool true).
Abbreviation Py_False := (PyBool false).

Inductive PyExc :=
  | PyExc_TypeError
  | PyExc_ValueError
  | PyExc_NameError
  | PyExc_SyntaxError
  | PyExc_RuntimeError
  | PyExc_IndexError
  | PyExc_SystemError
  | PyExc_NotImplementedError.

(** A raised exception: its class and its message. *)
Record PyErr := { exc_type : PyExc; exc_msg : string }.

(** What a C function of the binding hands back to the interpreter: the
    returned pointer together with the thread's error indicator.
    - [Return v]: a non-[NULL] result, no exception set;
    - [Raise e]: [NULL] with the exception [e] set;
    - [ReturnWithError v e]: a non-[NULL] result although [e] is set;
    - [Crash]: the function dereferenced [NULL] or an object of the
      wrong type (undefined behaviour in C). *)
Inductive CResult :=
  | Return (v : PyValue)
  | Raise (e : PyErr)
  | ReturnWithError (v : PyValue) (e : PyErr)
  | Crash.

Definition PyErr_SetString (t : PyExc) (msg : string) : PyErr :=
  {| exc_type := t; exc_msg := msg |}.

(** The pointer the C function returned ([None] is [NULL]). *)
Definition returned (r : CResult) : option PyValue :=
  match r with
  | Return v | ReturnWithError v _ => Some v
  | Raise _ | Crash => None
  end.

(** What the Python caller of a C function observes. The interpreter
    checks the result of every call of a C function
    ([_Py_CheckFunctionResult] in CPython's [Objects/call.c]): a value
    returned while an exception is set is dropped, and a [SystemError] is
    raised in its place with the pending exception as its cause. Its
    message starts with the name of the function called, which is left
    out here. *)
Inductive Observed :=
  | Returns (v : PyValue)
  | Raises (e : PyErr) (cause : option PyErr)
  | Undefined.

Definition Py_CheckFunctionResult (r : CResult) : Observed :=
  match r with
  | Return v => Returns v
  | Raise e => Raises e None
  | ReturnWithError _ e =>
      Raises (PyErr_SetString PyExc_SystemError
                "returned a result with an error set") (Some e)
  | Crash => Undefined
  end.

(** *** Argument parsing ([PyArg_ParseTupleAndKeywords])

    Only the outcome is modelled: which Python arguments are bound to
    which format unit, and whether the conversion succeeds. Every failure
    sets a [TypeError]; the message texts of CPython are not reproduced. *)

Definition arg_error (msg : string) : PyErr :=
  PyErr_SetString PyExc_TypeError msg.

Definition kw_lookup (k : string) (kwargs : list (string * PyValue))
  : option PyValue :=
  snd <$> List.find (fun p => String.eqb (fst p) k) kwargs.

(** Binds the call's positional and keyword arguments to the parameter
    names [keywords]; the first [required] of them must be given. *)
Fixpoint bind_from (i : nat) (keywords : list string) (required : nat)
    (args : list PyValue) (kwargs : list (string * PyValue))
  : PyErr + list (option PyValue) :=
  match keywords with
  | [] => inr []
  | k :: ks =>
      let rest := bind_from (S i) ks required args kwargs in
      match args !! i, kw_lookup k kwargs with
      | Some _, Some _ =>
          inl (arg_error "argument given by name and position")
      | Some v, None | None, Some v =>
          match rest with inl e => inl e | inr vs => inr (Some v :: vs) end
      | None, None =>
          if (i <? required)%nat
          then inl (arg_error "missing required argument")
          else match rest with inl e => inl e | inr vs => inr (None :: vs) end
      end
  end.

Definition bind_args (keywords : list string) (required : nat)
    (args : list PyValue) (kwargs : list (string * PyValue))
  : PyErr + list (option PyValue) :=
  if (length keywords <? length args + length kwargs)%nat
  then inl (arg_error "too many arguments")
  else if forallb (fun p => existsb (String.eqb (fst p)) keywords) kwargs
  then bind_from 0 keywords required args kwargs
  else inl (arg_error "unexpected keyword argument").

(** Format unit [I]: a Python integer converted to [unsigned int]
    without overflow checking. *)
Definition convert_I (v : PyValue) : option Z :=
  match v with
  | PyLong z => Some (z mod 2 ^ 32)
  | PyBool b => Some (if b then 1 else 0)
  | _ => None
  end.

(** Format unit [(II)] on a tuple: exactly two integers. The other
    sequences the format unit takes live in the store and are read by
    [convert_II_seq] below. *)
Definition convert_II (v : PyValue) : option (Z * Z) :=
  match v with
  | PyTuple [a; b] =>
      match convert_I a, convert_I b with
      | Some x, Some y => Some (x, y)
      | _, _ => None
      end
  | _ => None
  end.

Section Binding.
Context `{E : Engine}.

(** The five object structs of [binding.c]. *)
Record Node := {
  node_node : TSNode;
  node_children : option loc;
  node_tree : option loc
}.

Record Tree := {
  tree_tree : TSTree;
  tree_source : option PyValue;
  tree_edited : Z
}.

Record Parser := { parser_parser : TSParser }.

Record TreeCursor := {
  cursor_cursor : TSTreeCursor;
  cursor_node : option loc;
  cursor_tree : option loc
}.

Record Query := {
  query_query : TSQuery;
  query_capture_names : list PyValue
}.

(** Objects of the store. A list is a C array of item pointers, so a
    slot may still be [NULL] ([None]) after [PyList_New]. [InstanceObj]
    stands for an instance of any other class, with its attributes. *)
Inductive PyObject :=
  | NodeObj (n : Node)
  | TreeObj (t : Tree)
  | ParserObj (p : Parser)
  | TreeCursorObj (c : TreeCursor)
  | QueryObj (q : Query)
  | ListObj (items : list (option PyValue))
  | InstanceObj (type_name : string) (attrs : gmap string PyValue).

(** The state the binding runs in: the object store and the two
    file-level statics [default_cursor] and [query_cursor]. *)
Record State := {
  heap : gmap loc PyObject;
  default_cursor : TSTreeCursor;
  query_cursor : option TSQueryCursor
}.

(** [tp_alloc]: a new object at an address not in use. *)
Definition alloc (h : gmap loc PyObject) (o : PyObject)
  : loc * gmap loc PyObject :=
  let l := fresh (dom h) in (l, <[l := o]> h).

(** *** Node *)

Definition node_new_internal (h : gmap loc PyObject) (node : TSNode)
    (tree : loc) : loc * gmap loc PyObject :=
  alloc h (NodeObj {| node_node := node; node_tree := Some tree;
                      node_children := None |}).

Definition node_is_instance (h : gmap loc PyObject) (v : PyValue) : bool :=
  match v with
  | PyRef l => match h !! l with Some (NodeObj _) => true | _ => false end
  | _ => false
  end.

(** The cast of a value for which [node_is_instance] holds to a Node. *)
Definition as_node (h : gmap loc PyObject) (v : PyValue) : option Node :=
  match v with
  | PyRef l => match h !! l with Some (NodeObj n) => Some n | _ => None end
  | _ => None
  end.

(** The [op] argument of a [tp_richcompare] slot. *)
Inductive richcmp := Py_LT | Py_LE | Py_EQ | Py_NE | Py_GT | Py_GE.

Definition node_compare (h : gmap loc PyObject) (self : Node)
    (other : PyValue) (op : richcmp) : PyValue :=
  if node_is_instance h other then
    match as_node h other with
    | Some other =>
        let result := ts_node_eq (node_node self) (node_node other) in
        match op with
        | Py_EQ => PyBool result
        | Py_NE => PyBool (negb result)
        | _ => Py_False
        end
    | None => Py_False
    end
  else Py_False.

Definition node_get_child_count (self : Node) : PyValue :=
  let length := Z.of_N (ts_node_child_count (node_node self)) in
  PyLong length.

(** [PyList_SetItem]: stores into an existing slot; an index out of
    range leaves the list alone and sets [IndexError]. *)
Definition PyList_SetItem (h : gmap loc PyObject) (lst : loc) (i : nat)
    (item : PyValue) : gmap loc PyObject * option PyErr :=
  match h !! lst with
  | Some (ListObj items) =>
      if (i <? length items)%nat
      then (<[lst := ListObj (<[i := Some item]> items)]> h, None)
      else (h, Some (PyErr_SetString PyExc_IndexError
                       "list assignment index out of range"))
  | _ => (h, Some (PyErr_SetString PyExc_SystemError "bad internal call"))
  end.

(** The [do ... while] loop of [node_get_children]: stores a Node for the
    cursor's current position into slot [i], then advances to the next
    sibling. [fuel] bounds the number of iterations; [None] means the
    bound was reached. [err] is the error indicator. *)
Fixpoint children_loop (fuel : nat) (h : gmap loc PyObject)
    (cursor : TSTreeCursor) (tree : loc) (result : loc) (i : nat)
    (err : option PyErr)
  : option (gmap loc PyObject * TSTreeCursor * option PyErr) :=
  match fuel with
  | O => None
  | S fuel =>
      let child := ts_tree_cursor_current_node cursor in
      let '(item, h) := node_new_internal h child tree in
      let '(h, e) := PyList_SetItem h result i (PyRef item) in
      let err := match e with Some _ => e | None => err end in
      let '(more, cursor) := ts_tree_cursor_goto_next_sibling cursor in
      if more then children_loop fuel h cursor tree result (S i) err
      else Some (h, cursor, err)
  end.

Definition set_node_children (n : Node) (children : option loc) : Node :=
  {| node_node := node_node n; node_children := children;
     node_tree := node_tree n |}.

Definition node_get_children (fuel : nat) (st : State) (self : loc)
  : option (CResult * State) :=
  match heap st !! self with
  | Some (NodeObj n) =>
      match node_children n with
      | Some children => Some (Return (PyRef children), st)
      | None =>
          let length := Z.of_N (ts_node_child_count (node_node n)) in
          let '(result, h) :=
            alloc (heap st) (ListObj (replicate (Z.to_nat length) None)) in
          let filled :=
            if 0 <? length then
              match node_tree n with
              | Some tree =>
                  let cursor :=
                    ts_tree_cursor_reset (default_cursor st) (node_node n) in
                  let cursor :=
                    snd (ts_tree_cursor_goto_first_child cursor) in
                  match children_loop fuel h cursor tree result 0 None with
                  | Some r => Some (Some r)
                  | None => None
                  end
              | None => Some None
              end
            else Some (Some (h, default_cursor st, None)) in
          match filled with
          | None => None
          | Some None => Some (Crash, st)
          | Some (Some (h, cursor, err)) =>
              let h := <[self := NodeObj (set_node_children n (Some result))]> h in
              let st := {| heap := h; default_cursor := cursor;
                           query_cursor := query_cursor st |} in
              Some (match err with
                    | None => Return (PyRef result)
                    | Some e => ReturnWithError (PyRef result) e
                    end, st)
          end
      end
  | _ => Some (Crash, st)
  end.

(** *** Tree *)

Definition tree_get_text (self : Tree) : PyValue :=
  if negb (tree_edited self =? 0) then Py_None
  else match tree_source self with
       | None => Py_None
       | Some source => source
       end.

(** [PyMemoryView_FromObject]: only objects with the buffer protocol. *)
Definition PyMemoryView_FromObject (v : PyValue) : option (list byte) :=
  match v with
  | PyBytes bs | PyMemoryView bs => Some bs
  | _ => None
  end.

(** Subscription of a one-dimensional memory view by [slice(start, stop)]
    with non-negative bounds: both are clipped to the length. *)
Definition memoryview_getslice (bs : list byte) (start stop : N)
  : list byte :=
  let len := N.of_nat (length bs) in
  let start := N.min start len in
  let stop := N.min stop len in
  take (N.to_nat (stop - start)) (drop (N.to_nat start) bs).

Definition node_get_text (h : gmap loc PyObject) (self : Node) : CResult :=
  match node_tree self with
  | None => Raise (PyErr_SetString PyExc_ValueError "No tree")
  | Some t =>
      match h !! t with
      | Some (TreeObj tree) =>
          let source := tree_get_text tree in
          match source with
          | Py_None => Return Py_None
          | _ =>
              let start_byte := ts_node_start_byte (node_node self) in
              let end_byte := ts_node_end_byte (node_node self) in
              match PyMemoryView_FromObject source with
              | None =>
                  Raise (PyErr_SetString PyExc_RuntimeError
                           "PyMemoryView_FromObject failed")
              | Some node_mv =>
                  Return (PyMemoryView
                            (memoryview_getslice node_mv start_byte end_byte))
              end
          end
      | _ => Crash
      end
  end.

Definition tree_get_root_node (h : gmap loc PyObject) (self : loc)
  : CResult * gmap loc PyObject :=
  match h !! self with
  | Some (TreeObj t) =>
      let '(n, h) := node_new_internal h (ts_tree_root_node (tree_tree t)) self in
      (Return (PyRef n), h)
  | _ => (Crash, h)
  end.

Definition edit_keywords : list string :=
  ["start_byte"; "old_end_byte"; "new_end_byte";
   "start_point"; "old_end_point"; "new_end_point"]%string.

(** The items of a sequence, as the format unit [(II)] reads them
    ([PySequence_Check], [PySequence_Size], [PySequence_GetItem]): those
    of a tuple, of a list of the store, and of a memory view, whose items
    are its bytes as integers. A bytes object is refused by the format
    unit; the items of a string are strings, which [I] refuses, so that a
    string is refused here with the same outcome. A list with a slot
    that was never set is read as no sequence. *)
Definition sequence_items (h : gmap loc PyObject) (v : PyValue)
  : option (list PyValue) :=
  match v with
  | PyTuple items => Some items
  | PyMemoryView bs => Some ((fun b => PyLong (Z.of_N (Byte.to_N b))) <$> bs)
  | PyRef l =>
      match h !! l with
      | Some (ListObj items) => mapM id items
      | _ => None
      end
  | _ => None
  end.

(** Format unit [(II)]: a sequence of exactly two integers. *)
Definition convert_II_seq (h : gmap loc PyObject) (v : PyValue)
  : option (Z * Z) :=
  match sequence_items h v with
  | Some [a; b] =>
      match convert_I a, convert_I b with
      | Some x, Some y => Some (x, y)
      | _, _ => None
      end
  | _ => None
  end.

(** [PyArg_ParseTupleAndKeywords] with the format [III(II)(II)(II)];
    [point] converts the three [(II)] units. *)
Definition parse_edit_with (point : PyValue -> option (Z * Z))
    (args : list PyValue) (kwargs : list (string * PyValue))
  : PyErr + TSInputEdit :=
  match bind_args edit_keywords 6 args kwargs with
  | inl e => inl e
  | inr [Some a; Some b; Some c; Some d; Some e; Some f] =>
      match convert_I a, convert_I b, convert_I c,
            point d, point e, point f with
      | Some start_byte, Some old_end_byte, Some new_end_byte,
        Some (start_row, start_column),
        Some (old_end_row, old_end_column),
        Some (new_end_row, new_end_column) =>
          inr {| start_byte := start_byte;
                 old_end_byte := old_end_byte;
                 new_end_byte := new_end_byte;
                 start_point := {| row := start_row; column := start_column |};
                 old_end_point :=
                   {| row := old_end_row; column := old_end_column |};
                 new_end_point :=
                   {| row := new_end_row; column := new_end_column |} |}
      | _, _, _, _, _, _ => inl (arg_error "an integer is required")
      end
  | inr _ => inl (arg_error "missing required argument")
  end.

(** The parse of a call whose points are tuples, which does not depend
    on the store. *)
Definition parse_edit_args : list PyValue -> list (string * PyValue)
  -> PyErr + TSInputEdit :=
  parse_edit_with convert_II.

Definition tree_edit (h : gmap loc PyObject) (self : loc)
    (args : list PyValue) (kwargs : list (string * PyValue))
  : CResult * gmap loc PyObject :=
  match h !! self with
  | Some (TreeObj t) =>
      match parse_edit_with (convert_II_seq h) args kwargs with
      | inr edit =>
          let t := {| tree_tree := ts_tree_edit (tree_tree t) edit;
                      tree_source := tree_source t;
                      tree_edited := 1 |} in
          (Return Py_None, <[self := TreeObj t]> h)
      | inl e => (ReturnWithError Py_None e, h)
      end
  | _ => (Crash, h)
  end.

Definition tree_new_internal (h : gmap loc PyObject) (tree : TSTree)
    (source : PyValue) : loc * gmap loc PyObject :=
  alloc h (TreeObj {| tree_tree := tree; tree_edited := 0;
                      tree_source := Some source |}).

(** *** TreeCursor *)

Definition set_cursor_node (c : TreeCursor) (node : option loc)
  : TreeCursor :=
  {| cursor_cursor := cursor_cursor c; cursor_node := node;
     cursor_tree := cursor_tree c |}.

Definition tree_cursor_get_node (h : gmap loc PyObject) (self : loc)
  : CResult * gmap loc PyObject :=
  match h !! self with
  | Some (TreeCursorObj c) =>
      match cursor_node c with
      | Some node => (Return (PyRef node), h)
      | None =>
          match cursor_tree c with
          | Some tree =>
              let '(node, h) :=
                node_new_internal h
                  (ts_tree_cursor_current_node (cursor_cursor c)) tree in
              (Return (PyRef node),
               <[self := TreeCursorObj (set_cursor_node c (Some node))]> h)
          | None => (Crash, h)
          end
      end
  | _ => (Crash, h)
  end.

Definition tree_cursor_current_field_name (h : gmap loc PyObject)
    (self : loc) : CResult * gmap loc PyObject :=
  match h !! self with
  | Some (TreeCursorObj c) =>
      match ts_tree_cursor_current_field_name (cursor_cursor c) with
      | None => (Return Py_None, h)
      | Some field_name => (Return (PyUnicode field_name), h)
      end
  | _ => (Crash, h)
  end.

(** The common shape of the three movement methods: run the engine
    primitive on the cursor in place and drop the cached node when it
    reports a move. *)
Definition tree_cursor_goto
    (move : TSTreeCursor -> bool * TSTreeCursor)
    (h : gmap loc PyObject) (self : loc) : CResult * gmap loc PyObject :=
  match h !! self with
  | Some (TreeCursorObj c) =>
      let '(result, cursor) := move (cursor_cursor c) in
      let c := {| cursor_cursor := cursor;
                  cursor_node := if result then None else cursor_node c;
                  cursor_tree := cursor_tree c |} in
      (Return (PyBool result), <[self := TreeCursorObj c]> h)
  | _ => (Crash, h)
  end.

Definition tree_cursor_goto_parent :=
  tree_cursor_goto ts_tree_cursor_goto_parent.

Definition tree_cursor_goto_first_child :=
  tree_cursor_goto ts_tree_cursor_goto_first_child.

Definition tree_cursor_goto_next_sibling :=
  tree_cursor_goto ts_tree_cursor_goto_next_sibling.

Definition tree_cursor_new_internal (h : gmap loc PyObject) (node : TSNode)
    (tree : loc) : loc * gmap loc PyObject :=
  alloc h (TreeCursorObj {| cursor_cursor := ts_tree_cursor_new node;
                            cursor_node := None;
                            cursor_tree := Some tree |}).

(** *** Parser *)

(** [PyObject_IsInstance(v, &tree_type)] with the cast that follows. *)
Definition as_tree (h : gmap loc PyObject) (v : PyValue) : option Tree :=
  match v with
  | PyRef l => match h !! l with Some (TreeObj t) => Some t | _ => None end
  | _ => None
  end.

Definition parser_parse (h : gmap loc PyObject) (self : loc)
    (args : list PyValue) : CResult * gmap loc PyObject :=
  match h !! self with
  | Some (ParserObj p) =>
      (* PyArg_UnpackTuple(args, "ref", 1, 2, ...) *)
      match args with
      | source_code :: old_tree_arg =>
          match old_tree_arg with
          | _ :: _ :: _ =>
              (Raise (arg_error "ref expected at most 2 arguments"), h)
          | _ =>
              let old_tree_arg := head old_tree_arg in
              match source_code with
              | PyBytes bytes =>
                  let old_tree :=
                    match old_tree_arg with
                    | None => Some None
                    | Some v =>
                        match as_tree h v with
                        | Some t => Some (Some (tree_tree t))
                        | None => None
                        end
                    end in
                  match old_tree with
                  | None =>
                      (Raise (PyErr_SetString PyExc_TypeError
                                "Second argument to parse must be a Tree"), h)
                  | Some old_tree =>
                      let length := Z.of_nat (length bytes) mod 2 ^ 32 in
                      let '(new_tree, parser) :=
                        ts_parser_parse_string
                          (parser_parser p) old_tree bytes length in
                      let h :=
                        <[self := ParserObj {| parser_parser := parser |}]> h in
                      match new_tree with
                      | None =>
                          (Raise (PyErr_SetString PyExc_ValueError
                                    "Parsing failed"), h)
                      | Some new_tree =>
                          let '(tree, h) :=
                            tree_new_internal h new_tree source_code in
                          (Return (PyRef tree), h)
                      end
                  end
              | _ =>
                  (Raise (PyErr_SetString PyExc_TypeError
                            "First argument to parse must be bytes"), h)
              end
          end
      | [] => (Raise (arg_error "ref expected at least 1 argument"), h)
      end
  | _ => (Crash, h)
  end.

(** [PyObject_GetAttrString(arg, "language_id")]: only instances carry
    attributes of their own in this model. *)
Definition get_language_id (h : gmap loc PyObject) (arg : PyValue)
  : option PyValue :=
  match arg with
  | PyRef l =>
      match h !! l with
      | Some (InstanceObj _ attrs) => attrs !! "language_id"%string
      | _ => None
      end
  | _ => None
  end.

(** [PyLong_Check] and the integer it holds. *)
Definition as_long (v : PyValue) : option Z :=
  match v with
  | PyLong z => Some z
  | PyBool b => Some (if b then 1 else 0)
  | _ => None
  end.

(** The decimal digits of an unsigned number, as [%u] prints them. *)
Definition format_u (n : N) : string :=
  NilZero.string_of_uint (N.to_uint n).

(** [PyLong_AsVoidPtr] where pointers have 64 bits: the address the
    integer denotes, and [NULL] (0) for an integer no pointer can hold. *)
Definition PyLong_AsVoidPtr (z : Z) : Z :=
  if (- 2 ^ 63 <=? z) && (z <? 2 ^ 64) then z mod 2 ^ 64 else 0.

(** [parser_set_language]. The pointer is tested against [NULL] only: at
    any other address where no language is, [ts_language_version] reads
    memory that is none of the program's. *)
Definition parser_set_language (h : gmap loc PyObject) (self : loc)
    (arg : PyValue) : CResult * gmap loc PyObject :=
  match h !! self with
  | Some (ParserObj p) =>
      match get_language_id h arg with
      | None =>
          (Raise (PyErr_SetString PyExc_TypeError
                    "Argument to set_language must be a Language"), h)
      | Some language_id =>
          match as_long language_id with
          | None =>
              (Raise (PyErr_SetString PyExc_TypeError
                        "Language ID must be an integer"), h)
          | Some id =>
              match language_of_id id with
              | None =>
                  if PyLong_AsVoidPtr id =? 0
                  then (Raise (PyErr_SetString PyExc_ValueError
                                 "Language ID must not be null"), h)
                  else (Crash, h)
              | Some language =>
                  let version := ts_language_version language in
                  if (version <? TREE_SITTER_MIN_COMPATIBLE_LANGUAGE_VERSION)%N
                     || (TREE_SITTER_LANGUAGE_VERSION <? version)%N
                  then
                    (Raise (PyErr_SetString PyExc_ValueError
                       ("Incompatible Language version " ++ format_u version
                        ++ ". Must not be between "
                        ++ format_u TREE_SITTER_MIN_COMPATIBLE_LANGUAGE_VERSION
                        ++ " and "
                        ++ format_u TREE_SITTER_LANGUAGE_VERSION)%string), h)
                  else
                    let parser :=
                      ts_parser_set_language (parser_parser p) language in
                    (Return Py_None,
                     <[self := ParserObj {| parser_parser := parser |}]> h)
              end
          end
      end
  | _ => (Crash, h)
  end.

(** *** Query *)

(** [iswalnum] on a [char] of the pattern source: the letters and digits
    of ASCII (a byte above 127 is a negative [char] and no wide
    alphanumeric). *)
Definition iswalnum (c : byte) : bool :=
  let n := Byte.to_N c in
  ((48 <=? n) && (n <=? 57) || (65 <=? n) && (n <=? 90)
   || (97 <=? n) && (n <=? 122))%N.

(** The loop condition on [*word_end]: alphanumeric or one of
    [-] (45), [_] (95), [?] (63), [.] (46). *)
Definition is_word_char (c : byte) : bool :=
  let n := Byte.to_N c in
  (iswalnum c || (n =? 45) || (n =? 95) || (n =? 63) || (n =? 46))%N.

(** The [while] loop that advances [word_end], over the bytes between
    [word_start] and [&source[length]]: the bytes it steps over. *)
Fixpoint scan_word (rest : list byte) : list byte :=
  match rest with
  | c :: rest => if is_word_char c then c :: scan_word rest else []
  | [] => []
  end.

(** The text [%s] prints for [&source[error_offset]] once [*word_end]
    has been overwritten with the terminator. *)
Definition error_word (source : list byte) (length : Z) (error_offset : N)
  : string :=
  string_of_list_byte
    (scan_word (drop (N.to_nat error_offset) (take (Z.to_nat length) source))).

(** The exception set by the failure branch of [query_new_internal]. *)
Definition query_error (source : list byte) (length : Z) (error_offset : N)
    (error_type : TSQueryError) : PyErr :=
  let word := error_word source length error_offset in
  match error_type with
  | TSQueryErrorNodeType =>
      PyErr_SetString PyExc_NameError ("Invalid node type " ++ word)
  | TSQueryErrorField =>
      PyErr_SetString PyExc_NameError ("Invalid field name " ++ word)
  | TSQueryErrorCapture =>
      PyErr_SetString PyExc_NameError ("Invalid capture name " ++ word)
  | _ =>
      PyErr_SetString PyExc_SyntaxError
        ("Invalid syntax at offset " ++ format_u error_offset)
  end.

Definition query_new_internal (h : gmap loc PyObject) (language : TSLanguage)
    (source : list byte) (length : Z) : CResult * gmap loc PyObject :=
  match ts_query_new language source length with
  | inr (error_offset, error_type) =>
      (Raise (query_error source length error_offset error_type), h)
  | inl query =>
      let n := ts_query_capture_count query in
      let capture_names :=
        (fun i => PyUnicode (ts_query_capture_name_for_id query i))
          <$> seq 0 n in
      let '(q, h) :=
        alloc h (QueryObj {| query_query := query;
                             query_capture_names := capture_names |}) in
      (Return (PyRef q), h)
  end.

Definition captures_keywords : list string :=
  ["node"; "start_point"; "end_point"]%string.

(** [PyArg_ParseTupleAndKeywords] with the format [O|(II)(II)]; the four
    coordinates start out as zero, and [point] converts the two [(II)]
    units. *)
Definition parse_captures_with (point : PyValue -> option (Z * Z))
    (args : list PyValue) (kwargs : list (string * PyValue))
  : PyErr + (PyValue * (Z * Z) * (Z * Z)) :=
  match bind_args captures_keywords 1 args kwargs with
  | inl e => inl e
  | inr [Some node; start_point; end_point] =>
      let conv (o : option PyValue) :=
        match o with
        | None => Some (0, 0)
        | Some v => point v
        end in
      match conv start_point, conv end_point with
      | Some s, Some e => inr (node, s, e)
      | _, _ => inl (arg_error "an integer is required")
      end
  | inr _ => inl (arg_error "missing required argument")
  end.

(** The parse of a call whose points are tuples, which does not depend
    on the store. *)
Definition parse_captures_args : list PyValue -> list (string * PyValue)
  -> PyErr + (PyValue * (Z * Z) * (Z * Z)) :=
  parse_captures_with convert_II.

Definition PyList_Append (h : gmap loc PyObject) (lst : loc)
    (item : PyValue) : gmap loc PyObject :=
  match h !! lst with
  | Some (ListObj items) => <[lst := ListObj (items ++ [Some item])]> h
  | _ => h
  end.

(** The [while (ts_query_cursor_next_capture(...))] loop. [None] means
    that [fuel] iterations did not exhaust the cursor; [Some None] that
    the loop read past [capture_names] or through a [NULL] tree. *)
Fixpoint captures_loop (fuel : nat) (h : gmap loc PyObject)
    (cursor : TSQueryCursor) (tree : option loc)
    (capture_names : list PyValue) (result : loc)
  : option (option (gmap loc PyObject * TSQueryCursor)) :=
  match fuel with
  | O => None
  | S fuel =>
      match ts_query_cursor_next_capture cursor with
      | None => Some (Some (h, cursor))
      | Some ((capture, index), cursor) =>
          match tree, capture_names !! index with
          | Some t, Some capture_name =>
              let '(capture_node, h) := node_new_internal h capture t in
              let h :=
                PyList_Append h result
                  (PyTuple [PyRef capture_node; capture_name]) in
              captures_loop fuel h cursor tree capture_names result
          | _, _ => Some None
          end
      end
  end.

(** The part of [query_captures] after the arguments are checked, on the
    execution cursor [cursor]. *)
Definition run_captures (fuel : nat) (st : State) (self : Query)
    (node : Node) (cursor : TSQueryCursor) : option (CResult * State) :=
  let cursor := ts_query_cursor_exec cursor (query_query self) (node_node node) in
  let '(result, h) := alloc (heap st) (ListObj []) in
  match captures_loop fuel h cursor (node_tree node)
          (query_capture_names self) result with
  | None => None
  | Some None => Some (Crash, st)
  | Some (Some (h, cursor)) =>
      Some (Return (PyRef result),
            {| heap := h; default_cursor := default_cursor st;
               query_cursor := Some cursor |})
  end.

Definition query_captures (fuel : nat) (st : State) (self : Query)
    (args : list PyValue) (kwargs : list (string * PyValue))
  : option (CResult * State) :=
  match parse_captures_with (convert_II_seq (heap st)) args kwargs with
  | inl e => Some (Raise e, st)
  | inr (node, (start_row, start_column), (end_row, end_column)) =>
      match as_node (heap st) node with
      | None =>
          Some (Raise (PyErr_SetString PyExc_TypeError
                         "First argument to captures must be a Node"), st)
      | Some node =>
          let cursor :=
            match query_cursor st with
            | None => ts_query_cursor_new
            | Some cursor => cursor
            end in
          run_captures fuel st self node cursor
      end
  end.

(** The operation as the specification words it: the search is
    restricted to the point range when the caller gives one. It differs
    from [query_captures] only in handing the range to the engine. *)
Definition spec_query_captures (fuel : nat) (st : State) (self : Query)
    (args : list PyValue) (kwargs : list (string * PyValue))
  : option (CResult * State) :=
  match parse_captures_with (convert_II_seq (heap st)) args kwargs with
  | inl e => Some (Raise e, st)
  | inr (node, (start_row, start_column), (end_row, end_column)) =>
      match as_node (heap st) node with
      | None =>
          Some (Raise (PyErr_SetString PyExc_TypeError
                         "First argument to captures must be a Node"), st)
      | Some node =>
          let cursor :=
            match query_cursor st with
            | None => ts_query_cursor_new
            | Some cursor => cursor
            end in
          let ranged := (2 <=? length args + length kwargs)%nat in
          let cursor :=
            if ranged then
              ts_query_cursor_set_point_range cursor
                {| row := start_row; column := start_column |}
                {| row := end_row; column := end_column |}
            else cursor in
          run_captures fuel st self node cursor
      end
  end.

End Binding.

(** ** A small engine

    An executable instance of the interface, used to run the binding on
    concrete inputs: a syntax tree is a rose tree, a node is a subtree
    with its path from the root, the parser splits its input at spaces
    into [word] tokens under a [module] root, and a query has the shape
    [(kind) @name]. *)

Module Toy.

#[warnings="-register-all"]
Inductive syntax :=
  Syn (kind : string) (sb eb : N) (kids : list syntax).

Definition kind (s : syntax) : string := let 'Syn k _ _ _ := s in k.
Definition sb (s : syntax) : N := let 'Syn _ b _ _ := s in b.
Definition eb (s : syntax) : N := let 'Syn _ _ e _ := s in e.
Definition kids (s : syntax) : list syntax := let 'Syn _ _ _ ks := s in ks.

Record node := { n_tree : nat; n_path : list nat; n_syn : syntax }.

Definition node_eq (a b : node) : bool :=
  (n_tree a =? n_tree b)%nat && bool_decide (n_path a = n_path b).

(** All input is on one line: the column is the byte offset. *)
Definition point_of (b : N) : TSPoint := {| row := 0; column := Z.of_N b |}.

Record tree := { t_id : nat; t_root : syntax }.

Definition root_node (t : tree) : node :=
  {| n_tree := t_id t; n_path := []; n_syn := t_root t |}.

Definition edit (t : tree) (e : TSInputEdit) : tree :=
  let 'Syn k b en ks := t_root t in
  {| t_id := t_id t;
     t_root := Syn k b (Z.to_N (Z.of_N en - old_end_byte e + new_end_byte e)) ks |}.

Definition child_at (p : node) (i : nat) : option node :=
  (fun k => {| n_tree := n_tree p; n_path := n_path p ++ [i]; n_syn := k |})
    <$> kids (n_syn p) !! i.

Definition children_of (p : node) : list node :=
  imap (fun i k => {| n_tree := n_tree p; n_path := n_path p ++ [i];
                      n_syn := k |}) (kids (n_syn p)).

Record cursor := { cur : node; above : list node }.

Definition cursor_new (n : node) : cursor := {| cur := n; above := [] |}.

Definition goto_parent (c : cursor) : bool * cursor :=
  match above c with
  | p :: rest => (true, {| cur := p; above := rest |})
  | [] => (false, c)
  end.

Definition goto_first_child (c : cursor) : bool * cursor :=
  match child_at (cur c) 0 with
  | Some k => (true, {| cur := k; above := cur c :: above c |})
  | None => (false, c)
  end.

Definition goto_next_sibling (c : cursor) : bool * cursor :=
  match above c with
  | p :: _ =>
      match child_at p (S (List.last (n_path (cur c)) 0%nat)) with
      | Some k => (true, {| cur := k; above := above c |})
      | None => (false, c)
      end
  | [] => (false, c)
  end.

Record language := { l_version : N; l_symbols : list string }.

Definition lookup_language (id : Z) : option language :=
  if id =? 1 then Some {| l_version := 11; l_symbols := ["module"; "word"] |}
  else if id =? 2 then Some {| l_version := 0; l_symbols := ["module"] |}
  else if id =? 3 then Some {| l_version := 12; l_symbols := ["module"] |}
  else None.

Record parser := { p_language : option language }.

(** Splits [bs], which starts at offset [pos], at spaces; [start] is the
    offset where the pending word began, if one is pending. *)
Fixpoint words (bs : list byte) (pos : N) (start : option N) : list syntax :=
  match bs with
  | [] =>
      match start with
      | Some s => [Syn "word" s pos []]
      | None => []
      end
  | b :: bs =>
      if (Byte.to_N b =? 32)%N then
        match start with
        | Some s => Syn "word" s pos [] :: words bs (pos + 1)%N None
        | None => words bs (pos + 1)%N None
        end
      else
        words bs (pos + 1)%N
          (match start with Some s => Some s | None => Some pos end)
  end.

Definition parse_string (p : parser) (old : option tree) (bs : list byte)
    (len : Z) : option tree * parser :=
  match p_language p with
  | None => (None, p)
  | Some _ =>
      let bs := take (Z.to_nat len) bs in
      (Some {| t_id := length bs;
               t_root := Syn "module" 0 (N.of_nat (length bs)) (words bs 0 None) |},
       p)
  end.

Record query := { q_kind : string; q_names : list string }.

Definition ident (bs : list byte) : list byte := scan_word bs.

(** Compiles [(kind)] or [(kind) @name]. *)
Definition query_new (l : language) (src : list byte) (len : Z)
  : query + (N * TSQueryError) :=
  match take (Z.to_nat len) src with
  | b :: rest =>
      if (Byte.to_N b =? 40)%N then
        let k := ident rest in
        let after := drop (length k) rest in
        let off := N.of_nat (S (length k)) in
        if bool_decide (string_of_list_byte k ∈ l_symbols l) then
          match after with
          | c :: after =>
              if (Byte.to_N c =? 41)%N then
                match after with
                | [] => inl {| q_kind := string_of_list_byte k; q_names := [] |}
                | s :: a :: name =>
                    if (Byte.to_N s =? 32)%N && (Byte.to_N a =? 64)%N
                       && forallb is_word_char name
                    then inl {| q_kind := string_of_list_byte k;
                                q_names := [string_of_list_byte name] |}
                    else inr ((off + 1)%N, TSQueryErrorSyntax)
                | _ => inr ((off + 1)%N, TSQueryErrorSyntax)
                end
              else inr (off, TSQueryErrorSyntax)
          | [] => inr (off, TSQueryErrorSyntax)
          end
        else inr (1%N, TSQueryErrorNodeType)
      else inr (0%N, TSQueryErrorSyntax)
  | [] => inr (0%N, TSQueryErrorSyntax)
  end.

Fixpoint nodes_of (tid : nat) (path : list nat) (s : syntax) : list node :=
  {| n_tree := tid; n_path := path; n_syn := s |} ::
  match s with
  | Syn _ _ _ ks =>
      (fix go (i : nat) (ks : list syntax) : list node :=
         match ks with
         | [] => []
         | k :: ks => nodes_of tid (path ++ [i]) k ++ go (S i) ks
         end) 0%nat ks
  end.

Record qcursor := {
  qc_range : option (TSPoint * TSPoint);
  qc_pending : list (node * nat)
}.

Definition point_lt (a b : TSPoint) : bool :=
  (row a <? row b) || (row a =? row b) && (column a <? column b).

(** A node is searched when it intersects the range. *)
Definition in_range (r : option (TSPoint * TSPoint)) (n : node) : bool :=
  match r with
  | None => true
  | Some (s, e) =>
      point_lt (point_of (sb (n_syn n))) e && point_lt s (point_of (eb (n_syn n)))
  end.

Definition cursor_exec (c : qcursor) (q : query) (n : node)
  : qcursor :=
  {| qc_range := qc_range c;
     qc_pending :=
       match q_names q with
       | [] => []
       | _ =>
           (fun d => (d, 0%nat)) <$>
           filter (fun d => String.eqb (kind (n_syn d)) (q_kind q)
                            && in_range (qc_range c) d = true)
                  (nodes_of (n_tree n) (n_path n) (n_syn n))
       end |}.

Definition next_capture (c : qcursor)
  : option ((node * nat) * qcursor) :=
  match qc_pending c with
  | x :: rest => Some (x, {| qc_range := qc_range c; qc_pending := rest |})
  | [] => None
  end.

#[export] Instance engine : Engine := {|
  TSNode := node;
  TSTree := tree;
  TSTreeCursor := cursor;
  TSQuery := query;
  TSQueryCursor := qcursor;
  TSParser := parser;
  TSLanguage := language;
  ts_node_eq := node_eq;
  ts_node_child_count := fun n => N.of_nat (length (kids (n_syn n)));
  ts_node_start_byte := fun n => sb (n_syn n);
  ts_node_end_byte := fun n => eb (n_syn n);
  ts_node_start_point := fun n => point_of (sb (n_syn n));
  ts_node_end_point := fun n => point_of (eb (n_syn n));
  ts_tree_root_node := root_node;
  ts_tree_edit := edit;
  ts_tree_cursor_new := cursor_new;
  ts_tree_cursor_reset := fun _ n => cursor_new n;
  ts_tree_cursor_goto_parent := goto_parent;
  ts_tree_cursor_goto_first_child := goto_first_child;
  ts_tree_cursor_goto_next_sibling := goto_next_sibling;
  ts_tree_cursor_current_node := cur;
  ts_tree_cursor_current_field_name := fun _ => None;
  ts_parser_new := {| p_language := None |};
  ts_parser_parse_string := parse_string;
  ts_parser_set_language := fun _ l => {| p_language := Some l |};
  ts_language_version := l_version;
  TREE_SITTER_LANGUAGE_VERSION := 11;
  TREE_SITTER_MIN_COMPATIBLE_LANGUAGE_VERSION := 9;
  language_of_id := lookup_language;
  ts_query_new := query_new;
  ts_query_capture_count := fun q => length (q_names q);
  ts_query_capture_name_for_id := fun q i => default ""%string (q_names q !! i);
  ts_query_cursor_new := {| qc_range := None; qc_pending := [] |};
  ts_query_cursor_set_point_range :=
    fun c s e => {| qc_range := Some (s, e); qc_pending := qc_pending c |};
  ts_query_cursor_exec := cursor_exec;
  ts_query_cursor_next_capture := next_capture
|}.

End Toy.

(** ** The engine's contract, where a property depends on it *)

Section Contract.
Context `{E : Engine}.

(** The cursor stands on the first of the siblings [l] and
    [ts_tree_cursor_goto_next_sibling] walks through exactly those. *)
Fixpoint siblings_from (c : TSTreeCursor) (l : list TSNode) : Prop :=
  match l with
  | [] => False
  | x :: xs =>
      ts_tree_cursor_current_node c = x /\
      match xs with
      | [] => fst (ts_tree_cursor_goto_next_sibling c) = false
      | _ :: _ =>
          fst (ts_tree_cursor_goto_next_sibling c) = true /\
          siblings_from (snd (ts_tree_cursor_goto_next_sibling c)) xs
      end
  end.

(** [kids] are the immediate children of [n], in document order, as the
    engine presents them: the count it reports, and the walk of a cursor
    reset to [n] (from whatever state [c0]) and sent to its first child. *)
Definition has_children (c0 : TSTreeCursor) (n : TSNode)
    (kids : list TSNode) : Prop :=
  ts_node_child_count n = N.of_nat (length kids) /\
  (kids <> [] ->
   siblings_from
     (snd (ts_tree_cursor_goto_first_child (ts_tree_cursor_reset c0 n)))
     kids).

(** The three movement methods of a TreeCursor, each with the engine
    primitive it runs. *)
Inductive navigation := GotoParent | GotoFirstChild | GotoNextSibling.

Definition engine_move (nav : navigation)
  : TSTreeCursor -> bool * TSTreeCursor :=
  match nav with
  | GotoParent => ts_tree_cursor_goto_parent
  | GotoFirstChild => ts_tree_cursor_goto_first_child
  | GotoNextSibling => ts_tree_cursor_goto_next_sibling
  end.

Definition navigate (nav : navigation)
  : gmap loc PyObject -> loc -> CResult * gmap loc PyObject :=
  match nav with
  | GotoParent => tree_cursor_goto_parent
  | GotoFirstChild => tree_cursor_goto_first_child
  | GotoNextSibling => tree_cursor_goto_next_sibling
  end.

(** An error names a word when the word occurs in its message. *)
Definition names (e : PyErr) (word : string) : bool :=
  match String.index 0 word (exc_msg e) with
  | Some _ => true
  | None => false
  end.

(** The Node object [node_new_internal] creates. *)
Definition new_node (node : TSNode) (tree : loc) : PyObject :=
  NodeObj {| node_node := node; node_children := None;
             node_tree := Some tree |}.

End Contract.

(** ** A session on the small engine

    A parser bound to language 1, the tree it parses from [x = 1 + 2],
    the root Node and a cursor on the root. *)

Module Scenario.
Import Toy.

Definition parser_at : loc := 1%positive.
Definition language_at : loc := 2%positive.
Definition stale_language_at : loc := 3%positive.

Definition h0 : gmap loc PyObject :=
  {[ parser_at := ParserObj {| parser_parser := ts_parser_new |};
     language_at :=
       InstanceObj "Language" {[ "language_id"%string := PyLong 1 ]};
     stale_language_at :=
       InstanceObj "Language" {[ "language_id"%string := PyLong 2 ]} ]}.

Definition source : list byte := list_byte_of_string "x = 1 + 2".

Definition h1 : gmap loc PyObject :=
  snd (parser_set_language h0 parser_at (PyRef language_at)).

Definition h2 : gmap loc PyObject :=
  snd (parser_parse h1 parser_at [PyBytes source]).

Definition tree_at : loc := 4%positive.

Definition h3 : gmap loc PyObject := snd (tree_get_root_node h2 tree_at).

Definition root_at : loc := 5%positive.

Definition h4 : gmap loc PyObject :=
  snd (tree_cursor_new_internal h3
         (ts_tree_root_node
            {| t_id := 9; t_root := Syn "module" 0 9 (words source 0 None) |})
         tree_at).

Definition cursor_at : loc := 6%positive.

(** The store once the cursor has been asked for its node: the cursor
    holds the Node it handed out, at [cached_at]. *)
Definition h4_node : gmap loc PyObject :=
  snd (tree_cursor_get_node h4 cursor_at).

Definition cached_at : loc := 7%positive.

Definition st : State :=
  {| heap := h4;
     default_cursor := cursor_new (root_node {| t_id := 0; t_root := Syn "" 0 0 [] |});
     query_cursor := None |}.

Definition the_tree : Tree :=
  {| tree_tree := {| t_id := 9;
                     t_root := Syn "module" 0 9 (words source 0 None) |};
     tree_source := Some (PyBytes source);
     tree_edited := 0 |}.

Definition the_root : Node :=
  {| node_node := root_node (tree_tree the_tree);
     node_children := None;
     node_tree := Some tree_at |}.

(** The third word, [1], of the source. *)
Definition a_word : Node :=
  {| node_node := {| n_tree := 9; n_path := [2%nat]; n_syn := Syn "word" 4 5 [] |};
     node_children := None;
     node_tree := Some tree_at |}.

Definition word_query : Query :=
  {| query_query := {| q_kind := "word"; q_names := ["w"%string] |};
     query_capture_names := [PyUnicode "w"] |}.

(** The byte range and the capture name of every pair in the list a call
    of [captures] returned. *)
Definition capture_spans (r : option (CResult * State))
  : list (N * N * PyValue) :=
  match r with
  | Some (Return (PyRef l), st) =>
      match heap st !! l with
      | Some (ListObj items) =>
          omap (fun item =>
                  match item with
                  | Some (PyTuple [n; name]) =>
                      (fun n => (ts_node_start_byte (node_node n),
                                 ts_node_end_byte (node_node n), name))
                        <$> as_node (heap st) n
                  | _ => None
                  end) items
      | _ => []
      end
  | _ => []
  end.

End Scenario.

(** ** The rest of the binding

    The accessors and methods of [binding.c] around the ones above,
    with the engine primitives they call. *)

Class NodeEngine `{E : Engine} := {
  ts_node_is_null : TSNode -> bool;
  ts_node_parent : TSNode -> TSNode;
  ts_node_next_sibling : TSNode -> TSNode;
  ts_node_prev_sibling : TSNode -> TSNode;
  ts_node_next_named_sibling : TSNode -> TSNode;
  ts_node_prev_named_sibling : TSNode -> TSNode;
  (* the field id is a [uint16_t] *)
  ts_node_child_by_field_id : TSNode -> Z -> TSNode;
  ts_node_child_by_field_name : TSNode -> list byte -> Z -> TSNode;
  ts_language_field_id_for_name : TSLanguage -> list byte -> Z -> N
}.

Section Accessors.
Context `{NE : NodeEngine}.

(** *** Point *)

Definition point_new (point : TSPoint) : PyValue :=
  let row := PyLong (row point) in
  let column := PyLong (column point) in
  PyTuple [row; column].

Definition node_get_start_point (self : Node) : PyValue :=
  point_new (ts_node_start_point (node_node self)).

Definition node_get_end_point (self : Node) : PyValue :=
  point_new (ts_node_end_point (node_node self)).

(** *** Related nodes *)

(** The tail the accessors below share: [None] for the null node,
    otherwise a new Node on the tree of [self]. *)
Definition node_or_none (h : gmap loc PyObject) (self : Node)
    (found : TSNode) : CResult * gmap loc PyObject :=
  if ts_node_is_null found then (Return Py_None, h)
  else
    match node_tree self with
    | Some tree =>
        let '(n, h) := node_new_internal h found tree in
        (Return (PyRef n), h)
    | None => (Crash, h)
    end.

Definition node_get_next_sibling (h : gmap loc PyObject) (self : Node) :=
  let next_sibling := ts_node_next_sibling (node_node self) in
  node_or_none h self next_sibling.

Definition node_get_prev_sibling (h : gmap loc PyObject) (self : Node) :=
  let prev_sibling := ts_node_prev_sibling (node_node self) in
  node_or_none h self prev_sibling.

Definition node_get_next_named_sibling (h : gmap loc PyObject)
    (self : Node) :=
  let next_named_sibling := ts_node_next_named_sibling (node_node self) in
  node_or_none h self next_named_sibling.

Definition node_get_prev_named_sibling (h : gmap loc PyObject)
    (self : Node) :=
  let prev_named_sibling := ts_node_prev_named_sibling (node_node self) in
  node_or_none h self prev_named_sibling.

Definition node_get_parent (h : gmap loc PyObject) (self : Node) :=
  let parent := ts_node_parent (node_node self) in
  node_or_none h self parent.

(** Format unit [H]: a Python integer converted to [unsigned short]
    without overflow checking. *)
Definition convert_H (v : PyValue) : option Z :=
  match v with
  | PyLong z => Some (z mod 2 ^ 16)
  | PyBool b => Some (if b then 1 else 0)
  | _ => None
  end.

(** Format unit [s#]: the bytes of a string, of a bytes object or of a
    read-only buffer, such as the memory view that [node_get_text]
    returns, with their length. *)
Definition convert_s_hash (v : PyValue) : option (list byte * Z) :=
  match v with
  | PyUnicode s =>
      Some (list_byte_of_string s, Z.of_nat (length (list_byte_of_string s)))
  | PyBytes bs | PyMemoryView bs => Some (bs, Z.of_nat (length bs))
  | _ => None
  end.

Definition node_chield_by_field_id (h : gmap loc PyObject) (self : Node)
    (args : list PyValue) : CResult * gmap loc PyObject :=
  match args with
  | [a] =>
      match convert_H a with
      | Some field_id =>
          let child := ts_node_child_by_field_id (node_node self) field_id in
          node_or_none h self child
      | None => (Raise (arg_error "an integer is required"), h)
      end
  | _ => (Raise (arg_error "function takes exactly 1 argument"), h)
  end.


(** *** Walking *)

Definition node_walk (h : gmap loc PyObject) (self : Node)
  : CResult * gmap loc PyObject :=
  match node_tree self with
  | Some tree =>
      let '(c, h) := tree_cursor_new_internal h (node_node self) tree in
      (Return (PyRef c), h)
  | None => (Crash, h)
  end.

Definition tree_walk (h : gmap loc PyObject) (self : loc)
  : CResult * gmap loc PyObject :=
  match h !! self with
  | Some (TreeObj t) =>
      let '(c, h) :=
        tree_cursor_new_internal h (ts_tree_root_node (tree_tree t)) self in
      (Return (PyRef c), h)
  | _ => (Crash, h)
  end.

(** *** Module functions *)

(** [_language_field_id_for_name], format [Os#]. The language pointer is
    used unchecked: a first argument that is no integer, or one that
    names no language, is a null or wild pointer in the engine. *)
Definition language_field_id_for_name (args : list PyValue) : CResult :=
  match args with
  | [language_id; name] =>
      match convert_s_hash name with
      | Some (field_name, length) =>
          match as_long language_id ≫= language_of_id with
          | Some language =>
              let field_id :=
                ts_language_field_id_for_name language field_name length in
              if (field_id =? 0)%N then Return Py_None
              else Return (PyLong (Z.of_N field_id))
          | None => Crash
          end
      | None => Raise (arg_error "argument 2 must be str")
      end
  | _ => Raise (arg_error "function takes exactly 2 arguments")
  end.

(** [_language_query], format [Os#]; the length reaches
    [query_new_internal] through an [int] parameter. *)
Definition language_query (h : gmap loc PyObject) (args : list PyValue)
  : CResult * gmap loc PyObject :=
  match args with
  | [language_id; source] =>
      match convert_s_hash source with
      | Some (source, length) =>
          match as_long language_id ≫= language_of_id with
          | Some language =>
              let length := (length + 2 ^ 31) mod 2 ^ 32 - 2 ^ 31 in
              query_new_internal h language source length
          | None => (Crash, h)
          end
      | None => (Raise (arg_error "argument 2 must be str"), h)
      end
  | _ => (Raise (arg_error "function takes exactly 2 arguments"), h)
  end.

(** *** Sequences of calls *)

(** The calls a program can make on one TreeCursor. *)
Inductive cursor_op :=
  | OpMove (nav : navigation)
  | OpNode
  | OpFieldName.

Definition run_op (op : cursor_op) (h : gmap loc PyObject) (self : loc)
  : CResult * gmap loc PyObject :=
  match op with
  | OpMove nav => navigate nav h self
  | OpNode => tree_cursor_get_node h self
  | OpFieldName => tree_cursor_current_field_name h self
  end.

(** The store after the calls [ops], made one after the other. *)
Fixpoint run_ops (ops : list cursor_op) (h : gmap loc PyObject)
    (self : loc) : gmap loc PyObject :=
  match ops with
  | [] => h
  | op :: ops => run_ops ops (run_op op h self).2 self
  end.

(** The store after the calls of [edit] on the tree [self], each with
    its positional and keyword arguments, made one after the other. *)
Fixpoint run_edits (calls : list (list PyValue * list (string * PyValue)))
    (h : gmap loc PyObject) (self : loc) : gmap loc PyObject :=
  match calls with
  | [] => h
  | (args, kwargs) :: calls =>
      run_edits calls (tree_edit h self args kwargs).2 self
  end.

(** The cached Node of a cursor, when there is one, is a Node of the
    cursor's tree at the engine cursor's current position. *)
Definition cache_coherent (h : gmap loc PyObject) (self : loc)
    (tree : loc) : Prop :=
  exists c : TreeCursor,
    h !! self = Some (TreeCursorObj c) /\
    cursor_tree c = Some tree /\
    forall n, cursor_node c = Some n ->
      exists nd : Node,
        h !! n = Some (NodeObj nd) /\
        node_node nd = ts_tree_cursor_current_node (cursor_cursor c) /\
        node_tree nd = Some tree.

(** The engine's execution cursor reports exactly the captures [caps],
    in this order, and then no more. *)
Fixpoint captures_from (c : TSQueryCursor) (caps : list (TSNode * nat))
  : Prop :=
  match caps with
  | [] => ts_query_cursor_next_capture c = None
  | x :: xs =>
      match ts_query_cursor_next_capture c with
      | Some (y, c) => y = x /\ captures_from c xs
      | None => False
      end
  end.

(** The pair [captures] appends for the capture [x] and the Node [n]. *)
Definition capture_pair (names : list PyValue) (n : loc) (x : TSNode * nat)
  : option PyValue :=
  Some (PyTuple [PyRef n; default Py_None (names !! x.2)]).

(** The five accessors for a related node, with their primitives. *)
Inductive relative :=
  | Parent | NextSibling | PrevSibling | NextNamedSibling | PrevNamedSibling.

Definition engine_relative (r : relative) : TSNode -> TSNode :=
  match r with
  | Parent => ts_node_parent
  | NextSibling => ts_node_next_sibling
  | PrevSibling => ts_node_prev_sibling
  | NextNamedSibling => ts_node_next_named_sibling
  | PrevNamedSibling => ts_node_prev_named_sibling
  end.

Definition node_get_relative (r : relative)
  : gmap loc PyObject -> Node -> CResult * gmap loc PyObject :=
  match r with
  | Parent => node_get_parent
  | NextSibling => node_get_next_sibling
  | PrevSibling => node_get_prev_sibling
  | NextNamedSibling => node_get_next_named_sibling
  | PrevNamedSibling => node_get_prev_named_sibling
  end.

End Accessors.

(** ** Calls from Python

    The methods and accessors of the Tree, Node, TreeCursor and Parser
    types, as the method and accessor tables of [binding.c] expose them:
    a call names the operation, and comes with the object it is invoked
    on. *)

Section Calls.
Context `{NE : NodeEngine}.


Inductive kind := KNode | KTree | KParser | KCursor | KQuery | KList | KOther.









End Calls.

(** The small engine, completed: related nodes are found by path in the
    tree of the session; a node has its [k]-th child in field [k], and
    the fields 1 and 2 are named [first] and [second]. *)

Module ToyNodes.
Import Toy.

Definition null : node :=
  {| n_tree := 0; n_path := []; n_syn := Syn "" 0 0 [] |}.

Definition is_null (n : node) : bool := String.eqb (kind (n_syn n)) "".

Definition session_root : syntax :=
  Syn "module" 0 9 (words (list_byte_of_string "x = 1 + 2") 0 None).

Fixpoint subtree (s : syntax) (path : list nat) : option syntax :=
  match path with
  | [] => Some s
  | i :: path => kids s !! i ≫= fun k => subtree k path
  end.

Definition node_at (tid : nat) (path : list nat) : node :=
  match subtree session_root path with
  | Some s => {| n_tree := tid; n_path := path; n_syn := s |}
  | None => null
  end.

Definition parent (n : node) : node :=
  match n_path n with
  | [] => null
  | _ :: _ => node_at (n_tree n) (removelast (n_path n))
  end.

Definition next_sibling (n : node) : node :=
  match n_path n with
  | [] => null
  | _ :: _ =>
      node_at (n_tree n)
        (removelast (n_path n) ++ [S (List.last (n_path n) 0%nat)])
  end.

Definition prev_sibling (n : node) : node :=
  match List.last (n_path n) 0%nat with
  | O => null
  | S i => node_at (n_tree n) (removelast (n_path n) ++ [i])
  end.

Definition child_by_field_id (n : node) (id : Z) : node :=
  if id =? 0 then null
  else default null (child_at n (Z.to_nat (id - 1))).

Definition field_id_for_name (l : language) (name : list byte) (len : Z) : N :=
  let name := string_of_list_byte (take (Z.to_nat len) name) in
  if String.eqb name "first" then 1%N
  else if String.eqb name "second" then 2%N
  else 0%N.

#[export] Instance node_engine : NodeEngine := {|
  ts_node_is_null := is_null;
  ts_node_parent := parent;
  ts_node_next_sibling := next_sibling;
  ts_node_prev_sibling := prev_sibling;
  ts_node_next_named_sibling := next_sibling;
  ts_node_prev_named_sibling := prev_sibling;
  ts_node_child_by_field_id := child_by_field_id;
  ts_node_child_by_field_name :=
    fun n name len =>
      child_by_field_id n
        (Z.of_N (field_id_for_name
                   {| l_version := 11; l_symbols := [] |} name len));
  ts_language_field_id_for_name := field_id_for_name
|}.

End ToyNodes.

(** The session, continued: the tree after one edit, and a second handle
    on the root. *)

Module ScenarioMore.
Import Toy ToyNodes Scenario.

Definition an_edit : list PyValue :=
  [PyLong 0; PyLong 1; PyLong 2; PyTuple [PyLong 0; PyLong 0];
   PyTuple [PyLong 0; PyLong 1]; PyTuple [PyLong 0; PyLong 2]].

Definition h5 : gmap loc PyObject := (tree_edit h4 tree_at an_edit []).2.

Definition the_edited_tree : Tree :=
  {| tree_tree :=
       {| t_id := 9; t_root := Syn "module" 0 10 (words source 0 None) |};
     tree_source := Some (PyBytes source);
     tree_edited := 1 |}.

Definition second_root_at : loc := 7%positive.

Definition st_two_roots : State :=
  {| heap := (tree_get_root_node h4 tree_at).2;
     default_cursor := default_cursor st;
     query_cursor := None |}.

Definition five_words : list (node * nat) :=
  (fun k => (k, 0%nat)) <$> children_of (node_node the_root).

(** A language object whose [language_id], 7, is the address of no
    language, next to the objects of the session's first store. *)
Definition wild_language_at : loc := 8%positive.

Definition h0_wild : gmap loc PyObject :=
  <[wild_language_at :=
      InstanceObj "Language" {[ "language_id"%string := PyLong 7 ]}]> h0.

End ScenarioMore.

(** ** Properties *)

Section Properties.
Context `{E : Engine}.

Implicit Types (h : gmap loc PyObject) (l t : loc) (v : PyValue).

(** *** The store *)

Lemma alloc_fresh h o : h !! (alloc h o).1 = None.
Proof. apply (not_elem_of_dom (D := gset loc)), is_fresh. Qed.

Lemma alloc_lookup h o : (alloc h o).2 !! (alloc h o).1 = Some o.
Proof. apply lookup_insert_eq. Qed.

Lemma alloc_other h o l : is_Some (h !! l) -> (alloc h o).2 !! l = h !! l.
Proof.
  intros [x Hx]. unfold alloc; simpl.
  apply lookup_insert_ne. intros Heq.
  pose proof (alloc_fresh h o) as Hf. simpl in Hf.
  rewrite Heq, Hx in Hf. discriminate.
Qed.

Lemma node_is_instance_as_node h v :
  node_is_instance h v = true <-> is_Some (as_node h v).
Proof.
  destruct v; simpl; try (split; [discriminate | intros [? ?]; discriminate]).
  destruct (h !! l) as [[]|]; simpl;
    split; eauto; try discriminate; intros [? ?]; discriminate.
Qed.

(** *** Node comparison *)

Lemma node_compare_node h (self other : Node) v op :
  as_node h v = Some other ->
  node_compare h self v op =
    match op with
    | Py_EQ => PyBool (ts_node_eq (node_node self) (node_node other))
    | Py_NE => PyBool (negb (ts_node_eq (node_node self) (node_node other)))
    | _ => Py_False
    end.
Proof.
  intros Hv. unfold node_compare.
  destruct (node_is_instance h v) eqn:Hi.
  - rewrite Hv. reflexivity.
  - assert (is_Some (as_node h v)) as Hs by eauto.
    apply node_is_instance_as_node in Hs. congruence.
Qed.

Lemma node_compare_non_node h (self : Node) v op :
  node_is_instance h v = false -> node_compare h self v op = Py_False.
Proof. intros Hi. unfold node_compare. rewrite Hi. reflexivity. Qed.

(** Equality of two handles is the engine's position equality, whichever
    object carries the position. *)
Lemma node_compare_eq_position h (a b : Node) lb :
  h !! lb = Some (NodeObj b) ->
  node_compare h a (PyRef lb) Py_EQ
    = PyBool (ts_node_eq (node_node a) (node_node b)).
Proof.
  intros Hb. apply (node_compare_node h a b); simpl. rewrite Hb. reflexivity.
Qed.

(** Equality of handles is an equivalence wherever the engine's position
    equality is one. *)
Lemma node_compare_eq_equivalence h la lb lc (a b c : Node) :
  h !! la = Some (NodeObj a) ->
  h !! lb = Some (NodeObj b) ->
  h !! lc = Some (NodeObj c) ->
  (forall x : TSNode, ts_node_eq x x = true) ->
  (forall x y : TSNode, ts_node_eq x y = ts_node_eq y x) ->
  (forall x y z : TSNode,
     ts_node_eq x y = true -> ts_node_eq y z = true -> ts_node_eq x z = true) ->
  node_compare h a (PyRef la) Py_EQ = Py_True /\
  node_compare h a (PyRef lb) Py_EQ = node_compare h b (PyRef la) Py_EQ /\
  (node_compare h a (PyRef lb) Py_EQ = Py_True ->
   node_compare h b (PyRef lc) Py_EQ = Py_True ->
   node_compare h a (PyRef lc) Py_EQ = Py_True).
Proof.
  intros Ha Hb Hc Hrefl Hsym Htrans.
  rewrite (node_compare_eq_position h a a la Ha),
    (node_compare_eq_position h a b lb Hb),
    (node_compare_eq_position h b a la Ha),
    (node_compare_eq_position h b c lc Hc),
    (node_compare_eq_position h a c lc Hc).
  split; [by rewrite Hrefl|]. split; [by rewrite Hsym|].
  intros [= Hab] [= Hbc]. by rewrite (Htrans _ _ _ Hab Hbc).
Qed.

(** C3, on the code: comparing a Node with a value that is not a Node,
    here any integer, answers [False] to [!=] as it does to [==]; the
    claim asks for [True] on [!=]. *)
Theorem node_compare_ne_with_non_node h (self : Node) (z : Z) :
  node_compare h self (PyLong z) Py_EQ = Py_False /\
  node_compare h self (PyLong z) Py_NE = Py_False.
Proof. split; apply node_compare_non_node; reflexivity. Qed.

(** C10: for two Node handles [a] and [b], each of [<], [<=], [>] and
    [>=] returns [False] (a value, no exception); this includes the
    comparison of a handle with itself, for which [==] is [True] as soon
    as the engine's position equality is reflexive there. *)
Theorem node_compare_ordering_false h la lb (a b : Node) :
  h !! la = Some (NodeObj a) ->
  h !! lb = Some (NodeObj b) ->
  (node_compare h a (PyRef lb) Py_LT = Py_False /\
   node_compare h a (PyRef lb) Py_LE = Py_False /\
   node_compare h a (PyRef lb) Py_GT = Py_False /\
   node_compare h a (PyRef lb) Py_GE = Py_False) /\
  (ts_node_eq (node_node a) (node_node a) = true ->
   node_compare h a (PyRef la) Py_EQ = Py_True /\
   node_compare h a (PyRef la) Py_LE = Py_False /\
   node_compare h a (PyRef la) Py_GE = Py_False).
Proof.
  intros Ha Hb.
  assert (as_node h (PyRef la) = Some a) as Hna by (simpl; rewrite Ha; done).
  assert (as_node h (PyRef lb) = Some b) as Hnb by (simpl; rewrite Hb; done).
  split.
  - repeat split; rewrite (node_compare_node h a b) by done; reflexivity.
  - intros Hrefl.
    repeat split; rewrite (node_compare_node h a a) by done;
      rewrite ?Hrefl; reflexivity.
Qed.

(** *** Text *)

Lemma memoryview_getslice_spec (bs : list byte) (start stop : N) :
  memoryview_getslice bs start stop
    = take (N.to_nat stop - N.to_nat start) (drop (N.to_nat start) bs).
Proof.
  unfold memoryview_getslice.
  destruct (decide (N.to_nat start <= length bs)%nat) as [Hs|Hs].
  - rewrite (N.min_l start) by lia.
    destruct (decide (N.to_nat stop <= length bs)%nat) as [He|He].
    + rewrite (N.min_l stop) by lia. f_equal. lia.
    + rewrite (N.min_r stop) by lia.
      rewrite !take_ge; [done | rewrite length_drop; lia | rewrite length_drop; lia].
  - rewrite (N.min_r start) by lia.
    rewrite !drop_ge by lia. by rewrite !take_nil.
Qed.

Lemma tree_get_text_edited (tree : Tree) :
  tree_edited tree <> 0 -> tree_get_text tree = Py_None.
Proof.
  intros He. unfold tree_get_text.
  destruct (Z.eqb_spec (tree_edited tree) 0); [done | reflexivity].
Qed.

Lemma tree_get_text_unedited (tree : Tree) (s : PyValue) :
  tree_edited tree = 0 -> tree_source tree = Some s -> tree_get_text tree = s.
Proof. intros He Hs. unfold tree_get_text. rewrite He, Hs. reflexivity. Qed.

Lemma node_get_text_edited h t (tree : Tree) (n : Node) :
  h !! t = Some (TreeObj tree) -> node_tree n = Some t ->
  tree_edited tree <> 0 -> node_get_text h n = Return Py_None.
Proof.
  intros Ht Hn He. unfold node_get_text.
  rewrite Hn, Ht, (tree_get_text_edited tree He). reflexivity.
Qed.

(** A point that is a tuple is read the same way in every store. *)
Lemma convert_II_seq_tuple h v r :
  convert_II v = Some r -> convert_II_seq h v = Some r.
Proof. destruct v; try discriminate. intros H. exact H. Qed.

Lemma parse_edit_with_mono (p1 p2 : PyValue -> option (Z * Z)) args kwargs
    edit :
  (forall v r, p1 v = Some r -> p2 v = Some r) ->
  parse_edit_with p1 args kwargs = inr edit ->
  parse_edit_with p2 args kwargs = inr edit.
Proof.
  intros Hm. unfold parse_edit_with.
  destruct (bind_args edit_keywords 6 args kwargs) as [e0|vs]; [done|].
  destruct vs as [|[a|] [|[b|] [|[c|] [|[d|] [|[e|] [|[f|] [|? ?]]]]]]];
    try done.
  destruct (convert_I a), (convert_I b), (convert_I c); try done.
  destruct (p1 d) as [[? ?]|] eqn:Hd; [|done].
  destruct (p1 e) as [[? ?]|] eqn:He; [|done].
  destruct (p1 f) as [[? ?]|] eqn:Hf; [|done].
  by rewrite (Hm _ _ Hd), (Hm _ _ He), (Hm _ _ Hf).
Qed.

Lemma parse_captures_with_mono (p1 p2 : PyValue -> option (Z * Z)) args
    kwargs r :
  (forall v r, p1 v = Some r -> p2 v = Some r) ->
  parse_captures_with p1 args kwargs = inr r ->
  parse_captures_with p2 args kwargs = inr r.
Proof.
  intros Hm. unfold parse_captures_with.
  destruct (bind_args captures_keywords 1 args kwargs) as [e0|vs]; [done|].
  destruct vs as [|[node|] [|sp [|ep [|? ?]]]]; try done.
  destruct sp as [sp|], ep as [ep|].
  - destruct (p1 sp) eqn:Hs; [|done]. destruct (p1 ep) eqn:He; [|done].
    by rewrite (Hm _ _ Hs), (Hm _ _ He).
  - destruct (p1 sp) eqn:Hs; [|done]. by rewrite (Hm _ _ Hs).
  - destruct (p1 ep) eqn:He; [|done]. by rewrite (Hm _ _ He).
  - done.
Qed.

Lemma bind_from_error i ks required (a : list PyValue) kw e :
  bind_from i ks required a kw = inl e -> exc_type e = PyExc_TypeError.
Proof.
  revert i. induction ks as [|k ks IH]; intros i; cbn [bind_from];
    [discriminate|].
  destruct (a !! i), (kw_lookup k kw); try (by intros [= <-]).
  - destruct (bind_from (S i) ks required a kw) eqn:Hrest; [|discriminate].
    intros [= <-]. by eapply IH.
  - destruct (bind_from (S i) ks required a kw) eqn:Hrest; [|discriminate].
    intros [= <-]. by eapply IH.
  - destruct (i <? required)%nat; [by intros [= <-]|].
    destruct (bind_from (S i) ks required a kw) eqn:Hrest; [|discriminate].
    intros [= <-]. by eapply IH.
Qed.

Lemma bind_args_error ks required (a : list PyValue) kw e :
  bind_args ks required a kw = inl e -> exc_type e = PyExc_TypeError.
Proof.
  unfold bind_args. destruct (_ <? _)%nat; [by intros [= <-]|].
  destruct (forallb _ _); [apply bind_from_error | by intros [= <-]].
Qed.

Lemma parse_edit_with_error (point : PyValue -> option (Z * Z)) args kwargs
    e :
  parse_edit_with point args kwargs = inl e -> exc_type e = PyExc_TypeError.
Proof.
  unfold parse_edit_with.
  destruct (bind_args edit_keywords 6 args kwargs) as [e0|vs] eqn:Hb.
  - intros [= <-]. by eapply bind_args_error.
  - destruct vs as [|[a|] [|[b|] [|[c|] [|[d|] [|[x|] [|[f|] [|? ?]]]]]]];
      try (by intros [= <-]).
    repeat match goal with
           | |- context [match ?x with _ => _ end] => destruct x
           end; try discriminate; by intros [= <-].
Qed.

Lemma tree_edit_ok h t (tree : Tree) args kwargs edit :
  h !! t = Some (TreeObj tree) ->
  parse_edit_args args kwargs = inr edit ->
  tree_edit h t args kwargs =
    (Return Py_None,
     <[t := TreeObj {| tree_tree := ts_tree_edit (tree_tree tree) edit;
                       tree_source := tree_source tree;
                       tree_edited := 1 |}]> h).
Proof.
  intros Ht Hp. unfold tree_edit. rewrite Ht.
  by rewrite (parse_edit_with_mono convert_II (convert_II_seq h) args kwargs
                edit (convert_II_seq_tuple h) Hp).
Qed.

Lemma tree_edit_parsed h t (tree : Tree) args kwargs edit :
  h !! t = Some (TreeObj tree) ->
  parse_edit_with (convert_II_seq h) args kwargs = inr edit ->
  tree_edit h t args kwargs =
    (Return Py_None,
     <[t := TreeObj {| tree_tree := ts_tree_edit (tree_tree tree) edit;
                       tree_source := tree_source tree;
                       tree_edited := 1 |}]> h).
Proof. intros Ht Hp. unfold tree_edit. rewrite Ht, Hp. reflexivity. Qed.

Lemma tree_edit_malformed h t (tree : Tree) args kwargs e :
  h !! t = Some (TreeObj tree) ->
  parse_edit_with (convert_II_seq h) args kwargs = inl e ->
  tree_edit h t args kwargs = (ReturnWithError Py_None e, h).
Proof. intros Ht Hp. unfold tree_edit. rewrite Ht, Hp. reflexivity. Qed.

(** C1: for a Tree [t] and a Node [n] of it: while [edited] is false,
    [t.text] is the retained source buffer and [n.text] is the byte slice
    [start_byte, end_byte) of it; once [edited] is true, and so after
    any successful [edit], whatever its coordinates, [t.text] and
    [n.text] are both the none-result and not an error. *)
Theorem text_available_iff_unedited h t (tree : Tree) (n : Node) :
  h !! t = Some (TreeObj tree) ->
  node_tree n = Some t ->
  (tree_edited tree = 0 ->
   (forall s, tree_source tree = Some s -> tree_get_text tree = s) /\
   (forall bs, tree_source tree = Some (PyBytes bs) ->
      node_get_text h n =
        Return (PyMemoryView
                  (take (N.to_nat (ts_node_end_byte (node_node n))
                         - N.to_nat (ts_node_start_byte (node_node n)))
                        (drop (N.to_nat (ts_node_start_byte (node_node n)))
                              bs))))) /\
  (tree_edited tree <> 0 ->
   tree_get_text tree = Py_None /\ node_get_text h n = Return Py_None) /\
  (forall args kwargs edit,
     parse_edit_args args kwargs = inr edit ->
     exists tree',
       (tree_edit h t args kwargs).2 !! t = Some (TreeObj tree') /\
       tree_edited tree' <> 0 /\
       tree_get_text tree' = Py_None /\
       node_get_text (tree_edit h t args kwargs).2 n = Return Py_None).
Proof.
  intros Ht Hn. split; [|split].
  - intros He. split.
    + intros s Hs. by apply tree_get_text_unedited.
    + intros bs Hs. unfold node_get_text.
      rewrite Hn, Ht, (tree_get_text_unedited tree _ He Hs). simpl.
      by rewrite memoryview_getslice_spec.
  - intros He. split.
    + by apply tree_get_text_edited.
    + by apply (node_get_text_edited h t tree).
  - intros args kwargs edit Hp.
    rewrite (tree_edit_ok h t tree args kwargs edit Ht Hp). simpl.
    eexists. split; [apply lookup_insert_eq|].
    split; [simpl; lia|]. split; [reflexivity|].
    eapply node_get_text_edited;
      [apply lookup_insert_eq | exact Hn | simpl; lia].
Qed.

(** *** Children *)

(** C9: [t.edit(...)] on a Tree [t], as its Python caller observes it
    through the interpreter's check of the result. Either the arguments
    parse, the call returns [None], and the Tree at [t] is the engine's
    edited tree, with the source buffer it had and [edited] true; or the
    arguments are malformed, the store is as it was, and the caller gets
    an error: the [SystemError] of the interpreter, caused by the
    [TypeError] of the argument parser. So [edited], false before, is
    true afterwards iff the call succeeded; the call succeeds for any
    integer coordinates; and no object is created. *)
Theorem edit_sets_edited_iff_call_succeeds h t (tree : Tree) args kwargs :
  h !! t = Some (TreeObj tree) ->
  let r := tree_edit h t args kwargs in
  let seen := Py_CheckFunctionResult r.1 in
  ((exists edit,
      parse_edit_with (convert_II_seq h) args kwargs = inr edit /\
      seen = Returns Py_None /\
      r.2 = <[t := TreeObj {| tree_tree := ts_tree_edit (tree_tree tree) edit;
                              tree_source := tree_source tree;
                              tree_edited := 1 |}]> h) \/
   (exists e,
      parse_edit_with (convert_II_seq h) args kwargs = inl e /\
      exc_type e = PyExc_TypeError /\
      seen = Raises (PyErr_SetString PyExc_SystemError
                       "returned a result with an error set") (Some e) /\
      r.2 = h)) /\
  (tree_edited tree = 0 ->
   (seen = Returns Py_None <->
    exists tree' : Tree,
      r.2 !! t = Some (TreeObj tree') /\ tree_edited tree' = 1)) /\
  (forall a b c r1 c1 r2 c2 r3 c3 : Z,
     args = [PyLong a; PyLong b; PyLong c; PyTuple [PyLong r1; PyLong c1];
             PyTuple [PyLong r2; PyLong c2]; PyTuple [PyLong r3; PyLong c3]] ->
     kwargs = [] -> seen = Returns Py_None) /\
  (forall l, h !! l = None -> r.2 !! l = None).
Proof.
  intros Ht r seen. subst seen r.
  destruct (parse_edit_with (convert_II_seq h) args kwargs) as [e|edit] eqn:Hp.
  - rewrite (tree_edit_malformed h t tree args kwargs e Ht Hp). cbn.
    split; [|split; [|split]].
    + right. exists e. repeat split. by eapply parse_edit_with_error.
    + intros He. split; [discriminate|].
      intros (tree' & Ht' & He'). rewrite Ht in Ht'. congruence.
    + intros a b c r1 c1 r2 c2 r3 c3 -> ->. discriminate Hp.
    + done.
  - rewrite (tree_edit_parsed h t tree args kwargs edit Ht Hp). cbn.
    split; [|split; [|split]].
    + left. exists edit. done.
    + intros _. split; [|done]. intros _. eexists.
      split; [apply lookup_insert_eq | reflexivity].
    + done.
    + intros l Hl. rewrite lookup_insert_ne; [done|].
      intros <-. congruence.
Qed.

Lemma PyList_SetItem_in_range h lst slots i v :
  h !! lst = Some (ListObj slots) -> (i < length slots)%nat ->
  PyList_SetItem h lst i v
    = (<[lst := ListObj (<[i := Some v]> slots)]> h, None).
Proof.
  intros Hl Hi. unfold PyList_SetItem. rewrite Hl.
  destruct (Nat.ltb_spec i (length slots)); [done | lia].
Qed.

Lemma children_loop_step fuel h (c : TSTreeCursor) tree result i err :
  children_loop (S fuel) h c tree result i err =
    let a := alloc h (new_node (ts_tree_cursor_current_node c) tree) in
    let s := PyList_SetItem a.2 result i (PyRef a.1) in
    let err' := match s.2 with Some _ => s.2 | None => err end in
    let m := ts_tree_cursor_goto_next_sibling c in
    if m.1 then children_loop fuel s.1 m.2 tree result (S i) err'
    else Some (s.1, m.2, err').
Proof.
  cbn [children_loop]. unfold node_new_internal, new_node.
  destruct (alloc h _) as [item h1]. cbn [fst snd].
  destruct (PyList_SetItem h1 result i (PyRef item)) as [h2 e]. cbn [fst snd].
  destruct (ts_tree_cursor_goto_next_sibling c) as [[] c1]; reflexivity.
Qed.

(** The loop stores one fresh Node per sibling, in order, from slot [i]
    on, and touches nothing else that was in the store. *)
Lemma children_loop_spec (kids : list TSNode) :
  forall fuel h c tree result i err slots,
    siblings_from c kids ->
    (length kids <= fuel)%nat ->
    h !! result = Some (ListObj slots) ->
    (i + length kids <= length slots)%nat ->
    exists h' c' items,
      children_loop fuel h c tree result i err = Some (h', c', err) /\
      length items = length kids /\
      h' !! result
        = Some (ListObj (list_inserts i ((fun l => Some (PyRef l)) <$> items)
                           slots)) /\
      Forall2 (fun item k => h' !! item = Some (new_node k tree)) items kids /\
      Forall (fun item => h !! item = None) items /\
      (forall l, is_Some (h !! l) -> l <> result -> h' !! l = h !! l).
Proof.
  induction kids as [|x xs IH]; intros fuel h c tree result i err slots
    Hsib Hfuel Hres Hlen; [destruct Hsib|].
  destruct fuel as [|fuel]; [simpl in Hfuel; lia|].
  destruct Hsib as [Hcur Hnext]. simpl in Hlen.
  set (o := new_node x tree).
  pose proof (alloc_fresh h o) as Hfresh.
  pose proof (alloc_lookup h o) as Hitem.
  pose proof (alloc_other h o) as Hold.
  rewrite children_loop_step, Hcur. fold o. cbv zeta.
  set (item := (alloc h o).1) in *. set (h1 := (alloc h o).2) in *.
  assert (item <> result) as Hne
    by (intros Heq; rewrite Heq in Hfresh; congruence).
  assert (h1 !! result = Some (ListObj slots)) as Hres1
    by (rewrite Hold; eauto).
  rewrite (PyList_SetItem_in_range h1 result slots i _ Hres1) by lia.
  cbn [fst snd].
  set (h2 := <[result := ListObj (<[i := Some (PyRef item)]> slots)]> h1).
  assert (h2 !! item = Some o) as Hitem2
    by (unfold h2; rewrite lookup_insert_ne; done).
  assert (forall l, is_Some (h !! l) -> l <> result -> h2 !! l = h !! l) as Hold2.
  { intros l Hl Hlr. unfold h2. rewrite lookup_insert_ne by done. by apply Hold. }
  set (c1 := (ts_tree_cursor_goto_next_sibling c).2) in *.
  destruct xs as [|y ys].
  - rewrite Hnext.
    exists h2, c1, [item]. repeat split.
    + simpl. unfold h2. by rewrite lookup_insert_eq.
    + constructor; [exact Hitem2 | constructor].
    + constructor; [exact Hfresh | constructor].
    + exact Hold2.
  - destruct Hnext as [Hmore Hrest]. rewrite Hmore.
    destruct (IH fuel h2 c1 tree result (S i) err
                (<[i := Some (PyRef item)]> slots))
      as (h' & c' & items & Hrun & Hn & Hlist & Hall & Hnew & Hkeep).
    + exact Hrest.
    + simpl in Hfuel |- *. lia.
    + unfold h2. by rewrite lookup_insert_eq.
    + rewrite length_insert. simpl in Hlen |- *. lia.
    + exists h', c', (item :: items). repeat split.
      * exact Hrun.
      * simpl. by rewrite Hn.
      * rewrite Hlist. simpl. f_equal. f_equal.
        symmetry. apply list_insert_inserts_lt. lia.
      * constructor; [|exact Hall].
        rewrite Hkeep; [exact Hitem2 | eauto | done].
      * constructor; [exact Hfresh|].
        eapply Forall_impl; [exact Hnew|]. intros l Hl. simpl in Hl.
        destruct (h !! l) eqn:Hh; [|done].
        destruct (decide (l = result)) as [->|Hlr].
        -- unfold h2 in Hl. rewrite lookup_insert_eq in Hl. discriminate.
        -- rewrite Hold2 in Hl; [congruence | eauto | done].
      * intros l Hl Hlr. rewrite Hkeep; [by apply Hold2 | | done].
        rewrite Hold2; done.
Qed.

Lemma list_inserts_replicate_all {A} (xs : list A) (y : A) :
  list_inserts 0 xs (replicate (length xs) y) = xs.
Proof.
  assert (forall pre, list_inserts (length pre) xs (pre ++ replicate (length xs) y)
                      = pre ++ xs) as Hgen.
  { induction xs as [|x xs IH]; intros pre; simpl; [done|].
    replace (pre ++ y :: replicate (length xs) y)
      with ((pre ++ [y]) ++ replicate (length xs) y) by (by rewrite <- app_assoc).
    replace (S (length pre)) with (length (pre ++ [y]))
      by (rewrite length_app; simpl; lia).
    rewrite IH. rewrite <- app_assoc. simpl.
    rewrite insert_app_r_alt by lia. by rewrite Nat.sub_diag. }
  apply (Hgen []).
Qed.

Lemma Forall2_insert_other h self o tree (items : list loc)
    (kids : list TSNode) :
  Forall2 (fun item k => h !! item = Some (new_node k tree)) items kids ->
  Forall (fun item => item <> self) items ->
  Forall2 (fun item k => <[self := o]> h !! item = Some (new_node k tree))
    items kids.
Proof.
  induction 1 as [|item kid items kids Hi Hrest IH]; intros Hne;
    [constructor|].
  apply Forall_cons in Hne as [Hn1 Hn2].
  constructor; [|by apply IH].
  by rewrite lookup_insert_ne.
Qed.

(** C2: for a Node [n] whose immediate children are [kids] (in document
    order, [k] of them): [child_count] is [k], read off the engine; the
    first access to [children] returns a list of exactly [k] new Nodes,
    the [i]-th for the [i]-th child and all of [n]'s tree, and stores
    the list on the Node; every later access returns that same list and
    changes nothing. For a childless node the list is empty. *)
Theorem children_materialised_once (st : State) (self : loc) (n : Node)
    (tree : loc) (kids : list TSNode) :
  heap st !! self = Some (NodeObj n) ->
  node_children n = None ->
  node_tree n = Some tree ->
  has_children (default_cursor st) (node_node n) kids ->
  node_get_child_count n = PyLong (Z.of_nat (length kids)) /\
  forall fuel, (length kids <= fuel)%nat ->
    exists st' lst items,
      node_get_children fuel st self = Some (Return (PyRef lst), st') /\
      heap st' !! lst = Some (ListObj ((fun l => Some (PyRef l)) <$> items)) /\
      Forall2 (fun item k => heap st' !! item = Some (new_node k tree))
        items kids /\
      heap st' !! self = Some (NodeObj (set_node_children n (Some lst))) /\
      (forall fuel',
         node_get_children fuel' st' self = Some (Return (PyRef lst), st')).
Proof.
  intros Hself Hnone Htree [Hcount Hwalk]. split.
  { unfold node_get_child_count. rewrite Hcount. f_equal. lia. }
  intros fuel Hfuel.
  assert (forall st' lst,
            heap st' !! self = Some (NodeObj (set_node_children n (Some lst))) ->
            forall fuel',
              node_get_children fuel' st' self = Some (Return (PyRef lst), st'))
    as Hcached.
  { intros st' lst Hs fuel'. unfold node_get_children. rewrite Hs. reflexivity. }
  unfold node_get_children at 1. rewrite Hself, Hnone, Hcount.
  replace (Z.to_nat (Z.of_N (N.of_nat (length kids)))) with (length kids) by lia.
  set (o := ListObj (replicate (length kids) None)).
  pose proof (alloc_fresh (heap st) o) as Hfresh.
  pose proof (alloc_lookup (heap st) o) as Hlst.
  pose proof (alloc_other (heap st) o) as Hold.
  destruct (alloc (heap st) o) as [result h1]. simpl in Hfresh, Hlst, Hold.
  assert (self <> result) as Hne by (intros ->; congruence).
  destruct kids as [|k kids'].
  - simpl. eexists _, result, []. split; [reflexivity|]. cbn [heap].
    split; [by rewrite lookup_insert_ne|].
    split; [constructor|].
    split; [by rewrite lookup_insert_eq|].
    apply Hcached. cbn [heap]. by rewrite lookup_insert_eq.
  - replace (0 <? Z.of_N (N.of_nat (length (k :: kids')))) with true
      by (symmetry; apply Z.ltb_lt; simpl; lia).
    rewrite Htree.
    destruct (children_loop_spec (k :: kids') fuel h1
                (ts_tree_cursor_goto_first_child
                   (ts_tree_cursor_reset (default_cursor st) (node_node n))).2
                tree result 0%nat None (replicate (length (k :: kids')) None))
      as (h' & c' & items & Hrun & Hn & Hlist & Hall & Hnew & Hkeep).
    + apply Hwalk. discriminate.
    + exact Hfuel.
    + exact Hlst.
    + rewrite length_replicate. lia.
    + rewrite Hrun.
      rewrite <- Hn, <- (length_fmap (fun l => Some (PyRef l))) in Hlist.
      rewrite list_inserts_replicate_all in Hlist.
      eexists _, result, items. split; [reflexivity|]. cbn [heap].
      split; [by rewrite lookup_insert_ne|].
      split; [|split; [by rewrite lookup_insert_eq|]].
      * apply Forall2_insert_other; [exact Hall|].
        eapply Forall_impl; [exact Hnew|]. simpl.
        intros item Hi ->. rewrite Hold in Hi by eauto. congruence.
      * apply Hcached. cbn [heap]. by rewrite lookup_insert_eq.
Qed.

(** *** TreeCursor *)

Lemma navigate_goto nav : navigate nav = tree_cursor_goto (engine_move nav).
Proof. by destruct nav. Qed.

Lemma tree_cursor_goto_moved move h self (c : TreeCursor) :
  h !! self = Some (TreeCursorObj c) ->
  (move (cursor_cursor c)).1 = true ->
  tree_cursor_goto move h self =
    (Return Py_True,
     <[self := TreeCursorObj {| cursor_cursor := (move (cursor_cursor c)).2;
                                cursor_node := None;
                                cursor_tree := cursor_tree c |}]> h).
Proof.
  intros Hc Hm. unfold tree_cursor_goto. rewrite Hc.
  destruct (move (cursor_cursor c)) as [r cur]. simpl in Hm. by subst r.
Qed.

Lemma tree_cursor_goto_stayed move h self (c : TreeCursor) :
  h !! self = Some (TreeCursorObj c) ->
  (move (cursor_cursor c)).1 = false ->
  tree_cursor_goto move h self =
    (Return Py_False,
     <[self := TreeCursorObj {| cursor_cursor := (move (cursor_cursor c)).2;
                                cursor_node := cursor_node c;
                                cursor_tree := cursor_tree c |}]> h).
Proof.
  intros Hc Hm. unfold tree_cursor_goto. rewrite Hc.
  destruct (move (cursor_cursor c)) as [r cur]. simpl in Hm. by subst r.
Qed.

Lemma tree_cursor_get_node_cached h self (c : TreeCursor) n :
  h !! self = Some (TreeCursorObj c) -> cursor_node c = Some n ->
  tree_cursor_get_node h self = (Return (PyRef n), h).
Proof. intros Hc Hn. unfold tree_cursor_get_node. by rewrite Hc, Hn. Qed.

Lemma tree_cursor_get_node_derives h self (c : TreeCursor) tree :
  h !! self = Some (TreeCursorObj c) ->
  cursor_node c = None -> cursor_tree c = Some tree ->
  exists n h',
    tree_cursor_get_node h self = (Return (PyRef n), h') /\
    h !! n = None /\
    h' !! n = Some (new_node (ts_tree_cursor_current_node (cursor_cursor c))
                      tree) /\
    h' !! self = Some (TreeCursorObj (set_cursor_node c (Some n))).
Proof.
  intros Hc Hn Ht. unfold tree_cursor_get_node, node_new_internal.
  rewrite Hc, Hn, Ht.
  fold (new_node (ts_tree_cursor_current_node (cursor_cursor c)) tree).
  set (o := new_node _ tree).
  pose proof (alloc_fresh h o) as Hfresh.
  pose proof (alloc_lookup h o) as Hnew.
  destruct (alloc h o) as [n h1]. simpl in Hfresh, Hnew.
  exists n, (<[self := TreeCursorObj (set_cursor_node c (Some n))]> h1).
  split; [reflexivity|]. split; [exact Hfresh|].
  split; [|by rewrite lookup_insert_eq].
  rewrite lookup_insert_ne; [exact Hnew|]. intros ->. congruence.
Qed.

(** C4: for a TreeCursor [c] of a tree and each of [goto_parent],
    [goto_first_child], [goto_next_sibling]:
    - a call that returns [True] leaves the cursor on the engine's new
      state with no cached Node, and the next access to [node] creates a
      Node for the current position of that new state and caches it;
    - a call that returns [False] keeps the cached Node, and the whole
      cursor object when the engine left its cursor where it was;
    - [current_field_name] changes nothing, and [node] never replaces a
      Node that is cached: it returns it and changes nothing; on an empty
      cache it stores a new Node for the current position and leaves the
      engine cursor as it is. *)
Theorem cursor_cache_cleared_by_moves_only h self (c : TreeCursor) tree nav :
  h !! self = Some (TreeCursorObj c) ->
  cursor_tree c = Some tree ->
  ((engine_move nav (cursor_cursor c)).1 = false ->
   (engine_move nav (cursor_cursor c)).2 = cursor_cursor c) ->
  let moved := engine_move nav (cursor_cursor c) in
  (moved.1 = true ->
   exists h',
     navigate nav h self = (Return Py_True, h') /\
     h' !! self = Some (TreeCursorObj {| cursor_cursor := moved.2;
                                         cursor_node := None;
                                         cursor_tree := Some tree |}) /\
     exists n h'',
       tree_cursor_get_node h' self = (Return (PyRef n), h'') /\
       h' !! n = None /\
       h'' !! n = Some (new_node (ts_tree_cursor_current_node moved.2) tree) /\
       h'' !! self = Some (TreeCursorObj {| cursor_cursor := moved.2;
                                            cursor_node := Some n;
                                            cursor_tree := Some tree |})) /\
  (moved.1 = false ->
   navigate nav h self = (Return Py_False, h) /\
   (navigate nav h self).2 !! self = Some (TreeCursorObj c)) /\
  (tree_cursor_current_field_name h self).2 = h /\
  (forall n, cursor_node c = Some n ->
             tree_cursor_get_node h self = (Return (PyRef n), h)) /\
  (cursor_node c = None ->
   exists n h',
     tree_cursor_get_node h self = (Return (PyRef n), h') /\
     h' !! n = Some (new_node (ts_tree_cursor_current_node (cursor_cursor c))
                       tree) /\
     h' !! self = Some (TreeCursorObj {| cursor_cursor := cursor_cursor c;
                                         cursor_node := Some n;
                                         cursor_tree := cursor_tree c |})).
Proof.
  intros Hc Ht Hput moved. rewrite navigate_goto.
  split; [|split; [|split; [|split]]].
  - intros Hm. eexists. split; [by apply tree_cursor_goto_moved|].
    rewrite Ht. split; [by rewrite lookup_insert_eq|].
    edestruct (tree_cursor_get_node_derives
                 (<[self := TreeCursorObj
                      {| cursor_cursor := moved.2; cursor_node := None;
                         cursor_tree := Some tree |}]> h) self)
      as (n & h'' & Hget & Hfresh & Hnew & Hself);
      [by rewrite lookup_insert_eq | reflexivity | reflexivity |].
    exists n, h''. eauto.
  - intros Hm.
    rewrite (tree_cursor_goto_stayed _ h self c Hc Hm).
    unfold moved in *. rewrite (Hput Hm).
    assert ({| cursor_cursor := cursor_cursor c; cursor_node := cursor_node c;
               cursor_tree := cursor_tree c |} = c) as -> by (by destruct c).
    rewrite insert_id by done. split; [reflexivity | exact Hc].
  - unfold tree_cursor_current_field_name. rewrite Hc.
    by destruct (ts_tree_cursor_current_field_name _).
  - intros n Hn. by apply tree_cursor_get_node_cached with (c := c).
  - intros Hn.
    destruct (tree_cursor_get_node_derives h self c tree Hc Hn Ht)
      as (n & h' & Hget & _ & Hnew & Hself).
    exists n, h'. eauto.
Qed.

(** *** Parser *)

Lemma parser_set_language_checked h self (p : Parser) arg language_id id
    (language : TSLanguage) :
  h !! self = Some (ParserObj p) ->
  get_language_id h arg = Some language_id ->
  as_long language_id = Some id ->
  language_of_id id = Some language ->
  parser_set_language h self arg =
    let version := ts_language_version language in
    if ((version <? TREE_SITTER_MIN_COMPATIBLE_LANGUAGE_VERSION)
        || (TREE_SITTER_LANGUAGE_VERSION <? version))%N
    then
      (Raise (PyErr_SetString PyExc_ValueError
                ("Incompatible Language version " ++ format_u version
                 ++ ". Must not be between "
                 ++ format_u TREE_SITTER_MIN_COMPATIBLE_LANGUAGE_VERSION
                 ++ " and " ++ format_u TREE_SITTER_LANGUAGE_VERSION)%string),
       h)
    else
      (Return Py_None,
       <[self := ParserObj {| parser_parser :=
            ts_parser_set_language (parser_parser p) language |}]> h).
Proof.
  intros Hp Hid Hlong Hlang. unfold parser_set_language.
  by rewrite Hp, Hid, Hlong, Hlang.
Qed.

(** C6: for a Parser and a language [L] (an object whose [language_id]
    is an integer naming a language of the engine): [set_language] fails
    iff [L]'s version is below [MIN_COMPATIBLE] or above [CURRENT]; the
    error then carries the version and both bounds and the parser is as
    it was; it succeeds iff the version is within the bounds, and the
    engine parser has then been rebound to [L]. *)
Theorem set_language_version_gate h self (p : Parser) arg language_id id
    (language : TSLanguage) :
  h !! self = Some (ParserObj p) ->
  get_language_id h arg = Some language_id ->
  as_long language_id = Some id ->
  language_of_id id = Some language ->
  let version := ts_language_version language in
  let lo := TREE_SITTER_MIN_COMPATIBLE_LANGUAGE_VERSION in
  let hi := TREE_SITTER_LANGUAGE_VERSION in
  let mismatch :=
    PyErr_SetString PyExc_ValueError
      ("Incompatible Language version " ++ format_u version
       ++ ". Must not be between " ++ format_u lo
       ++ " and " ++ format_u hi)%string in
  ((version < lo \/ hi < version)%N <->
   (parser_set_language h self arg).1 = Raise mismatch) /\
  ((version < lo \/ hi < version)%N ->
   (parser_set_language h self arg).2 = h) /\
  ((lo <= version /\ version <= hi)%N <->
   (parser_set_language h self arg).1 = Return Py_None) /\
  ((lo <= version /\ version <= hi)%N ->
   (parser_set_language h self arg).2 !! self =
     Some (ParserObj {| parser_parser :=
             ts_parser_set_language (parser_parser p) language |})).
Proof.
  intros Hp Hid Hlong Hlang version lo hi mismatch.
  rewrite (parser_set_language_checked h self p arg language_id id language)
    by done.
  cbv zeta. fold version lo hi.
  destruct (N.ltb_spec version lo), (N.ltb_spec hi version); simpl;
    repeat split; intros; try done; try lia; auto;
    try (by rewrite lookup_insert_eq).
Qed.

Lemma parser_parse_bytes h self (p : Parser) bs old (old_tree : option TSTree) :
  h !! self = Some (ParserObj p) ->
  (old = [] /\ old_tree = None \/
   exists v (tr : Tree), old = [v] /\ as_tree h v = Some tr /\
               old_tree = Some (tree_tree tr)) ->
  parser_parse h self (PyBytes bs :: old) =
    let engine :=
      ts_parser_parse_string (parser_parser p) old_tree bs
        (Z.of_nat (length bs) mod 2 ^ 32) in
    let h' := <[self := ParserObj {| parser_parser := engine.2 |}]> h in
    match engine.1 with
    | None => (Raise (PyErr_SetString PyExc_ValueError "Parsing failed"), h')
    | Some new_tree =>
        (Return (PyRef (tree_new_internal h' new_tree (PyBytes bs)).1),
         (tree_new_internal h' new_tree (PyBytes bs)).2)
    end.
Proof.
  intros Hp Hold. unfold parser_parse. rewrite Hp.
  destruct Hold as [[-> ->] | (v & t & -> & Ht & ->)]; cbn [head];
    rewrite ?Ht; cbv zeta;
    destruct (ts_parser_parse_string _ _ _ _) as [[new_tree|] parser];
    cbn [fst snd]; try reflexivity;
    by destruct (tree_new_internal _ _ _).
Qed.

(** C7: for a Parser, [parse(s)] or [parse(s, t)] with [s] bytes and [t]
    a Tree fails with "Parsing failed" iff the engine returns no tree;
    otherwise it returns a Tree object that did not exist before, whose
    [edited] flag is false, which holds the engine's new tree and [s] as
    its source, while every other object, the old Tree among them, is as
    it was. A source that is not bytes, and a second argument that is
    not a Tree, fail with a [TypeError] and leave everything, the engine
    parser included, as it was. *)
Theorem parse_returns_fresh_unedited_tree h self (p : Parser) :
  h !! self = Some (ParserObj p) ->
  (forall bs old (old_tree : option TSTree),
     (old = [] /\ old_tree = None \/
      exists v (tr : Tree), old = [v] /\ as_tree h v = Some tr /\
                  old_tree = Some (tree_tree tr)) ->
     let engine :=
       ts_parser_parse_string (parser_parser p) old_tree bs
         (Z.of_nat (length bs) mod 2 ^ 32) in
     let r := parser_parse h self (PyBytes bs :: old) in
     (engine.1 = None <->
      r.1 = Raise (PyErr_SetString PyExc_ValueError "Parsing failed")) /\
     (forall new_tree, engine.1 = Some new_tree ->
        exists t,
          r.1 = Return (PyRef t) /\
          h !! t = None /\
          r.2 !! t = Some (TreeObj {| tree_tree := new_tree;
                                      tree_source := Some (PyBytes bs);
                                      tree_edited := 0 |})) /\
     (forall l, l <> self -> is_Some (h !! l) -> r.2 !! l = h !! l)) /\
  (forall v rest,
     (forall bs, v <> PyBytes bs) -> (length rest <= 1)%nat ->
     parser_parse h self (v :: rest) =
       (Raise (PyErr_SetString PyExc_TypeError
                 "First argument to parse must be bytes"), h)) /\
  (forall bs v,
     as_tree h v = None ->
     parser_parse h self [PyBytes bs; v] =
       (Raise (PyErr_SetString PyExc_TypeError
                 "Second argument to parse must be a Tree"), h)).
Proof.
  intros Hp. split; [|split].
  - intros bs old old_tree Hold engine r. unfold r.
    rewrite (parser_parse_bytes h self p bs old old_tree Hp Hold).
    cbv zeta. fold engine.
    set (h' := <[self := ParserObj {| parser_parser := engine.2 |}]> h).
    assert (forall l, l <> self -> h' !! l = h !! l) as Hkeep
      by (intros l Hl; unfold h'; by rewrite lookup_insert_ne).
    destruct engine.1 as [new_tree|]; cbn [fst snd].
    + unfold tree_new_internal.
      set (o := TreeObj _).
      pose proof (alloc_fresh h' o) as Hfresh.
      pose proof (alloc_lookup h' o) as Hnew.
      pose proof (alloc_other h' o) as Hother.
      destruct (alloc h' o) as [t h'']. cbn [fst snd] in *.
      split; [split; discriminate|]. split.
      * intros ? [= <-]. exists t. split; [done|]. split; [|exact Hnew].
        destruct (decide (t = self)) as [->|Hne].
        -- unfold h' in Hfresh. by rewrite lookup_insert_eq in Hfresh.
        -- by rewrite <- Hkeep.
      * intros l Hl Hsome. rewrite Hother; [by apply Hkeep|].
        by rewrite Hkeep.
    + split; [done|]. split; [discriminate|]. intros l Hl _. by apply Hkeep.
  - intros v rest Hv Hrest. unfold parser_parse. rewrite Hp.
    destruct rest as [|? [|? ?]]; [| |simpl in Hrest; lia];
      destruct v; try reflexivity; by destruct (Hv bs).
  - intros bs v Hv. unfold parser_parse. rewrite Hp. cbn [head].
    by rewrite Hv.
Qed.

(** *** Query *)

Lemma scan_word_spec (bs : list byte) :
  exists rest,
    bs = scan_word bs ++ rest /\
    Forall (fun c => is_word_char c = true) (scan_word bs) /\
    (forall c rest', rest = c :: rest' -> is_word_char c = false).
Proof.
  induction bs as [|c bs (rest & Heq & Hall & Hstop)]; simpl.
  - exists []. split; [done|]. split; [constructor | discriminate].
  - destruct (is_word_char c) eqn:Hc.
    + exists rest. split; [simpl; by rewrite <- Heq|]. split; [|exact Hstop].
      by constructor.
    + exists (c :: bs). split; [done|]. split; [constructor|].
      by intros ? ? [= <- <-].
Qed.

(** C8, amended: when the engine rejects a pattern source at
    [error_offset], the call fails and changes nothing; for an unknown
    node type, field or capture the error is a [NameError] whose message
    is the label of that kind followed by exactly the word at the
    offset; for a syntax error it is a [SyntaxError] whose message gives
    the offset. The word is the longest run of word characters
    (alphanumeric, [-], [_], [?], [.]) that starts at the offset and
    ends within the source. *)
Theorem query_error_names_word_or_offset h (language : TSLanguage)
    (source : list byte) (length : Z) (error_offset : N)
    (error_type : TSQueryError) :
  ts_query_new language source length = inr (error_offset, error_type) ->
  let word := error_word source length error_offset in
  let e := query_error source length error_offset error_type in
  query_new_internal h language source length = (Raise e, h) /\
  (error_type = TSQueryErrorNodeType ->
   e = PyErr_SetString PyExc_NameError ("Invalid node type " ++ word)) /\
  (error_type = TSQueryErrorField ->
   e = PyErr_SetString PyExc_NameError ("Invalid field name " ++ word)) /\
  (error_type = TSQueryErrorCapture ->
   e = PyErr_SetString PyExc_NameError ("Invalid capture name " ++ word)) /\
  (error_type = TSQueryErrorSyntax ->
   e = PyErr_SetString PyExc_SyntaxError
         ("Invalid syntax at offset " ++ format_u error_offset)) /\
  exists rest,
    drop (N.to_nat error_offset) (take (Z.to_nat length) source)
      = list_byte_of_string word ++ rest /\
    Forall (fun c => is_word_char c = true) (list_byte_of_string word) /\
    (forall c rest', rest = c :: rest' -> is_word_char c = false).
Proof.
  intros Hq word e. split.
  { unfold query_new_internal. by rewrite Hq. }
  repeat (split; [by intros -> |]).
  unfold word, error_word. rewrite list_byte_of_string_of_list_byte.
  apply scan_word_spec.
Qed.

(** A point range given to [captures] is parsed and then not used. *)
Lemma query_captures_range_unused fuel (st : State) (q : Query) node
    (s1 s2 e1 e2 : Z) :
  query_captures fuel st q
    [node; PyTuple [PyLong s1; PyLong s2]; PyTuple [PyLong e1; PyLong e2]] []
  = query_captures fuel st q [node] [].
Proof. reflexivity. Qed.

Lemma captures_loop_step fuel h (c : TSQueryCursor) tree names result :
  captures_loop (S fuel) h c (Some tree) names result =
    match ts_query_cursor_next_capture c with
    | None => Some (Some (h, c))
    | Some ((capture, index), c1) =>
        match names !! index with
        | Some name =>
            let a := alloc h (new_node capture tree) in
            captures_loop fuel
              (PyList_Append a.2 result (PyTuple [PyRef a.1; name]))
              c1 (Some tree) names result
        | None => Some None
        end
    end.
Proof.
  cbn [captures_loop]. unfold node_new_internal, new_node.
  destruct (ts_query_cursor_next_capture c) as [[[capture index] c1]|];
    [|reflexivity].
  destruct (names !! index); [|reflexivity].
  by destruct (alloc h _).
Qed.

(** Every pair the capture loop appends holds a new Node of the tree the
    searched Node belongs to. *)
Lemma captures_loop_same_tree fuel :
  forall h (c : TSQueryCursor) tree names result items h' c',
    h !! result = Some (ListObj items) ->
    captures_loop fuel h c (Some tree) names result = Some (Some (h', c')) ->
    exists new,
      h' !! result = Some (ListObj (items ++ new)) /\
      Forall (fun item =>
                exists n name capture,
                  item = Some (PyTuple [PyRef n; name]) /\
                  h' !! n = Some (new_node capture tree)) new /\
      (forall l, is_Some (h !! l) -> l <> result -> h' !! l = h !! l).
Proof.
  induction fuel as [|fuel IH]; intros h c tree names result items h' c'
    Hres Hrun; [discriminate|].
  rewrite captures_loop_step in Hrun.
  destruct (ts_query_cursor_next_capture c) as [[[capture index] c1]|].
  2:{ injection Hrun as <- <-. exists []. rewrite app_nil_r.
      split; [done|]. split; [constructor | done]. }
  destruct (names !! index) as [name|]; [|discriminate].
  cbv zeta in Hrun.
  set (o := new_node capture tree) in *.
  pose proof (alloc_fresh h o) as Hfresh.
  pose proof (alloc_lookup h o) as Hnew.
  pose proof (alloc_other h o) as Hold.
  set (n := (alloc h o).1) in *. set (h1 := (alloc h o).2) in *.
  assert (n <> result) as Hne
    by (intros Heq; rewrite Heq in Hfresh; congruence).
  assert (h1 !! result = Some (ListObj items)) as Hres1
    by (rewrite Hold; eauto).
  unfold PyList_Append in Hrun. rewrite Hres1 in Hrun.
  set (item := Some (PyTuple [PyRef n; name])) in *.
  set (h2 := <[result := ListObj (items ++ [item])]> h1) in *.
  assert (forall l, is_Some (h !! l) -> l <> result -> h2 !! l = h !! l)
    as Hold2.
  { intros l Hl Hlr. unfold h2. rewrite lookup_insert_ne by done. by apply Hold. }
  destruct (IH h2 c1 tree names result (items ++ [item]) h' c')
    as (new & Hlist & Hall & Hkeep); [by unfold h2; rewrite lookup_insert_eq | exact Hrun |].
  exists (item :: new). split; [by rewrite Hlist, <- app_assoc|]. split.
  - constructor; [|exact Hall].
    exists n, name, capture. split; [done|].
    rewrite Hkeep; [| unfold h2; rewrite lookup_insert_ne by done; eauto | done].
    unfold h2. by rewrite lookup_insert_ne.
  - intros l Hl Hlr. rewrite Hkeep; [by apply Hold2 | | done].
    rewrite Hold2; done.
Qed.

(** Every Node [captures] yields belongs to the tree of the Node it was
    called on. *)
Lemma query_captures_same_tree fuel (st st' : State) (q : Query) args kwargs
    node (nd : Node) tree r :
  parse_captures_args args kwargs = inr (node, r.1, r.2) ->
  as_node (heap st) node = Some nd ->
  node_tree nd = Some tree ->
  forall lst,
    query_captures fuel st q args kwargs = Some (Return (PyRef lst), st') ->
    exists items,
      heap st' !! lst = Some (ListObj items) /\
      Forall (fun item =>
                exists n name capture,
                  item = Some (PyTuple [PyRef n; name]) /\
                  heap st' !! n = Some (new_node capture tree)) items.
Proof.
  intros Hp Hn Ht lst. unfold query_captures.
  rewrite (parse_captures_with_mono convert_II (convert_II_seq (heap st))
             args kwargs _ (convert_II_seq_tuple (heap st)) Hp).
  destruct r as [[? ?] [? ?]]. cbn [fst snd]. rewrite Hn.
  unfold run_captures. rewrite Ht.
  pose proof (alloc_lookup (heap st) (ListObj [])) as Hnew.
  destruct (alloc (heap st) (ListObj [])) as [result h1]. cbn [fst snd] in Hnew.
  destruct (captures_loop _ _ _ _ _ _) as [[[h' c']|]|] eqn:Hrun;
    [|discriminate..].
  intros [= <- <-]. cbn [heap].
  destruct (captures_loop_same_tree _ _ _ _ _ _ _ _ _ Hnew Hrun)
    as (new & Hlist & Hall & _).
  exists new. split; [exact Hlist | exact Hall].
Qed.

End Properties.

(** ** Further properties *)

Section MoreProperties.
Context `{NE : NodeEngine}.

Implicit Types (h : gmap loc PyObject) (l t : loc) (v : PyValue).

(** *** Creating objects *)

Lemma node_new_internal_spec h (x : TSNode) tree :
  h !! (node_new_internal h x tree).1 = None /\
  (node_new_internal h x tree).2 !! (node_new_internal h x tree).1
    = Some (new_node x tree) /\
  (forall l, is_Some (h !! l) ->
             (node_new_internal h x tree).2 !! l = h !! l).
Proof.
  unfold node_new_internal. fold (new_node x tree).
  split; [apply alloc_fresh|]. split; [apply alloc_lookup|].
  intros l Hl. by apply alloc_other.
Qed.

Lemma node_or_none_null h (self : Node) (found : TSNode) :
  ts_node_is_null found = true ->
  node_or_none h self found = (Return Py_None, h).
Proof. intros Hn. unfold node_or_none. by rewrite Hn. Qed.

Lemma node_or_none_found h (self : Node) (found : TSNode) tree :
  ts_node_is_null found = false ->
  node_tree self = Some tree ->
  exists n h',
    node_or_none h self found = (Return (PyRef n), h') /\
    h !! n = None /\
    h' !! n = Some (new_node found tree) /\
    (forall l, is_Some (h !! l) -> h' !! l = h !! l).
Proof.
  intros Hn Ht. unfold node_or_none. rewrite Hn, Ht.
  destruct (node_new_internal_spec h found tree) as (Hfresh & Hnew & Hold).
  destruct (node_new_internal h found tree) as [n h']. simpl in *.
  exists n, h'. eauto.
Qed.

Lemma node_get_relative_unfold (r : relative) h (self : Node) :
  node_get_relative r h self
    = node_or_none h self (engine_relative r (node_node self)).
Proof. by destruct r. Qed.

(** X1: [parent], [next_sibling], [prev_sibling], [next_named_sibling]
    and [prev_named_sibling] of a Node of a tree return [None], and
    change nothing, exactly when the engine answers with the null node;
    otherwise they return a Node object that did not exist before, at the
    position the engine answered, on the same tree and with no children
    cached, and leave every existing object as it was. *)
Theorem related_node_none_or_fresh (r : relative) h (self : Node) tree :
  node_tree self = Some tree ->
  let found := engine_relative r (node_node self) in
  (ts_node_is_null found = true <->
   node_get_relative r h self = (Return Py_None, h)) /\
  (ts_node_is_null found = false ->
   exists n h',
     node_get_relative r h self = (Return (PyRef n), h') /\
     h !! n = None /\
     h' !! n = Some (new_node found tree) /\
     (forall l, is_Some (h !! l) -> h' !! l = h !! l)).
Proof.
  intros Ht found. rewrite node_get_relative_unfold. fold found. split.
  - split; [apply node_or_none_null|].
    destruct (ts_node_is_null found) eqn:Hn; [done|].
    destruct (node_or_none_found h self found tree Hn Ht)
      as (n & h' & -> & _). discriminate.
  - intros Hn. by apply node_or_none_found.
Qed.

(** *** Fields *)

Lemma convert_H_wraps (z k : Z) :
  convert_H (PyLong (z + k * 65536)) = convert_H (PyLong z).
Proof.
  simpl. f_equal. change (2 ^ 16) with 65536. apply Z_mod_plus_full.
Qed.

(** X2: [child_by_field_id] takes its argument modulo 65536: two ids
    that differ by a multiple of 65536 select the same child (the id is
    converted to [unsigned short] without an overflow check); a call
    without exactly one integer argument fails with a [TypeError] and
    changes nothing. *)
Theorem child_by_field_id_wraps h (self : Node) (z k : Z) :
  node_chield_by_field_id h self [PyLong (z + k * 65536)]
    = node_chield_by_field_id h self [PyLong z] /\
  node_chield_by_field_id h self [PyLong z]
    = node_or_none h self
        (ts_node_child_by_field_id (node_node self) (z mod 65536)) /\
  (forall args, length args <> 1%nat ->
     exists e, exc_type e = PyExc_TypeError /\
               node_chield_by_field_id h self args = (Raise e, h)) /\
  (forall v, convert_H v = None ->
     exists e, exc_type e = PyExc_TypeError /\
               node_chield_by_field_id h self [v] = (Raise e, h)).
Proof.
  split; [|split; [|split]].
  - unfold node_chield_by_field_id. by rewrite convert_H_wraps.
  - reflexivity.
  - intros [|a [|b args]] Hlen; simpl in Hlen; try lia;
      eexists; (split; [|reflexivity]); reflexivity.
  - intros v Hv. unfold node_chield_by_field_id. rewrite Hv.
    eexists; (split; [|reflexivity]); reflexivity.
Qed.

(** X3: the id [field_id_for_name] returns for a field name is the one
    [child_by_field_id] hands to the engine: for a language of the
    engine and a name the engine numbers [id] (a [uint16_t]), the module
    function returns [None] when [id] is 0 and the integer [id]
    otherwise, and [child_by_field_id] called with that integer asks the
    engine for the child in field [id]. *)
Theorem field_id_round_trip h (self : Node) (lid : Z) (name : string)
    (language : TSLanguage) :
  language_of_id lid = Some language ->
  let bytes := list_byte_of_string name in
  let id := ts_language_field_id_for_name language bytes
              (Z.of_nat (length bytes)) in
  (id < 65536)%N ->
  (id = 0%N ->
   language_field_id_for_name [PyLong lid; PyUnicode name] = Return Py_None) /\
  (id <> 0%N ->
   language_field_id_for_name [PyLong lid; PyUnicode name]
     = Return (PyLong (Z.of_N id)) /\
   node_chield_by_field_id h self [PyLong (Z.of_N id)]
     = node_or_none h self
         (ts_node_child_by_field_id (node_node self) (Z.of_N id))).
Proof.
  intros Hl bytes id Hid.
  unfold language_field_id_for_name. simpl. rewrite Hl. fold bytes id.
  split.
  - intros ->. reflexivity.
  - intros Hne. destruct (N.eqb_spec id 0); [done|]. split; [done|].
    rewrite Z.mod_small; [done|]. change (2 ^ 16) with 65536. lia.
Qed.

(** *** Points *)

(** X4: a point the binding returns is a point it accepts: for a row and
    a column within [unsigned] range, the tuple [point_new] builds is
    converted by the [(II)] argument parser, in every store, back to the
    same row and column, so a [start_point] or [end_point] of a Node can
    be passed to [edit] or [captures] as it is. *)
Theorem point_round_trip (p : TSPoint) :
  0 <= row p < 2 ^ 32 ->
  0 <= column p < 2 ^ 32 ->
  convert_II (point_new p) = Some (row p, column p) /\
  forall h, convert_II_seq h (point_new p) = Some (row p, column p).
Proof.
  intros Hr Hc.
  assert (convert_II (point_new p) = Some (row p, column p)) as Hpoint.
  { unfold point_new, convert_II, convert_I. by rewrite !Z.mod_small. }
  split; [exact Hpoint|]. intros h. by apply convert_II_seq_tuple.
Qed.

(** *** Root nodes and text *)

(** X5: two accesses to [root_node] of a Tree return two different Node
    objects, both at the engine's root of the tree and both of this
    tree; the Tree object is not changed, and [==] between the two
    handles is the engine's position equality of the root with itself
    (and [!=] its negation), not the identity of the handles. *)
Theorem root_node_twice h t (tree : Tree) :
  h !! t = Some (TreeObj tree) ->
  let root := ts_tree_root_node (tree_tree tree) in
  exists n1 n2 h1 h2 (nd1 : Node),
    tree_get_root_node h t = (Return (PyRef n1), h1) /\
    tree_get_root_node h1 t = (Return (PyRef n2), h2) /\
    n1 <> n2 /\
    h2 !! n1 = Some (NodeObj nd1) /\
    NodeObj nd1 = new_node root t /\
    h2 !! n2 = Some (new_node root t) /\
    h2 !! t = Some (TreeObj tree) /\
    node_compare h2 nd1 (PyRef n2) Py_EQ = PyBool (ts_node_eq root root) /\
    node_compare h2 nd1 (PyRef n2) Py_NE
      = PyBool (negb (ts_node_eq root root)).
Proof.
  intros Ht root.
  assert (forall h', h' !! t = Some (TreeObj tree) ->
            tree_get_root_node h' t
            = (Return (PyRef (node_new_internal h' root t).1),
               (node_new_internal h' root t).2)) as Hroot.
  { intros h' Ht'. unfold tree_get_root_node. rewrite Ht'. fold root.
    by destruct (node_new_internal h' root t). }
  pose proof (Hroot h Ht) as Hr1.
  destruct (node_new_internal_spec h root t) as (Hf1 & Hn1 & Ho1).
  destruct (node_new_internal h root t) as [n1 h1]. cbn [fst snd] in *.
  assert (h1 !! t = Some (TreeObj tree)) as Ht1 by (rewrite Ho1; eauto).
  pose proof (Hroot h1 Ht1) as Hr2.
  destruct (node_new_internal_spec h1 root t) as (Hf2 & Hn2 & Ho2).
  destruct (node_new_internal h1 root t) as [n2 h2]. cbn [fst snd] in *.
  assert (h2 !! n1 = Some (new_node root t)) as Hn1' by (rewrite Ho2; eauto).
  eexists n1, n2, h1, h2, _. split; [exact Hr1|]. split; [exact Hr2|].
  split; [intros ->; congruence|].
  split; [exact Hn1'|]. split; [reflexivity|]. split; [exact Hn2|].
  split; [rewrite Ho2; eauto|].
  split.
  - rewrite (node_compare_eq_position h2 _ _ n2 Hn2). reflexivity.
  - rewrite (node_compare_node h2 _ {| node_node := root; node_children := None;
                                       node_tree := Some t |} (PyRef n2));
      [reflexivity|]. simpl. by rewrite Hn2.
Qed.

Lemma node_get_text_bytes h t (tree : Tree) (n : Node) bs :
  h !! t = Some (TreeObj tree) ->
  node_tree n = Some t ->
  tree_edited tree = 0 ->
  tree_source tree = Some (PyBytes bs) ->
  node_get_text h n =
    Return (PyMemoryView
              (take (N.to_nat (ts_node_end_byte (node_node n))
                     - N.to_nat (ts_node_start_byte (node_node n)))
                    (drop (N.to_nat (ts_node_start_byte (node_node n))) bs))).
Proof.
  intros Ht Hn He Hs. unfold node_get_text.
  rewrite Hn, Ht, (tree_get_text_unedited tree _ He Hs). simpl.
  by rewrite memoryview_getslice_spec.
Qed.

(** X6: the text of a Node of an unedited tree never fails and is
    clipped to the source: it has [min(end, len) - min(start, len)]
    bytes (none when that is negative), whatever the byte range of the
    node, and when the range lies within the source the source is the
    bytes before [start], the text, and the bytes from [end] on. *)
Theorem node_text_clipped h t (tree : Tree) (n : Node) bs :
  h !! t = Some (TreeObj tree) ->
  node_tree n = Some t ->
  tree_edited tree = 0 ->
  tree_source tree = Some (PyBytes bs) ->
  let s := N.to_nat (ts_node_start_byte (node_node n)) in
  let e := N.to_nat (ts_node_end_byte (node_node n)) in
  exists text,
    node_get_text h n = Return (PyMemoryView text) /\
    length text = (e `min` length bs - s `min` length bs)%nat /\
    ((s <= e <= length bs)%nat -> bs = take s bs ++ text ++ drop e bs).
Proof.
  intros Ht Hn He Hs s e.
  rewrite (node_get_text_bytes h t tree n bs Ht Hn He Hs). fold s e.
  eexists. split; [reflexivity|]. split.
  - rewrite length_take, length_drop. lia.
  - intros Hse.
    rewrite <- (take_drop s bs) at 1. f_equal.
    rewrite <- (take_drop (e - s) (drop s bs)) at 1. f_equal.
    rewrite drop_drop. f_equal. lia.
Qed.

(** X7: what is parsed can be read back: when the engine returns a tree
    for the bytes [bs], [parse] returns a Tree whose [text] is [bs], and
    the [text] of its [root_node] is [bs] as well as soon as the engine's
    root starts at byte 0 and ends at or after the last byte. *)
Theorem parse_text_round_trip h self (p : Parser) bs (new_tree : TSTree) :
  h !! self = Some (ParserObj p) ->
  (ts_parser_parse_string (parser_parser p) None bs
     (Z.of_nat (length bs) mod 2 ^ 32)).1 = Some new_tree ->
  exists t h1 (tree : Tree) n h2 (nd : Node),
    parser_parse h self [PyBytes bs] = (Return (PyRef t), h1) /\
    h1 !! t = Some (TreeObj tree) /\
    tree_get_text tree = PyBytes bs /\
    tree_get_root_node h1 t = (Return (PyRef n), h2) /\
    h2 !! n = Some (NodeObj nd) /\
    node_node nd = ts_tree_root_node new_tree /\
    (ts_node_start_byte (ts_tree_root_node new_tree) = 0%N ->
     (length bs <= N.to_nat (ts_node_end_byte (ts_tree_root_node new_tree)))%nat ->
     node_get_text h2 nd = Return (PyMemoryView bs)).
Proof.
  intros Hp Heng.
  rewrite (parser_parse_bytes h self p bs [] None Hp)
    by (left; done).
  cbv zeta. rewrite Heng.
  set (h0 := <[self := _]> h).
  unfold tree_new_internal.
  set (tree := {| tree_tree := new_tree; tree_edited := 0;
                  tree_source := Some (PyBytes bs) |}).
  pose proof (alloc_lookup h0 (TreeObj tree)) as Hnew.
  destruct (alloc h0 (TreeObj tree)) as [t h1]. simpl in Hnew.
  set (root := ts_tree_root_node new_tree).
  assert (tree_get_root_node h1 t
          = (Return (PyRef (node_new_internal h1 root t).1),
             (node_new_internal h1 root t).2)) as Hroot.
  { unfold tree_get_root_node. rewrite Hnew. cbn [tree_tree tree]. fold root.
    by destruct (node_new_internal h1 root t). }
  destruct (node_new_internal_spec h1 root t) as (Hf & Hn & Ho).
  destruct (node_new_internal h1 root t) as [n h2]. cbn [fst snd] in *.
  eexists t, h1, tree, n, h2, _.
  split; [done|]. split; [exact Hnew|]. split; [reflexivity|].
  split; [exact Hroot|]. split; [exact Hn|]. split; [reflexivity|].
  intros Hstart Hend.
  rewrite (node_get_text_bytes h2 t tree _ bs); [| rewrite Ho; eauto | done..].
  cbn [node_node]. fold root. rewrite Hstart.
  change (N.to_nat 0) with 0%nat. rewrite drop_0, Nat.sub_0_r.
  by rewrite take_ge.
Qed.

(** *** Edits *)

Lemma convert_I_wraps (z k : Z) :
  convert_I (PyLong (z + k * 2 ^ 32)) = convert_I (PyLong z).
Proof. simpl. f_equal. apply Z_mod_plus_full. Qed.

Lemma parse_edit_args_integers (a b c r1 c1 r2 c2 r3 c3 : Z) :
  parse_edit_args
    [PyLong a; PyLong b; PyLong c; PyTuple [PyLong r1; PyLong c1];
     PyTuple [PyLong r2; PyLong c2]; PyTuple [PyLong r3; PyLong c3]] []
  = inr {| start_byte := a mod 2 ^ 32;
           old_end_byte := b mod 2 ^ 32;
           new_end_byte := c mod 2 ^ 32;
           start_point := {| row := r1 mod 2 ^ 32; column := c1 mod 2 ^ 32 |};
           old_end_point :=
             {| row := r2 mod 2 ^ 32; column := c2 mod 2 ^ 32 |};
           new_end_point :=
             {| row := r3 mod 2 ^ 32; column := c3 mod 2 ^ 32 |} |}.
Proof. reflexivity. Qed.

(** X8: [edit] accepts every integer as a coordinate and hands it to the
    engine modulo [2^32], negative and oversized values included: the
    call succeeds, marks the tree edited, and the engine edits with the
    wrapped coordinates; so two calls whose byte offsets differ by
    multiples of [2^32] have the same result. *)
Theorem edit_coordinates_wrap h t (tree : Tree)
    (a b c r1 c1 r2 c2 r3 c3 ka kb kc : Z) :
  h !! t = Some (TreeObj tree) ->
  let points := [PyTuple [PyLong r1; PyLong c1];
                 PyTuple [PyLong r2; PyLong c2];
                 PyTuple [PyLong r3; PyLong c3]] in
  tree_edit h t ([PyLong a; PyLong b; PyLong c] ++ points) [] =
    (Return Py_None,
     <[t := TreeObj
         {| tree_tree :=
              ts_tree_edit (tree_tree tree)
                {| start_byte := a mod 2 ^ 32;
                   old_end_byte := b mod 2 ^ 32;
                   new_end_byte := c mod 2 ^ 32;
                   start_point :=
                     {| row := r1 mod 2 ^ 32; column := c1 mod 2 ^ 32 |};
                   old_end_point :=
                     {| row := r2 mod 2 ^ 32; column := c2 mod 2 ^ 32 |};
                   new_end_point :=
                     {| row := r3 mod 2 ^ 32; column := c3 mod 2 ^ 32 |} |};
            tree_source := tree_source tree;
            tree_edited := 1 |}]> h) /\
  tree_edit h t
    ([PyLong (a + ka * 2 ^ 32); PyLong (b + kb * 2 ^ 32);
      PyLong (c + kc * 2 ^ 32)] ++ points) []
  = tree_edit h t ([PyLong a; PyLong b; PyLong c] ++ points) [].
Proof.
  intros Ht points. subst points. cbn [app]. split.
  - apply (tree_edit_ok h t tree); [exact Ht|]. apply parse_edit_args_integers.
  - rewrite !(tree_edit_ok h t tree _ _ _ Ht (parse_edit_args_integers _ _ _ _ _ _ _ _ _)).
    by rewrite !Z_mod_plus_full.
Qed.

Lemma kw_lookup_elem (k : string) v (kwargs : list (string * PyValue)) :
  NoDup kwargs.*1 -> (k, v) ∈ kwargs -> kw_lookup k kwargs = Some v.
Proof.
  unfold kw_lookup. induction kwargs as [|[k' v'] kwargs IH]; intros Hnd Hin.
  - by apply elem_of_nil in Hin.
  - apply NoDup_cons in Hnd as [Hk' Hnd]. simpl.
    destruct (String.eqb_spec k' k) as [->|Hne]; simpl.
    + apply elem_of_cons in Hin as [[= ->]|Hin]; [done|].
      destruct Hk'. apply list_elem_of_fmap. by exists (k, v).
    + apply elem_of_cons in Hin as [[= -> ->]|Hin]; [done|]. by apply IH.
Qed.

Lemma edit_keywords_bound (a b c d e f : PyValue)
    (kwargs : list (string * PyValue)) :
  kwargs ≡ₚ
    [("start_byte", a); ("old_end_byte", b); ("new_end_byte", c);
     ("start_point", d); ("old_end_point", e); ("new_end_point", f)]%string ->
  bind_args edit_keywords 6 [] kwargs
    = inr [Some a; Some b; Some c; Some d; Some e; Some f].
Proof.
  intros Hperm.
  assert (NoDup kwargs.*1) as Hnd.
  { rewrite Hperm. cbn. apply NoDup_ListNoDup.
    repeat (constructor; [cbn; intuition discriminate|]). constructor. }
  assert (forall k v, (k, v) ∈ kwargs <->
            (k, v) ∈ [("start_byte", a); ("old_end_byte", b);
                      ("new_end_byte", c); ("start_point", d);
                      ("old_end_point", e); ("new_end_point", f)]%string)
    as Hin by (intros k v; by rewrite Hperm).
  unfold bind_args.
  rewrite (Permutation_length Hperm). cbn [length edit_keywords Nat.ltb Nat.leb Nat.add].
  replace (forallb _ kwargs) with true.
  2:{ symmetry. apply forallb_forall. intros [k v] Hkv.
      apply list_elem_of_In, Hin in Hkv.
      repeat (apply elem_of_cons in Hkv as [[= -> ->]|Hkv]; [reflexivity|]).
      by apply elem_of_nil in Hkv. }
  cbn [bind_from edit_keywords lookup list_lookup].
  rewrite !(kw_lookup_elem _ _ kwargs Hnd) by
    (apply Hin; repeat (first [apply list_elem_of_here | apply list_elem_of_further])).
  reflexivity.
Qed.

(** X9: [edit] takes its six parameters by keyword as well as by
    position: a call that gives each of [start_byte], [old_end_byte],
    [new_end_byte], [start_point], [old_end_point] and [new_end_point]
    once by keyword, in any order, has the result of the positional call
    with the same values. *)
Theorem edit_by_keyword h t (a b c d e f : PyValue)
    (kwargs : list (string * PyValue)) :
  kwargs ≡ₚ
    [("start_byte", a); ("old_end_byte", b); ("new_end_byte", c);
     ("start_point", d); ("old_end_point", e); ("new_end_point", f)]%string ->
  tree_edit h t [] kwargs = tree_edit h t [a; b; c; d; e; f] [].
Proof.
  intros Hperm. unfold tree_edit, parse_edit_with.
  by rewrite (edit_keywords_bound a b c d e f kwargs Hperm).
Qed.

Lemma tree_edit_step h t (tree : Tree) args kwargs :
  h !! t = Some (TreeObj tree) ->
  exists tree' : Tree,
    (tree_edit h t args kwargs).2 !! t = Some (TreeObj tree') /\
    tree_source tree' = tree_source tree /\
    (tree_edited tree <> 0 -> tree_edited tree' <> 0) /\
    (forall l, l <> t -> (tree_edit h t args kwargs).2 !! l = h !! l).
Proof.
  intros Ht. unfold tree_edit. rewrite Ht.
  destruct (parse_edit_with _ args kwargs) as [e|edit]; cbn [snd].
  - exists tree. eauto.
  - eexists. split; [apply lookup_insert_eq|]. split; [reflexivity|].
    split; [simpl; lia|]. intros l Hl. by rewrite lookup_insert_ne.
Qed.

(** X10: an edited tree stays edited: after any further calls of [edit],
    well-formed or not, the tree still holds the source buffer it was
    created with, its [text] is still [None], and no other object has
    changed. *)
Theorem edited_stays_edited
    (calls : list (list PyValue * list (string * PyValue)))
    h t (tree : Tree) :
  h !! t = Some (TreeObj tree) ->
  tree_edited tree <> 0 ->
  exists tree' : Tree,
    run_edits calls h t !! t = Some (TreeObj tree') /\
    tree_edited tree' <> 0 /\
    tree_source tree' = tree_source tree /\
    tree_get_text tree' = Py_None /\
    (forall l, l <> t -> run_edits calls h t !! l = h !! l).
Proof.
  revert h tree.
  induction calls as [|[args kwargs] calls IH]; intros h tree Ht He.
  - exists tree. repeat split; try done. by apply tree_get_text_edited.
  - destruct (tree_edit_step h t tree args kwargs Ht)
      as (tree1 & Ht1 & Hs1 & He1 & Hk1).
    destruct (IH _ tree1 Ht1 (He1 He)) as (tree' & Ht' & He' & Hs' & Htx & Hk').
    exists tree'. cbn [run_edits].
    split; [exact Ht'|]. split; [exact He'|]. split; [congruence|].
    split; [exact Htx|]. intros l Hl. rewrite Hk' by done. by apply Hk1.
Qed.

(** *** Parser *)


(** X11: [set_language] on a Parser, whatever its argument, has one of
    three outcomes. It fails with an exception and leaves every object
    as it was; or it returns [None] having bound a language whose version
    is between [MIN_COMPATIBLE] and [CURRENT]; or, when [language_id] is
    an integer that is not null and at whose address no language is, it
    reads the version through that pointer, which is undefined behaviour.
    No language of another version is ever handed to the engine parser,
    and a failed call never unbinds the previous one. *)
Theorem set_language_fails_or_binds_compatible h self (p : Parser) arg :
  h !! self = Some (ParserObj p) ->
  (exists e, parser_set_language h self arg = (Raise e, h)) \/
  (exists language_id id (language : TSLanguage),
     get_language_id h arg = Some language_id /\
     as_long language_id = Some id /\
     language_of_id id = Some language /\
     (TREE_SITTER_MIN_COMPATIBLE_LANGUAGE_VERSION
        <= ts_language_version language)%N /\
     (ts_language_version language <= TREE_SITTER_LANGUAGE_VERSION)%N /\
     parser_set_language h self arg =
       (Return Py_None,
        <[self := ParserObj {| parser_parser :=
             ts_parser_set_language (parser_parser p) language |}]> h)) \/
  (exists language_id id,
     get_language_id h arg = Some language_id /\
     as_long language_id = Some id /\
     language_of_id id = None /\
     PyLong_AsVoidPtr id <> 0 /\
     parser_set_language h self arg = (Crash, h)).
Proof.
  intros Hp. unfold parser_set_language. rewrite Hp.
  destruct (get_language_id h arg) as [language_id|]; [|by left; eexists].
  destruct (as_long language_id) as [id|] eqn:Hlong; [|by left; eexists].
  destruct (language_of_id id) as [language|] eqn:Hlang.
  - destruct (N.ltb_spec (ts_language_version language)
                TREE_SITTER_MIN_COMPATIBLE_LANGUAGE_VERSION);
      destruct (N.ltb_spec TREE_SITTER_LANGUAGE_VERSION
                  (ts_language_version language)); cbn [orb];
      try (by left; eexists).
    right. left. exists language_id, id, language. repeat split; done.
  - destruct (Z.eqb_spec (PyLong_AsVoidPtr id) 0); [by left; eexists|].
    right. right. exists language_id, id. repeat split; done.
Qed.

(** X12: [parse] rejects a call without arguments and a call with more
    than two with a [TypeError]; and whenever [parse] fails with a
    [TypeError], for these or any other arguments, no object has
    changed: the engine parser has not run. *)
Theorem parse_type_error_keeps_store h self (p : Parser) :
  h !! self = Some (ParserObj p) ->
  (exists e, exc_type e = PyExc_TypeError /\
             parser_parse h self [] = (Raise e, h)) /\
  (forall a b c rest,
     exists e, exc_type e = PyExc_TypeError /\
               parser_parse h self (a :: b :: c :: rest) = (Raise e, h)) /\
  (forall args e,
     (parser_parse h self args).1 = Raise e ->
     exc_type e = PyExc_TypeError ->
     (parser_parse h self args).2 = h).
Proof.
  intros Hp. split; [|split].
  - unfold parser_parse. rewrite Hp. eexists. split; [|reflexivity]. done.
  - intros a b c rest. unfold parser_parse. rewrite Hp.
    eexists. split; [|reflexivity]. done.
  - intros args e. unfold parser_parse. rewrite Hp.
    destruct args as [|source_code [|old [|? ?]]]; try done;
      destruct source_code; try done; cbn [head].
    + destruct (ts_parser_parse_string _ _ _ _) as [[new_tree|] parser];
        [by destruct (tree_new_internal _ _ _)|].
      cbn [fst snd]. intros [= <-]. discriminate.
    + destruct (as_tree h old) as [tr|]; [|done].
      destruct (ts_parser_parse_string _ _ _ _) as [[new_tree|] parser];
        [by destruct (tree_new_internal _ _ _)|].
      cbn [fst snd]. intros [= <-]. discriminate.
Qed.

(** *** Cursors *)

Lemma tree_cursor_goto_unfold move h self (c : TreeCursor) :
  h !! self = Some (TreeCursorObj c) ->
  tree_cursor_goto move h self =
    (Return (PyBool (move (cursor_cursor c)).1),
     <[self := TreeCursorObj
         {| cursor_cursor := (move (cursor_cursor c)).2;
            cursor_node := if (move (cursor_cursor c)).1 then None
                           else cursor_node c;
            cursor_tree := cursor_tree c |}]> h).
Proof.
  intros Hc. unfold tree_cursor_goto. rewrite Hc.
  by destruct (move (cursor_cursor c)).
Qed.

(** Each call on a cursor keeps its cache coherent, provided a movement
    primitive that reports [false] has kept the current node. *)
Lemma run_op_coherent (op : cursor_op) h self tree :
  (forall nav (c : TSTreeCursor),
     (engine_move nav c).1 = false ->
     ts_tree_cursor_current_node (engine_move nav c).2
       = ts_tree_cursor_current_node c) ->
  cache_coherent h self tree ->
  cache_coherent (run_op op h self).2 self tree.
Proof.
  intros Hstay Hcoh. pose proof Hcoh as (c & Hc & Ht & Hcache).
  destruct op as [nav| |]; cbn [run_op].
  - rewrite navigate_goto, (tree_cursor_goto_unfold _ h self c Hc). cbn [snd].
    eexists. split; [apply lookup_insert_eq|]. split; [exact Ht|].
    cbn [cursor_node cursor_cursor].
    destruct (engine_move nav (cursor_cursor c)).1 eqn:Hm; [done|].
    intros n Hn. destruct (Hcache n Hn) as (nd & Hnd & Hpos & Htree).
    exists nd. split; [|split; [|exact Htree]].
    + rewrite lookup_insert_ne; [exact Hnd|]. intros ->. congruence.
    + rewrite Hpos. symmetry. by apply Hstay.
  - destruct (cursor_node c) as [n|] eqn:Hn.
    + rewrite (tree_cursor_get_node_cached h self c n Hc Hn). exact Hcoh.
    + destruct (tree_cursor_get_node_derives h self c tree Hc Hn Ht)
        as (n & h' & -> & _ & Hnew & Hself). cbn [snd].
      eexists. split; [exact Hself|]. split; [exact Ht|].
      cbn [set_cursor_node cursor_node cursor_cursor].
      intros ? [= <-]. eexists. split; [exact Hnew|]. done.
  - unfold tree_cursor_current_field_name. rewrite Hc.
    destruct (ts_tree_cursor_current_field_name _); exact Hcoh.
Qed.

Lemma run_ops_coherent (ops : list cursor_op) h self tree :
  (forall nav (c : TSTreeCursor),
     (engine_move nav c).1 = false ->
     ts_tree_cursor_current_node (engine_move nav c).2
       = ts_tree_cursor_current_node c) ->
  cache_coherent h self tree ->
  cache_coherent (run_ops ops h self) self tree.
Proof.
  intros Hstay. revert h.
  induction ops as [|op ops IH]; intros h Hcoh; [exact Hcoh|].
  cbn [run_ops]. apply IH. by apply run_op_coherent.
Qed.

Lemma coherent_node_current h self tree :
  cache_coherent h self tree ->
  exists (c : TreeCursor) n h' (nd : Node),
    h !! self = Some (TreeCursorObj c) /\
    tree_cursor_get_node h self = (Return (PyRef n), h') /\
    h' !! n = Some (NodeObj nd) /\
    node_node nd = ts_tree_cursor_current_node (cursor_cursor c) /\
    node_tree nd = Some tree.
Proof.
  intros (c & Hc & Ht & Hcache).
  destruct (cursor_node c) as [n|] eqn:Hn.
  - destruct (Hcache n eq_refl) as (nd & Hnd & Hpos & Htree).
    exists c, n, h, nd.
    by rewrite (tree_cursor_get_node_cached h self c n Hc Hn).
  - destruct (tree_cursor_get_node_derives h self c tree Hc Hn Ht)
      as (n & h' & Hget & _ & Hnew & _).
    eexists c, n, h', _. split; [done|]. split; [exact Hget|].
    split; [exact Hnew|]. done.
Qed.

(** X13: the Node a TreeCursor hands out is never stale. Starting from a
    cursor whose cached Node, if any, is at the cursor's position, and
    for an engine whose movement primitives keep the current node when
    they report [false]: after any sequence of [goto_parent],
    [goto_first_child], [goto_next_sibling], [node] and
    [current_field_name] calls, [node] returns a Node of the cursor's
    tree at the engine cursor's current position. *)
Theorem cursor_node_always_current (ops : list cursor_op) h self tree :
  (forall nav (c : TSTreeCursor),
     (engine_move nav c).1 = false ->
     ts_tree_cursor_current_node (engine_move nav c).2
       = ts_tree_cursor_current_node c) ->
  cache_coherent h self tree ->
  exists (c : TreeCursor) n h' (nd : Node),
    run_ops ops h self !! self = Some (TreeCursorObj c) /\
    tree_cursor_get_node (run_ops ops h self) self = (Return (PyRef n), h') /\
    h' !! n = Some (NodeObj nd) /\
    node_node nd = ts_tree_cursor_current_node (cursor_cursor c) /\
    node_tree nd = Some tree.
Proof.
  intros Hstay Hcoh.
  by apply coherent_node_current, run_ops_coherent.
Qed.

Lemma tree_cursor_new_internal_spec h (x : TSNode) tree :
  let r := tree_cursor_new_internal h x tree in
  h !! r.1 = None /\
  r.2 !! r.1 = Some (TreeCursorObj {| cursor_cursor := ts_tree_cursor_new x;
                                      cursor_node := None;
                                      cursor_tree := Some tree |}) /\
  (forall l, is_Some (h !! l) -> r.2 !! l = h !! l) /\
  cache_coherent r.2 r.1 tree.
Proof.
  unfold tree_cursor_new_internal. cbv zeta.
  set (o := TreeCursorObj _).
  split; [apply alloc_fresh|]. split; [apply alloc_lookup|].
  split; [intros l Hl; by apply alloc_other|].
  eexists. split; [apply alloc_lookup|]. split; [reflexivity|]. done.
Qed.

(** X14: [walk] on a Tree, and on a Node of a tree, returns a cursor
    object that did not exist before, on a new engine cursor at the root
    of the tree, respectively at the node, holding the tree and no
    cached Node, and leaves every existing object as it was. *)
Theorem walk_returns_fresh_cursor h t (tree : Tree) (self : Node) :
  h !! t = Some (TreeObj tree) ->
  node_tree self = Some t ->
  (exists c h',
     tree_walk h t = (Return (PyRef c), h') /\
     h !! c = None /\
     h' !! c = Some (TreeCursorObj
                       {| cursor_cursor :=
                            ts_tree_cursor_new
                              (ts_tree_root_node (tree_tree tree));
                          cursor_node := None;
                          cursor_tree := Some t |}) /\
     cache_coherent h' c t /\
     (forall l, is_Some (h !! l) -> h' !! l = h !! l)) /\
  (exists c h',
     node_walk h self = (Return (PyRef c), h') /\
     h !! c = None /\
     h' !! c = Some (TreeCursorObj
                       {| cursor_cursor := ts_tree_cursor_new (node_node self);
                          cursor_node := None;
                          cursor_tree := Some t |}) /\
     cache_coherent h' c t /\
     (forall l, is_Some (h !! l) -> h' !! l = h !! l)).
Proof.
  intros Ht Hn. split.
  - unfold tree_walk. rewrite Ht.
    destruct (tree_cursor_new_internal_spec h
                (ts_tree_root_node (tree_tree tree)) t)
      as (Hf & Hnew & Hold & Hcoh).
    destruct (tree_cursor_new_internal h _ t) as [c h']. cbn [fst snd] in *.
    exists c, h'. eauto.
  - unfold node_walk. rewrite Hn.
    destruct (tree_cursor_new_internal_spec h (node_node self) t)
      as (Hf & Hnew & Hold & Hcoh).
    destruct (tree_cursor_new_internal h _ t) as [c h']. cbn [fst snd] in *.
    exists c, h'. eauto.
Qed.

(** *** Queries *)

Lemma captures_loop_spec (caps : list (TSNode * nat)) :
  forall fuel h (c : TSQueryCursor) tree names result items,
    captures_from c caps ->
    (length caps < fuel)%nat ->
    Forall (fun x => is_Some (names !! x.2)) caps ->
    h !! result = Some (ListObj items) ->
    exists h' c' ns,
      captures_loop fuel h c (Some tree) names result = Some (Some (h', c')) /\
      h' !! result
        = Some (ListObj (items ++ zip_with (capture_pair names) ns caps)) /\
      Forall2 (fun n x => h' !! n = Some (new_node x.1 tree)) ns caps /\
      Forall (fun n => h !! n = None) ns /\
      (forall l, is_Some (h !! l) -> l <> result -> h' !! l = h !! l).
Proof.
  induction caps as [|[capture index] caps IH];
    intros fuel h c tree names result items Hfrom Hfuel Hidx Hres;
    (destruct fuel as [|fuel]; [simpl in Hfuel; lia|]);
    rewrite captures_loop_step; cbn [captures_from] in Hfrom.
  - rewrite Hfrom. exists h, c, []. cbn [zip_with]. rewrite app_nil_r.
    split; [done|]. split; [done|]. split; [constructor|].
    split; [constructor | done].
  - destruct (ts_query_cursor_next_capture c) as [[y c1]|]; [|done].
    destruct Hfrom as [-> Hfrom].
    apply Forall_cons in Hidx as [[name Hname] Hidx]. cbn [snd] in Hname.
    rewrite Hname. cbv zeta.
    set (o := new_node capture tree).
    pose proof (alloc_fresh h o) as Hfresh.
    pose proof (alloc_lookup h o) as Hnew.
    pose proof (alloc_other h o) as Hold.
    set (n := (alloc h o).1) in *. set (h1 := (alloc h o).2) in *.
    assert (n <> result) as Hne
      by (intros Heq; rewrite Heq in Hfresh; congruence).
    assert (h1 !! result = Some (ListObj items)) as Hres1
      by (rewrite Hold; eauto).
    unfold PyList_Append. rewrite Hres1.
    set (item := Some (PyTuple [PyRef n; name])).
    set (h2 := <[result := ListObj (items ++ [item])]> h1).
    assert (forall l, is_Some (h !! l) -> l <> result -> h2 !! l = h !! l)
      as Hold2.
    { intros l Hl Hlr. unfold h2. rewrite lookup_insert_ne by done.
      by apply Hold. }
    destruct (IH fuel h2 c1 tree names result (items ++ [item]))
      as (h' & c' & ns & Hrun & Hlist & Hall & Hnone & Hkeep);
      [exact Hfrom | simpl in Hfuel; lia | exact Hidx
      | by unfold h2; rewrite lookup_insert_eq |].
    exists h', c', (n :: ns). split; [exact Hrun|]. split.
    { rewrite Hlist, <- app_assoc. cbn [zip_with app]. unfold capture_pair at 2.
      cbn [snd]. by rewrite Hname. }
    split.
    { constructor; [|exact Hall]. cbn [fst].
      rewrite Hkeep; [| unfold h2; rewrite lookup_insert_ne by done; eauto
                      | done].
      unfold h2. by rewrite lookup_insert_ne. }
    split.
    { constructor; [exact Hfresh|].
      eapply Forall_impl; [exact Hnone|]. intros l Hl. cbn beta in Hl.
      destruct (h !! l) eqn:Hh; [|done].
      destruct (decide (l = result)) as [->|Hlr].
      - unfold h2 in Hl. rewrite lookup_insert_eq in Hl. discriminate.
      - rewrite Hold2 in Hl; [congruence | eauto | done]. }
    intros l Hl Hlr. rewrite Hkeep; [by apply Hold2 | | done].
    rewrite Hold2; done.
Qed.

(** X15: [captures] returns what the engine reports, in its order: when
    the execution cursor, started on the query and the Node's position,
    reports the captures [caps] (each with an index that has a name),
    the call returns a new list with one pair per capture, the [i]-th
    pairing a new Node of the searched Node's tree at the [i]-th captured
    position with the name stored at the [i]-th capture's index; the
    execution cursor is kept for the next call and no existing object is
    changed. *)
Theorem captures_follow_engine fuel (st : State) (q : Query) args kwargs
    node (nd : Node) tree r (caps : list (TSNode * nat)) :
  parse_captures_args args kwargs = inr (node, r.1, r.2) ->
  as_node (heap st) node = Some nd ->
  node_tree nd = Some tree ->
  captures_from
    (ts_query_cursor_exec
       (default ts_query_cursor_new (query_cursor st))
       (query_query q) (node_node nd)) caps ->
  Forall (fun x => is_Some (query_capture_names q !! x.2)) caps ->
  (length caps < fuel)%nat ->
  exists st' lst ns,
    query_captures fuel st q args kwargs = Some (Return (PyRef lst), st') /\
    heap st !! lst = None /\
    heap st' !! lst
      = Some (ListObj (zip_with (capture_pair (query_capture_names q)) ns caps)) /\
    Forall2 (fun n x => heap st' !! n = Some (new_node x.1 tree)) ns caps /\
    is_Some (query_cursor st') /\
    (forall l, is_Some (heap st !! l) -> heap st' !! l = heap st !! l).
Proof.
  intros Hp Hn Ht Hfrom Hidx Hfuel. unfold query_captures.
  rewrite (parse_captures_with_mono convert_II (convert_II_seq (heap st))
             args kwargs _ (convert_II_seq_tuple (heap st)) Hp).
  destruct r as [[? ?] [? ?]]. cbn [fst snd]. rewrite Hn.
  unfold run_captures. rewrite Ht.
  replace (match query_cursor st with
           | Some cursor => cursor
           | None => ts_query_cursor_new
           end) with (default ts_query_cursor_new (query_cursor st))
    by (by destruct (query_cursor st)).
  pose proof (alloc_fresh (heap st) (ListObj [])) as Hfresh.
  pose proof (alloc_lookup (heap st) (ListObj [])) as Hnew.
  pose proof (alloc_other (heap st) (ListObj [])) as Hold.
  destruct (alloc (heap st) (ListObj [])) as [result h1].
  cbn [fst snd] in Hfresh, Hnew, Hold.
  destruct (captures_loop_spec caps fuel h1 _ tree (query_capture_names q)
              result [] Hfrom Hfuel Hidx Hnew)
    as (h' & c' & ns & Hrun & Hlist & Hall & _ & Hkeep).
  rewrite Hrun. eexists _, result, ns. split; [reflexivity|]. cbn [heap query_cursor].
  split; [exact Hfresh|]. split; [exact Hlist|]. split; [exact Hall|].
  split; [eauto|].
  intros l Hl. rewrite Hkeep; [by apply Hold | by rewrite Hold |].
  intros ->. destruct Hl. congruence.
Qed.

(** X16: a Query compiled by [_language_query] knows the name of every
    capture: for a language of the engine and a pattern source (shorter
    than [2^31] bytes) that the engine compiles to a query with [n]
    captures, the call returns a new Query object holding that query and
    a list of [n] names, the [i]-th being the engine's name for capture
    [i]; so a lookup by any index below [n] succeeds. *)
Theorem language_query_names_captures h (lid : Z) (src : string)
    (language : TSLanguage) (query : TSQuery) :
  language_of_id lid = Some language ->
  let bytes := list_byte_of_string src in
  Z.of_nat (length bytes) < 2 ^ 31 ->
  ts_query_new language bytes (Z.of_nat (length bytes)) = inl query ->
  exists l h' (q : Query),
    language_query h [PyLong lid; PyUnicode src] = (Return (PyRef l), h') /\
    h !! l = None /\
    h' !! l = Some (QueryObj q) /\
    query_query q = query /\
    length (query_capture_names q) = ts_query_capture_count query /\
    (forall i, (i < ts_query_capture_count query)%nat ->
       query_capture_names q !! i
         = Some (PyUnicode (ts_query_capture_name_for_id query i))) /\
    (forall l', is_Some (h !! l') -> h' !! l' = h !! l').
Proof.
  intros Hl bytes Hlen Hq. unfold language_query. cbn [convert_s_hash as_long mbind option_bind].
  fold bytes. rewrite Hl.
  replace ((Z.of_nat (length bytes) + 2 ^ 31) mod 2 ^ 32 - 2 ^ 31)
    with (Z.of_nat (length bytes))
    by (rewrite Z.mod_small; lia).
  unfold query_new_internal. rewrite Hq.
  set (q := {| query_query := query; query_capture_names := _ |}).
  pose proof (alloc_fresh h (QueryObj q)) as Hfresh.
  pose proof (alloc_lookup h (QueryObj q)) as Hnew.
  pose proof (alloc_other h (QueryObj q)) as Hold.
  destruct (alloc h (QueryObj q)) as [l h']. cbn [fst snd] in *.
  exists l, h', q. split; [done|]. split; [exact Hfresh|].
  split; [exact Hnew|]. split; [done|]. cbn [query_capture_names q].
  split; [by rewrite length_fmap, length_seq|]. split; [|exact Hold].
  intros i Hi. rewrite list_lookup_fmap, lookup_seq_lt by done. done.
Qed.

(** *** Children, once more *)

(** The first access to [children], with what it leaves alone. *)
Lemma node_get_children_spec (st : State) (self : loc) (n : Node)
    (tree : loc) (kids : list TSNode) fuel :
  heap st !! self = Some (NodeObj n) ->
  node_children n = None ->
  node_tree n = Some tree ->
  has_children (default_cursor st) (node_node n) kids ->
  (length kids <= fuel)%nat ->
  exists st' lst items,
    node_get_children fuel st self = Some (Return (PyRef lst), st') /\
    heap st !! lst = None /\
    Forall (fun item => heap st !! item = None) items /\
    heap st' !! lst = Some (ListObj ((fun l => Some (PyRef l)) <$> items)) /\
    Forall2 (fun item k => heap st' !! item = Some (new_node k tree))
      items kids /\
    heap st' !! self = Some (NodeObj (set_node_children n (Some lst))) /\
    query_cursor st' = query_cursor st /\
    (forall l, l <> self -> is_Some (heap st !! l) ->
               heap st' !! l = heap st !! l).
Proof.
  intros Hself Hnone Htree [Hcount Hwalk] Hfuel.
  unfold node_get_children. rewrite Hself, Hnone, Hcount.
  replace (Z.to_nat (Z.of_N (N.of_nat (length kids)))) with (length kids) by lia.
  set (o := ListObj (replicate (length kids) None)).
  pose proof (alloc_fresh (heap st) o) as Hfresh.
  pose proof (alloc_lookup (heap st) o) as Hlst.
  pose proof (alloc_other (heap st) o) as Hold.
  destruct (alloc (heap st) o) as [result h1].
  cbn [fst snd] in Hfresh, Hlst, Hold.
  assert (self <> result) as Hne by (intros ->; congruence).
  destruct kids as [|k kids'].
  - cbn [length Z.of_N N.of_nat Z.ltb Z.compare].
    eexists _, result, []. split; [reflexivity|]. cbn [heap query_cursor].
    split; [exact Hfresh|]. split; [constructor|].
    split; [by rewrite lookup_insert_ne|].
    split; [constructor|].
    split; [by rewrite lookup_insert_eq|]. split; [done|].
    intros l Hl Hsome. rewrite lookup_insert_ne by done. by apply Hold.
  - replace (0 <? Z.of_N (N.of_nat (length (k :: kids')))) with true
      by (symmetry; apply Z.ltb_lt; simpl; lia).
    rewrite Htree.
    destruct (children_loop_spec (k :: kids') fuel h1
                (ts_tree_cursor_goto_first_child
                   (ts_tree_cursor_reset (default_cursor st) (node_node n))).2
                tree result 0%nat None (replicate (length (k :: kids')) None))
      as (h' & c' & items & Hrun & Hn & Hlist & Hall & Hnew & Hkeep);
      [apply Hwalk; discriminate | exact Hfuel | exact Hlst
      | rewrite length_replicate; lia |].
    rewrite Hrun.
    rewrite <- Hn, <- (length_fmap (fun l => Some (PyRef l))) in Hlist.
    rewrite list_inserts_replicate_all in Hlist.
    assert (Forall (fun item => heap st !! item = None) items) as Hnone'.
    { eapply Forall_impl; [exact Hnew|]. intros item Hi. cbn beta in Hi.
      destruct (heap st !! item) eqn:Hh; [|done].
      rewrite Hold in Hi by eauto. congruence. }
    eexists _, result, items. split; [reflexivity|]. cbn [heap query_cursor].
    split; [exact Hfresh|]. split; [exact Hnone'|].
    split; [by rewrite lookup_insert_ne|].
    split.
    { apply Forall2_insert_other; [exact Hall|].
      eapply Forall_impl; [exact Hnone'|]. intros item Hi ->. congruence. }
    split; [by rewrite lookup_insert_eq|]. split; [done|].
    intros l Hl Hsome. rewrite lookup_insert_ne by done.
    rewrite Hkeep; [by apply Hold | by rewrite Hold |].
    intros ->. destruct Hsome. congruence.
Qed.

Lemma Forall2_with_left {A B} (P R : A -> B -> Prop) (Q : A -> Prop)
    (xs : list A) (ys : list B) :
  Forall2 P xs ys -> Forall Q xs ->
  (forall x y, P x y -> Q x -> R x y) -> Forall2 R xs ys.
Proof.
  induction 1 as [|x y xs ys Hxy Hrest IH]; intros HQ HR; [constructor|].
  apply Forall_cons in HQ as [Hx HQ]. constructor; eauto.
Qed.

Lemma Forall2_left {A B} (P : A -> B -> Prop) (Q : A -> Prop)
    (xs : list A) (ys : list B) :
  Forall2 P xs ys -> (forall x y, P x y -> Q x) -> Forall Q xs.
Proof. induction 1; intros HQ; constructor; eauto. Qed.

(** X17: materialising the children of a Node changes that Node's cache
    and nothing else that existed: every other object, the Tree with its
    source and [edited] flag and every other Node and cursor among them,
    is as it was, the list and the child Nodes are all new objects, and
    the query execution cursor is not touched. *)
Theorem children_change_nothing_else (st : State) (self : loc) (n : Node)
    (tree : loc) (kids : list TSNode) fuel :
  heap st !! self = Some (NodeObj n) ->
  node_children n = None ->
  node_tree n = Some tree ->
  has_children (default_cursor st) (node_node n) kids ->
  (length kids <= fuel)%nat ->
  exists st' lst items,
    node_get_children fuel st self = Some (Return (PyRef lst), st') /\
    heap st' !! lst = Some (ListObj ((fun l => Some (PyRef l)) <$> items)) /\
    heap st !! lst = None /\
    Forall (fun item => heap st !! item = None) items /\
    query_cursor st' = query_cursor st /\
    (forall l, l <> self -> is_Some (heap st !! l) ->
               heap st' !! l = heap st !! l).
Proof.
  intros Hself Hnone Htree Hkids Hfuel.
  destruct (node_get_children_spec st self n tree kids fuel
              Hself Hnone Htree Hkids Hfuel)
    as (st' & lst & items & Hrun & Hf & Hfs & Hl & _ & _ & Hq & Hkeep).
  exists st', lst, items. eauto 10.
Qed.

(** X18: two handles on one position have the same children. For two
    Node objects at the same engine position and of the same tree, the
    first access to [children] on the one and then on the other builds
    two different lists of different Node objects whose [i]-th entries
    are both at the [i]-th child, so that they compare equal wherever the
    engine's position equality is reflexive. *)
Theorem children_of_equal_handles_agree (st : State) (a b : loc)
    (na nb : Node) (tree : loc) (kids : list TSNode) fuel :
  a <> b ->
  heap st !! a = Some (NodeObj na) ->
  heap st !! b = Some (NodeObj nb) ->
  node_node nb = node_node na ->
  node_children na = None -> node_children nb = None ->
  node_tree na = Some tree -> node_tree nb = Some tree ->
  (forall c0, has_children c0 (node_node na) kids) ->
  (length kids <= fuel)%nat ->
  exists st1 st2 la lb items_a items_b,
    node_get_children fuel st a = Some (Return (PyRef la), st1) /\
    node_get_children fuel st1 b = Some (Return (PyRef lb), st2) /\
    la <> lb /\
    heap st2 !! la = Some (ListObj ((fun l => Some (PyRef l)) <$> items_a)) /\
    heap st2 !! lb = Some (ListObj ((fun l => Some (PyRef l)) <$> items_b)) /\
    Forall2 (fun item k => heap st2 !! item = Some (new_node k tree))
      items_a kids /\
    Forall2 (fun item k => heap st2 !! item = Some (new_node k tree))
      items_b kids /\
    Forall (fun item => item ∉ items_b) items_a.
Proof.
  intros Hab Ha Hb Hpos Hca Hcb Hta Htb Hkids Hfuel.
  destruct (node_get_children_spec st a na tree kids fuel
              Ha Hca Hta (Hkids _) Hfuel)
    as (st1 & la & items_a & Hrun1 & Hf1 & Hfs1 & Hl1 & Hall1 & _ & _ & Hkeep1).
  assert (heap st1 !! b = Some (NodeObj nb)) as Hb1
    by (rewrite Hkeep1; eauto).
  assert (has_children (default_cursor st1) (node_node nb) kids) as Hkids1
    by (rewrite Hpos; apply Hkids).
  destruct (node_get_children_spec st1 b nb tree kids fuel
              Hb1 Hcb Htb Hkids1 Hfuel)
    as (st2 & lb & items_b & Hrun2 & Hf2 & Hfs2 & Hl2 & Hall2 & _ & _ & Hkeep2).
  assert (la <> b) as Hlab by (intros ->; congruence).
  assert (Forall (fun item => item <> b) items_a) as Hab'.
  { eapply Forall_impl; [exact Hfs1|]. intros item Hi ->. congruence. }
  exists st1, st2, la, lb, items_a, items_b.
  split; [exact Hrun1|]. split; [exact Hrun2|].
  split; [intros ->; congruence|].
  split; [rewrite Hkeep2; [exact Hl1 | exact Hlab | eauto]|].
  split; [exact Hl2|]. split; [|split; [exact Hall2|]].
  - eapply Forall2_with_left; [exact Hall1 | exact Hab' |].
    intros item k Hi Hib. cbn beta in *.
    rewrite Hkeep2; [exact Hi | exact Hib | eauto].
  - eapply Forall2_left; [exact Hall1|].
    intros item k Hi Hin. cbn beta in *. rewrite Forall_forall in Hfs2.
    specialize (Hfs2 item Hin). congruence.
Qed.

(** *** Soundness of the store *)
























(** *** Failures and bounds *)



Lemma length_string_of_list_byte (bs : list byte) :
  String.length (string_of_list_byte bs) = length bs.
Proof. induction bs as [|b bs IH]; [done|]. cbn. by rewrite <- IH. Qed.

Lemma scan_word_length (bs : list byte) :
  (length (scan_word bs) <= length bs)%nat.
Proof.
  induction bs as [|b bs IH]; cbn; [lia|].
  destruct (is_word_char b); cbn; lia.
Qed.

(** X21: the word reported for a query error never runs past the pattern
    source: it has at most [length - error_offset] characters, and none
    at all when the engine reports an offset at or beyond the end. *)
Theorem error_word_within_source (source : list byte) (length : Z)
    (error_offset : N) :
  (String.length (error_word source length error_offset)
   <= Z.to_nat length - N.to_nat error_offset)%nat /\
  (String.length (error_word source length error_offset)
   <= List.length source - N.to_nat error_offset)%nat /\
  (length <= Z.of_N error_offset ->
   error_word source length error_offset = ""%string).
Proof.
  unfold error_word. rewrite length_string_of_list_byte.
  pose proof (scan_word_length
                (drop (N.to_nat error_offset) (take (Z.to_nat length) source)))
    as Hle.
  rewrite length_drop, length_take in Hle.
  split; [lia|]. split; [lia|].
  intros Hge. rewrite drop_ge; [done|]. rewrite length_take. lia.
Qed.

Lemma children_loop_length fuel :
  forall h (c : TSTreeCursor) t result i err items h' c' err',
    h !! result = Some (ListObj items) ->
    children_loop fuel h c t result i err = Some (h', c', err') ->
    exists items',
      h' !! result = Some (ListObj items') /\ length items' = length items.
Proof.
  induction fuel as [|fuel IH];
    intros h c t result i err items h' c' err' Hres Hrun; [discriminate|].
  rewrite children_loop_step in Hrun. cbv zeta in Hrun.
  set (o := new_node (ts_tree_cursor_current_node c) t) in *.
  pose proof (alloc_other h o result) as Hold.
  set (item := (alloc h o).1) in *. set (h1 := (alloc h o).2) in *.
  assert (h1 !! result = Some (ListObj items)) as Hres1
    by (rewrite Hold; eauto).
  assert (exists items2,
            (PyList_SetItem h1 result i (PyRef item)).1 !! result
              = Some (ListObj items2) /\ length items2 = length items)
    as (items2 & Hres2 & Hlen2).
  { unfold PyList_SetItem. rewrite Hres1.
    destruct (i <? length items)%nat; cbn [fst]; [|eauto].
    eexists. split; [apply lookup_insert_eq|]. apply length_insert. }
  destruct (ts_tree_cursor_goto_next_sibling c).1.
  - destruct (IH _ _ _ _ _ _ _ _ _ _ Hres2 Hrun) as (items' & Hres' & Hlen').
    exists items'. split; [done | congruence].
  - injection Hrun as <- _ _. eauto.
Qed.

(** X22: the list of children always has as many slots as the engine
    counts children, whatever the engine's cursor does: the first access
    to [children] on a Node of a tree, when it returns, returns a list
    object of exactly [child_count] slots, stored on the Node; the loop
    never grows or shrinks it. *)
Theorem children_list_has_counted_length fuel (st st' : State) self
    (n : Node) tree r :
  heap st !! self = Some (NodeObj n) ->
  node_children n = None ->
  node_tree n = Some tree ->
  node_get_children fuel st self = Some (r, st') ->
  exists lst items,
    returned r = Some (PyRef lst) /\
    heap st' !! lst = Some (ListObj items) /\
    length items = N.to_nat (ts_node_child_count (node_node n)) /\
    heap st' !! self = Some (NodeObj (set_node_children n (Some lst))).
Proof.
  intros Hself Hnone Htree. unfold node_get_children.
  rewrite Hself, Hnone, Htree.
  set (count := ts_node_child_count (node_node n)).
  set (o := ListObj _).
  pose proof (alloc_fresh (heap st) o) as Hfresh.
  pose proof (alloc_lookup (heap st) o) as Hlst.
  destruct (alloc (heap st) o) as [result h1]. cbn [fst snd] in *.
  assert (self <> result) as Hne by (intros ->; congruence).
  assert (forall h2 cursor err items,
            h2 !! result = Some (ListObj items) ->
            length items = N.to_nat count ->
            Some (match err with
                  | Some e => ReturnWithError (PyRef result) e
                  | None => Return (PyRef result)
                  end,
                  {| heap := <[self := NodeObj (set_node_children n (Some result))]> h2;
                     default_cursor := cursor;
                     query_cursor := query_cursor st |}) = Some (r, st') ->
            exists lst items,
              returned r = Some (PyRef lst) /\
              heap st' !! lst = Some (ListObj items) /\
              length items = N.to_nat count /\
              heap st' !! self
                = Some (NodeObj (set_node_children n (Some lst)))) as Hfinish.
  { intros h2 cursor err items Hres Hlen [= <- <-]. cbn [heap].
    exists result, items. split; [by destruct err|].
    split; [by rewrite lookup_insert_ne|]. split; [done|].
    by rewrite lookup_insert_eq. }
  assert (length (replicate (Z.to_nat (Z.of_N count)) (@None PyValue))
          = N.to_nat count) as Hlen0 by (rewrite length_replicate; lia).
  destruct (0 <? _).
  - destruct (children_loop _ _ _ _ _ _ _) as [[[h2 cursor] err]|] eqn:Hrun;
      [|discriminate].
    destruct (children_loop_length _ _ _ _ _ _ _ _ _ _ _ Hlst Hrun)
      as (items' & Hres' & Hlen').
    intros Hret. refine (Hfinish h2 cursor err items' Hres' _ Hret). congruence.
  - intros Hret. exact (Hfinish h1 _ None _ Hlst Hlen0 Hret).
Qed.

(** X23: re-parsing after an edit. When a Tree has been edited and is
    given to [parse] as the old tree, the engine receives the edited
    engine tree; if it returns a tree for the new bytes, [parse] returns
    a different Tree object, unedited, whose [text] is the new bytes,
    while the old Tree still holds its source and its [text] is still
    [None]. *)
Theorem reparse_after_edit h self (p : Parser) t (tree : Tree) args kwargs
    (edit : TSInputEdit) bs (new_tree : TSTree) :
  h !! self = Some (ParserObj p) ->
  h !! t = Some (TreeObj tree) ->
  parse_edit_args args kwargs = inr edit ->
  (ts_parser_parse_string (parser_parser p)
     (Some (ts_tree_edit (tree_tree tree) edit)) bs
     (Z.of_nat (length bs) mod 2 ^ 32)).1 = Some new_tree ->
  exists t' h2 (old' new' : Tree),
    parser_parse (tree_edit h t args kwargs).2 self [PyBytes bs; PyRef t]
      = (Return (PyRef t'), h2) /\
    t' <> t /\
    h2 !! t' = Some (TreeObj new') /\
    tree_tree new' = new_tree /\
    tree_edited new' = 0 /\
    tree_get_text new' = PyBytes bs /\
    h2 !! t = Some (TreeObj old') /\
    tree_source old' = tree_source tree /\
    tree_get_text old' = Py_None.
Proof.
  intros Hp Ht Hargs Heng.
  rewrite (tree_edit_ok h t tree args kwargs edit Ht Hargs). cbn [snd].
  set (old' := {| tree_tree := ts_tree_edit (tree_tree tree) edit;
                  tree_source := tree_source tree; tree_edited := 1 |}).
  set (h1 := <[t := TreeObj old']> h).
  assert (self <> t) as Hne by (intros ->; congruence).
  assert (h1 !! self = Some (ParserObj p)) as Hp1
    by (unfold h1; by rewrite lookup_insert_ne).
  assert (h1 !! t = Some (TreeObj old')) as Ht1
    by (unfold h1; by rewrite lookup_insert_eq).
  rewrite (parser_parse_bytes h1 self p bs [PyRef t]
             (Some (ts_tree_edit (tree_tree tree) edit)) Hp1).
  2:{ right. exists (PyRef t), old'. split; [done|]. split; [|done].
      cbn. by rewrite Ht1. }
  cbv zeta. rewrite Heng.
  set (h1' := <[self := _]> h1).
  assert (h1' !! t = Some (TreeObj old')) as Ht1'
    by (unfold h1'; by rewrite lookup_insert_ne).
  unfold tree_new_internal.
  set (new' := {| tree_tree := new_tree; tree_edited := 0;
                  tree_source := Some (PyBytes bs) |}).
  pose proof (alloc_fresh h1' (TreeObj new')) as Hfresh.
  pose proof (alloc_lookup h1' (TreeObj new')) as Hnew.
  pose proof (alloc_other h1' (TreeObj new') t) as Hold.
  destruct (alloc h1' (TreeObj new')) as [t' h2]. cbn [fst snd] in *.
  exists t', h2, old', new'. split; [done|].
  split; [intros ->; congruence|]. split; [exact Hnew|].
  split; [done|]. split; [done|]. split; [done|].
  split; [rewrite Hold; eauto|]. split; [done|]. done.
Qed.

End MoreProperties.
(** ** The properties on the small engine *)

Import Toy Scenario.

Lemma h4_tree : h4 !! tree_at = Some (TreeObj the_tree).
Proof. vm_compute. reflexivity. Qed.

Lemma h4_root : h4 !! root_at = Some (NodeObj the_root).
Proof. vm_compute. reflexivity. Qed.

(** Witness of C1: the text of the word [1] of an unedited tree. *)
Lemma text_available_iff_unedited_witness :
  h4 !! tree_at = Some (TreeObj the_tree) /\
  node_tree a_word = Some tree_at /\
  node_get_text h4 a_word = Return (PyMemoryView (list_byte_of_string "1")).
Proof.
  assert (h4 !! tree_at = Some (TreeObj the_tree)) as Ht
    by (vm_compute; reflexivity).
  assert (node_tree a_word = Some tree_at) as Hn by reflexivity.
  split; [exact Ht|]. split; [exact Hn|].
  destruct (text_available_iff_unedited h4 tree_at the_tree a_word Ht Hn)
    as [Hun _].
  destruct (Hun eq_refl) as [_ Htext].
  exact (Htext source eq_refl).
Defined.

(** Witness of C2: the root of the parsed tree has five children. *)
Lemma children_materialised_once_witness :
  heap st !! root_at = Some (NodeObj the_root) /\
  has_children (default_cursor st) (node_node the_root)
    (children_of (node_node the_root)) /\
  node_get_child_count the_root = PyLong 5 /\
  exists st' lst items,
    node_get_children 5 st root_at = Some (Return (PyRef lst), st') /\
    heap st' !! lst = Some (ListObj ((fun l => Some (PyRef l)) <$> items)) /\
    length items = 5%nat.
Proof.
  assert (heap st !! root_at = Some (NodeObj the_root)) as Hself
    by (vm_compute; reflexivity).
  assert (has_children (default_cursor st) (node_node the_root)
            (children_of (node_node the_root))) as Hkids.
  { split; [reflexivity|]. intros _. vm_compute. repeat split; reflexivity. }
  split; [exact Hself|]. split; [exact Hkids|].
  destruct (children_materialised_once st root_at the_root tree_at
              (children_of (node_node the_root)) Hself eq_refl eq_refl Hkids)
    as [Hcount Hlist].
  split; [exact Hcount|].
  destruct (Hlist 5%nat) as (st' & lst & items & Hrun & Hl & Hall & _);
    [vm_compute; lia|].
  exists st', lst, items. split; [exact Hrun|]. split; [exact Hl|].
  exact (Forall2_length _ _ _ Hall).
Defined.

(** Witness of C4: the cursor at the root holds the Node it handed
    out, and [node] returns that Node again; [goto_parent] fails there
    and keeps it; [goto_first_child] moves the cursor and clears it, and
    the next [node] is a new Node, at the first word of the source. *)
Lemma cursor_cache_cleared_by_moves_only_witness :
  h4_node !! cursor_at
    = Some (TreeCursorObj
              {| cursor_cursor := cursor_new (node_node the_root);
                 cursor_node := Some cached_at;
                 cursor_tree := Some tree_at |}) /\
  tree_cursor_get_node h4_node cursor_at
    = (Return (PyRef cached_at), h4_node) /\
  navigate GotoParent h4_node cursor_at = (Return Py_False, h4_node) /\
  exists h' n h'',
    navigate GotoFirstChild h4_node cursor_at = (Return Py_True, h') /\
    h' !! cursor_at
      = Some (TreeCursorObj
                {| cursor_cursor :=
                     (goto_first_child (cursor_new (node_node the_root))).2;
                   cursor_node := None;
                   cursor_tree := Some tree_at |}) /\
    tree_cursor_get_node h' cursor_at = (Return (PyRef n), h'') /\
    h' !! n = None /\
    h'' !! n
      = Some (NodeObj
                {| node_node :=
                     {| n_tree := 9; n_path := [0%nat];
                        n_syn := Syn "word" 0 1 [] |};
                   node_children := None;
                   node_tree := Some tree_at |}).
Proof.
  assert (h4_node !! cursor_at
          = Some (TreeCursorObj
                    {| cursor_cursor := cursor_new (node_node the_root);
                       cursor_node := Some cached_at;
                       cursor_tree := Some tree_at |})) as Hc
    by (vm_compute; reflexivity).
  split; [exact Hc|].
  destruct (cursor_cache_cleared_by_moves_only h4_node cursor_at _ tree_at
              GotoParent Hc eq_refl (fun _ => eq_refl))
    as (_ & Hstay & _ & Hcached & _).
  split; [exact (Hcached cached_at eq_refl)|].
  split; [exact (proj1 (Hstay eq_refl))|].
  assert ((engine_move GotoFirstChild (cursor_new (node_node the_root))).1
          = false ->
          (engine_move GotoFirstChild (cursor_new (node_node the_root))).2
          = cursor_new (node_node the_root)) as Hput
    by (intros H; vm_compute in H; discriminate H).
  destruct (cursor_cache_cleared_by_moves_only h4_node cursor_at _ tree_at
              GotoFirstChild Hc eq_refl Hput)
    as (Hmove & _).
  destruct (Hmove eq_refl) as (h' & Hnav & Hcur & n & h'' & Hget & Hnew & Hn & _).
  exists h', n, h''. split; [exact Hnav|]. split; [exact Hcur|].
  split; [exact Hget|]. split; [exact Hnew|]. exact Hn.
Defined.

(** Witness of C6: language 1 has version 11, within [9, 11]. *)
Lemma set_language_version_gate_witness :
  (parser_set_language h0 parser_at (PyRef language_at)).1 = Return Py_None.
Proof.
  assert (h0 !! parser_at
          = Some (ParserObj {| parser_parser := ts_parser_new |})) as Hp
    by (vm_compute; reflexivity).
  assert (get_language_id h0 (PyRef language_at) = Some (PyLong 1)) as Hid
    by (vm_compute; reflexivity).
  destruct (set_language_version_gate h0 parser_at _ (PyRef language_at)
              (PyLong 1) 1 {| l_version := 11; l_symbols := ["module"; "word"] |}
              Hp Hid eq_refl eq_refl)
    as (_ & _ & Hok & _).
  apply Hok. vm_compute. split; discriminate.
Defined.

(** The version gate on the scenario of the specification: a language of
    version 0 is refused and the parser keeps the language it had. *)
Example set_language_version_zero :
  parser_set_language h1 parser_at (PyRef stale_language_at) =
    (Raise (PyErr_SetString PyExc_ValueError
        "Incompatible Language version 0. Must not be between 9 and 11"),
     h1).
Proof. vm_compute. reflexivity. Qed.

(** Witness of C7: parsing [x = 1 + 2] yields a new, unedited Tree. *)
Lemma parse_returns_fresh_unedited_tree_witness :
  exists t new_tree,
    (parser_parse h1 parser_at [PyBytes source]).1 = Return (PyRef t) /\
    h1 !! t = None /\
    (parser_parse h1 parser_at [PyBytes source]).2 !! t =
      Some (TreeObj {| tree_tree := new_tree;
                       tree_source := Some (PyBytes source);
                       tree_edited := 0 |}).
Proof.
  assert (h1 !! parser_at
          = Some (ParserObj
                    {| parser_parser :=
                         {| p_language := lookup_language 1 |} |})) as Hp
    by (vm_compute; reflexivity).
  destruct (parse_returns_fresh_unedited_tree h1 parser_at _ Hp)
    as (Hparse & _).
  destruct (Hparse source [] None (or_introl (conj eq_refl eq_refl)))
    as (_ & Hnew & _).
  destruct (Hnew _ eq_refl) as (t & Hr & Hfresh & Ht).
  eauto.
Defined.

(** Counterexample to C8 as stated: the source [word) @w] is rejected at
    offset 0 as a syntax error; the word at the offset is [word], and the
    error gives the offset and does not name the word. *)
Lemma syntax_error_does_not_name_word :
  let src := list_byte_of_string "word) @w" in
  let language := {| l_version := 11; l_symbols := ["module"; "word"] |} in
  ts_query_new language src 8 = inr (0%N, TSQueryErrorSyntax) /\
  error_word src 8 0 = "word"%string /\
  (query_new_internal h4 language src 8).1
    = Raise (PyErr_SetString PyExc_SyntaxError "Invalid syntax at offset 0") /\
  names (query_error src 8 0 TSQueryErrorSyntax) (error_word src 8 0) = false.
Proof. vm_compute. repeat split; reflexivity. Qed.

(** Witness of C8: the scenario of the specification. A pattern on the
    unknown symbol [totally_bogus_node] fails with the node-type error,
    which names exactly that symbol. *)
Lemma query_error_names_word_or_offset_witness :
  let src := list_byte_of_string "(totally_bogus_node) @x" in
  let language := {| l_version := 11; l_symbols := ["module"; "word"] |} in
  ts_query_new language src 23 = inr (1%N, TSQueryErrorNodeType) /\
  query_new_internal h4 language src 23 =
    (Raise (PyErr_SetString PyExc_NameError
              "Invalid node type totally_bogus_node"), h4).
Proof.
  intros src language.
  assert (ts_query_new language src 23 = inr (1%N, TSQueryErrorNodeType))
    as Hq by (vm_compute; reflexivity).
  split; [exact Hq|].
  destruct (query_error_names_word_or_offset h4 language src 23 1
              TSQueryErrorNodeType Hq) as (Hfail & _).
  exact Hfail.
Defined.

(** Witness of C10: the root handle compared with itself. *)
Lemma node_compare_ordering_false_witness :
  node_compare h4 the_root (PyRef root_at) Py_EQ = Py_True /\
  node_compare h4 the_root (PyRef root_at) Py_LE = Py_False /\
  node_compare h4 the_root (PyRef root_at) Py_GE = Py_False.
Proof.
  assert (h4 !! root_at = Some (NodeObj the_root)) as Hr
    by (vm_compute; reflexivity).
  destruct (node_compare_ordering_false h4 root_at root_at the_root the_root
              Hr Hr) as [_ Hself].
  apply Hself. vm_compute. reflexivity.
Defined.

(** C5, on the code: [captures] called on the root with the point range
    from (0, 0) to (0, 1), which covers the first word only, yields all
    five words, the one at bytes 8 to 9 included; restricted to the range
    as the claim has it, the same search yields the first word alone. *)
Theorem query_captures_point_range_not_applied :
  let args := [PyRef root_at; PyTuple [PyLong 0; PyLong 0];
               PyTuple [PyLong 0; PyLong 1]] in
  capture_spans (query_captures 10 st word_query args [])
    = [(0, 1, PyUnicode "w"); (2, 3, PyUnicode "w"); (4, 5, PyUnicode "w");
       (6, 7, PyUnicode "w"); (8, 9, PyUnicode "w")]%N /\
  capture_spans (spec_query_captures 10 st word_query args [])
    = [(0, 1, PyUnicode "w")]%N.
Proof. vm_compute. split; reflexivity. Qed.

(** The C function itself: [edit] called with one string argument does
    not parse its arguments, leaves the tree as it was, and hands [None]
    to the interpreter with the [TypeError] of the argument parser
    pending. *)
Lemma tree_edit_malformed_returns_none :
  let r := tree_edit h4 tree_at [PyUnicode "oops"] [] in
  r.1 = ReturnWithError Py_None (arg_error "missing required argument") /\
  returned r.1 = Some Py_None /\
  r.2 = h4.
Proof.
  pose proof (tree_edit_malformed h4 tree_at the_tree [PyUnicode "oops"] []
                (arg_error "missing required argument") h4_tree eq_refl) as H.
  cbv zeta. rewrite H. repeat split; reflexivity.
Qed.

(** Witness of C9: on the parsed tree, [edit("oops")] raises the
    [SystemError] caused by the parser's [TypeError] and changes
    nothing; [edit(0, 1, 2, (0, 0), (0, 1), (0, 2))] returns [None] and
    leaves the tree edited. *)
Lemma edit_sets_edited_iff_call_succeeds_witness :
  h4 !! tree_at = Some (TreeObj the_tree) /\
  Py_CheckFunctionResult (tree_edit h4 tree_at [PyUnicode "oops"] []).1
    = Raises (PyErr_SetString PyExc_SystemError
                "returned a result with an error set")
             (Some (arg_error "missing required argument")) /\
  (tree_edit h4 tree_at [PyUnicode "oops"] []).2 = h4 /\
  Py_CheckFunctionResult
    (tree_edit h4 tree_at
       [PyLong 0; PyLong 1; PyLong 2; PyTuple [PyLong 0; PyLong 0];
        PyTuple [PyLong 0; PyLong 1]; PyTuple [PyLong 0; PyLong 2]] []).1
    = Returns Py_None /\
  exists tree' : Tree,
    (tree_edit h4 tree_at
       [PyLong 0; PyLong 1; PyLong 2; PyTuple [PyLong 0; PyLong 0];
        PyTuple [PyLong 0; PyLong 1]; PyTuple [PyLong 0; PyLong 2]] []).2
      !! tree_at = Some (TreeObj tree') /\
    tree_edited tree' = 1.
Proof.
  assert (h4 !! tree_at = Some (TreeObj the_tree)) as Ht
    by (vm_compute; reflexivity).
  split; [exact Ht|].
  destruct (edit_sets_edited_iff_call_succeeds h4 tree_at the_tree
              [PyUnicode "oops"] [] Ht) as ([Hok|Hbad] & _).
  { destruct Hok as (edit & Hp & _). vm_compute in Hp. discriminate Hp. }
  destruct Hbad as (e & Hp & _ & Hseen & Hsame).
  assert (parse_edit_with (convert_II_seq h4) [PyUnicode "oops"] []
          = inl (arg_error "missing required argument")) as Hq
    by (vm_compute; reflexivity).
  rewrite Hq in Hp. injection Hp as <-.
  split; [exact Hseen|]. split; [exact Hsame|].
  destruct (edit_sets_edited_iff_call_succeeds h4 tree_at the_tree
              [PyLong 0; PyLong 1; PyLong 2; PyTuple [PyLong 0; PyLong 0];
               PyTuple [PyLong 0; PyLong 1]; PyTuple [PyLong 0; PyLong 2]] []
              Ht) as (_ & Hiff & Hints & _).
  pose proof (Hints 0 1 2 0 0 0 1 0 2 eq_refl eq_refl) as Hret.
  split; [exact Hret|].
  exact (proj1 (Hiff eq_refl) Hret).
Defined.

(** ** The further properties on the small engine *)

Import ToyNodes ScenarioMore.

Lemma toy_moves_stay (nav : navigation) (c : cursor) :
  (engine_move nav c).1 = false ->
  ts_tree_cursor_current_node (engine_move nav c).2
    = ts_tree_cursor_current_node c.
Proof.
  destruct nav; cbn; unfold goto_parent, goto_first_child, goto_next_sibling.
  - by destruct (above c).
  - by destruct (child_at (cur c) 0).
  - destruct (above c); [done|]. by destruct (child_at _ _).
Qed.

Lemma toy_root_children (c0 : cursor) :
  has_children c0 (node_node the_root) (children_of (node_node the_root)).
Proof.
  split; [reflexivity|]. intros _. vm_compute. repeat split; reflexivity.
Qed.

(** The word after [1] in [x = 1 + 2] is [+], a new Node of the tree. *)
Lemma related_node_none_or_fresh_witness :
  node_tree a_word = Some tree_at /\
  exists n h',
    node_get_relative NextSibling h4 a_word = (Return (PyRef n), h') /\
    h' !! n = Some (new_node (node_at 9 [3%nat]) tree_at).
Proof.
  split; [reflexivity|].
  destruct (related_node_none_or_fresh NextSibling h4 a_word tree_at eq_refl)
    as [_ Hfound].
  destruct (Hfound eq_refl) as (n & h' & Hget & _ & Hnew & _).
  exists n, h'. split; [exact Hget | exact Hnew].
Defined.

(** The field [second] has id 2. *)
Lemma field_id_round_trip_witness :
  language_field_id_for_name [PyLong 1; PyUnicode "second"]
    = Return (PyLong 2).
Proof.
  destruct (field_id_round_trip h4 the_root 1 "second"
              {| l_version := 11; l_symbols := ["module"; "word"] |}
              eq_refl) as [_ Hid]; [vm_compute; reflexivity|].
  destruct Hid as [Hret _]; [discriminate|]. exact Hret.
Defined.

Lemma point_round_trip_witness :
  convert_II (node_get_start_point a_word) = Some (0, 4) /\
  convert_II_seq h4 (node_get_start_point a_word) = Some (0, 4).
Proof.
  destruct (point_round_trip (ts_node_start_point (node_node a_word)))
    as [Htuple Hseq]; [vm_compute; split; congruence..|].
  split; [exact Htuple | exact (Hseq h4)].
Defined.

Lemma root_node_twice_witness :
  exists n1 n2 h1 h2,
    tree_get_root_node h4 tree_at = (Return (PyRef n1), h1) /\
    tree_get_root_node h1 tree_at = (Return (PyRef n2), h2) /\
    n1 <> n2.
Proof.
  destruct (root_node_twice h4 tree_at the_tree h4_tree)
    as (n1 & n2 & h1 & h2 & nd1 & H1 & H2 & Hne & _).
  exists n1, n2, h1, h2. auto.
Defined.

Lemma node_text_clipped_witness :
  exists text,
    node_get_text h4 a_word = Return (PyMemoryView text) /\
    length text = 1%nat.
Proof.
  destruct (node_text_clipped h4 tree_at the_tree a_word source
              h4_tree eq_refl eq_refl eq_refl) as (text & Hget & Hlen & _).
  exists text. split; [exact Hget | exact Hlen].
Defined.

Lemma parse_text_round_trip_witness :
  exists t h1' (tree : Tree),
    parser_parse h1 parser_at [PyBytes source] = (Return (PyRef t), h1') /\
    h1' !! t = Some (TreeObj tree) /\
    tree_get_text tree = PyBytes source.
Proof.
  assert (h1 !! parser_at
          = Some (ParserObj
                    {| parser_parser :=
                         {| p_language := lookup_language 1 |} |})) as Hp
    by (vm_compute; reflexivity).
  destruct (parse_text_round_trip h1 parser_at _ source
              (tree_tree the_tree) Hp eq_refl)
    as (t & h1' & tree & n & h2' & nd & Hparse & Ht & Htext & _).
  exists t, h1', tree. auto.
Defined.

Lemma edit_coordinates_wrap_witness :
  tree_edit h4 tree_at
    ([PyLong (0 + 1 * 2 ^ 32); PyLong (1 + 0 * 2 ^ 32);
      PyLong (2 + -1 * 2 ^ 32)]
     ++ [PyTuple [PyLong 0; PyLong 0]; PyTuple [PyLong 0; PyLong 1];
         PyTuple [PyLong 0; PyLong 2]]) []
  = tree_edit h4 tree_at
      ([PyLong 0; PyLong 1; PyLong 2]
       ++ [PyTuple [PyLong 0; PyLong 0]; PyTuple [PyLong 0; PyLong 1];
           PyTuple [PyLong 0; PyLong 2]]) [].
Proof.
  exact (proj2 (edit_coordinates_wrap h4 tree_at the_tree
                  0 1 2 0 0 0 1 0 2 1 0 (-1) h4_tree)).
Defined.

Lemma edit_by_keyword_witness :
  tree_edit h4 tree_at []
    [("new_end_point", PyTuple [PyLong 0; PyLong 2]);
     ("old_end_point", PyTuple [PyLong 0; PyLong 1]);
     ("start_point", PyTuple [PyLong 0; PyLong 0]);
     ("new_end_byte", PyLong 2); ("old_end_byte", PyLong 1);
     ("start_byte", PyLong 0)]%string
  = tree_edit h4 tree_at an_edit [].
Proof.
  apply edit_by_keyword.
  symmetry.
  exact (Permutation_rev
           [("start_byte", PyLong 0); ("old_end_byte", PyLong 1);
            ("new_end_byte", PyLong 2);
            ("start_point", PyTuple [PyLong 0; PyLong 0]);
            ("old_end_point", PyTuple [PyLong 0; PyLong 1]);
            ("new_end_point", PyTuple [PyLong 0; PyLong 2])]%string).
Defined.

Lemma edited_stays_edited_witness :
  exists tree' : Tree,
    run_edits [([PyUnicode "oops"], []); (an_edit, [])] h5 tree_at !! tree_at
      = Some (TreeObj tree') /\
    tree_get_text tree' = Py_None /\
    tree_source tree' = Some (PyBytes source).
Proof.
  assert (h5 !! tree_at = Some (TreeObj the_edited_tree)) as Ht
    by (vm_compute; reflexivity).
  destruct (edited_stays_edited
              [([PyUnicode "oops"], []); (an_edit, [])] h5 tree_at
              the_edited_tree Ht) as (tree' & Ht' & _ & Hs & Htx & _);
    [vm_compute; discriminate|].
  exists tree'. auto.
Defined.

Lemma set_language_fails_or_binds_compatible_witness :
  (parser_set_language h0_wild parser_at (PyRef language_at)
   = (Return Py_None,
      <[parser_at := ParserObj {| parser_parser :=
           {| p_language := lookup_language 1 |} |}]> h0_wild)) /\
  (exists e,
     parser_set_language h0_wild parser_at (PyRef stale_language_at)
     = (Raise e, h0_wild)) /\
  parser_set_language h0_wild parser_at (PyRef wild_language_at)
  = (Crash, h0_wild).
Proof.
  assert (h0_wild !! parser_at
          = Some (ParserObj {| parser_parser := ts_parser_new |})) as Hp
    by (vm_compute; reflexivity).
  split; [|split].
  - destruct (set_language_fails_or_binds_compatible h0_wild parser_at _
                (PyRef language_at) Hp)
      as [[e He] | [(lid & id & l & Hid & Hlong & Hl & _ & _ & Hret)
                   | (lid & id & Hid & Hlong & Hl & _)]].
    + vm_compute in He. discriminate He.
    + assert (get_language_id h0_wild (PyRef language_at) = Some (PyLong 1))
        as Hid' by (vm_compute; reflexivity).
      rewrite Hid' in Hid. injection Hid as <-.
      injection Hlong as <-. rewrite Hret. cbn [language_of_id engine] in Hl.
      by rewrite Hl.
    + assert (get_language_id h0_wild (PyRef language_at) = Some (PyLong 1))
        as Hid' by (vm_compute; reflexivity).
      rewrite Hid' in Hid. injection Hid as <-.
      injection Hlong as <-. vm_compute in Hl. discriminate Hl.
  - destruct (set_language_fails_or_binds_compatible h0_wild parser_at _
                (PyRef stale_language_at) Hp)
      as [[e He] | [(lid & id & l & _ & _ & _ & _ & _ & Hret)
                   | (lid & id & _ & _ & _ & _ & Hcrash)]].
    + by exists e.
    + vm_compute in Hret. discriminate Hret.
    + vm_compute in Hcrash. discriminate Hcrash.
  - destruct (set_language_fails_or_binds_compatible h0_wild parser_at _
                (PyRef wild_language_at) Hp)
      as [[e He] | [(lid & id & l & _ & _ & _ & _ & _ & Hret)
                   | (lid & id & _ & _ & _ & _ & Hcrash)]].
    + vm_compute in He. discriminate He.
    + vm_compute in Hret. discriminate Hret.
    + exact Hcrash.
Defined.

Lemma parse_type_error_keeps_store_witness :
  (parser_parse h1 parser_at [PyUnicode "x = 1 + 2"]).2 = h1.
Proof.
  assert (h1 !! parser_at
          = Some (ParserObj
                    {| parser_parser :=
                         {| p_language := lookup_language 1 |} |})) as Hp
    by (vm_compute; reflexivity).
  destruct (parse_type_error_keeps_store h1 parser_at _ Hp) as (_ & _ & Hkeep).
  apply (Hkeep _ (PyErr_SetString PyExc_TypeError
                    "First argument to parse must be bytes"));
    [vm_compute; reflexivity | reflexivity].
Defined.

Lemma cursor_node_always_current_witness :
  let ops := [OpMove GotoFirstChild; OpNode; OpMove GotoNextSibling;
              OpMove GotoParent; OpNode; OpMove GotoParent; OpFieldName] in
  exists (c : TreeCursor) n h' (nd : Node),
    run_ops ops h4 cursor_at !! cursor_at = Some (TreeCursorObj c) /\
    tree_cursor_get_node (run_ops ops h4 cursor_at) cursor_at
      = (Return (PyRef n), h') /\
    h' !! n = Some (NodeObj nd) /\
    node_node nd = ts_tree_cursor_current_node (cursor_cursor c) /\
    node_tree nd = Some tree_at.
Proof.
  intros ops.
  apply (cursor_node_always_current ops h4 cursor_at tree_at toy_moves_stay).
  eexists. split; [vm_compute; reflexivity|]. split; [reflexivity|].
  intros n Hn. discriminate.
Defined.

Lemma walk_returns_fresh_cursor_witness :
  exists c h',
    tree_walk h4 tree_at = (Return (PyRef c), h') /\ h4 !! c = None.
Proof.
  destruct (walk_returns_fresh_cursor h4 tree_at the_tree a_word
              h4_tree eq_refl) as [(c & h' & Hw & Hf & _) _].
  exists c, h'. auto.
Defined.

Lemma captures_follow_engine_witness :
  exists st' lst ns,
    query_captures 10 st word_query [PyRef root_at] []
      = Some (Return (PyRef lst), st') /\
    heap st' !! lst
      = Some (ListObj (zip_with (capture_pair [PyUnicode "w"]) ns five_words)) /\
    length ns = 5%nat.
Proof.
  assert (captures_from
            (ts_query_cursor_exec
               (default ts_query_cursor_new (query_cursor st))
               (query_query word_query) (node_node the_root)) five_words)
    as Hfrom by (vm_compute; repeat split; reflexivity).
  assert (Forall (fun x : node * nat =>
                    is_Some (query_capture_names word_query !! x.2))
            five_words) as Hidx
    by (repeat constructor; eexists; reflexivity).
  destruct (captures_follow_engine 10 st word_query [PyRef root_at] []
              (PyRef root_at) the_root tree_at ((0, 0), (0, 0)) five_words
              eq_refl) as (st' & lst & ns & Hrun & _ & Hl & Hall & _);
    [vm_compute; reflexivity | reflexivity | exact Hfrom | exact Hidx
    | vm_compute; lia |].
  exists st', lst, ns. split; [exact Hrun|]. split; [exact Hl|].
  exact (Forall2_length _ _ _ Hall).
Defined.

Lemma language_query_names_captures_witness :
  exists l h' (q : Query),
    language_query h4 [PyLong 1; PyUnicode "(word) @w"]
      = (Return (PyRef l), h') /\
    h' !! l = Some (QueryObj q) /\
    query_capture_names q !! 0%nat = Some (PyUnicode "w").
Proof.
  destruct (language_query_names_captures h4 1 "(word) @w"
              {| l_version := 11; l_symbols := ["module"; "word"] |}
              {| q_kind := "word"; q_names := ["w"%string] |} eq_refl)
    as (l & h' & q & Hrun & _ & Hq & _ & _ & Hnames & _);
    [vm_compute; reflexivity | vm_compute; reflexivity |].
  exists l, h', q. split; [exact Hrun|]. split; [exact Hq|].
  apply (Hnames 0%nat). vm_compute. lia.
Defined.

Lemma children_change_nothing_else_witness :
  exists st' lst,
    node_get_children 5 st root_at = Some (Return (PyRef lst), st') /\
    heap st' !! tree_at = Some (TreeObj the_tree).
Proof.
  destruct (children_change_nothing_else st root_at the_root tree_at
              (children_of (node_node the_root)) 5 h4_root eq_refl eq_refl
              (toy_root_children _))
    as (st' & lst & items & Hrun & _ & _ & _ & _ & Hkeep);
    [vm_compute; lia|].
  exists st', lst. split; [exact Hrun|].
  rewrite Hkeep; [exact h4_tree | discriminate | eexists; exact h4_tree].
Defined.

Lemma children_of_equal_handles_agree_witness :
  exists st1 st2 la lb,
    node_get_children 5 st_two_roots root_at = Some (Return (PyRef la), st1) /\
    node_get_children 5 st1 second_root_at = Some (Return (PyRef lb), st2) /\
    la <> lb.
Proof.
  destruct (children_of_equal_handles_agree st_two_roots root_at
              second_root_at the_root the_root tree_at
              (children_of (node_node the_root)) 5)
    as (st1 & st2 & la & lb & ia & ib & H1 & H2 & Hne & _);
    [discriminate | vm_compute; reflexivity | vm_compute; reflexivity
    | reflexivity | reflexivity | reflexivity | reflexivity | reflexivity
    | exact toy_root_children | vm_compute; lia |].
  exists st1, st2, la, lb. auto.
Defined.




Lemma children_list_has_counted_length_witness :
  exists r st' lst items,
    node_get_children 5 st root_at = Some (r, st') /\
    returned r = Some (PyRef lst) /\
    heap st' !! lst = Some (ListObj items) /\
    length items = 5%nat.
Proof.
  destruct (node_get_children_spec st root_at the_root tree_at
              (children_of (node_node the_root)) 5 h4_root eq_refl eq_refl
              (toy_root_children _)) as (st' & l0 & i0 & Hrun & _);
    [vm_compute; lia|].
  destruct (children_list_has_counted_length 5 st st' root_at the_root
              tree_at _ h4_root eq_refl eq_refl Hrun)
    as (lst & items & Hr & Hl & Hlen & _).
  exists (Return (PyRef l0)), st', lst, items. auto.
Defined.

Lemma reparse_after_edit_witness :
  exists t' h2 (new' : Tree),
    parser_parse (tree_edit h4 tree_at an_edit []).2 parser_at
      [PyBytes (list_byte_of_string "xy = 1 + 2"); PyRef tree_at]
      = (Return (PyRef t'), h2) /\
    h2 !! t' = Some (TreeObj new') /\
    tree_get_text new' = PyBytes (list_byte_of_string "xy = 1 + 2").
Proof.
  assert (h4 !! parser_at
          = Some (ParserObj
                    {| parser_parser :=
                         {| p_language := lookup_language 1 |} |})) as Hp
    by (vm_compute; reflexivity).
  destruct (reparse_after_edit h4 parser_at _ tree_at the_tree an_edit []
              {| start_byte := 0; old_end_byte := 1; new_end_byte := 2;
                 start_point := {| row := 0; column := 0 |};
                 old_end_point := {| row := 0; column := 1 |};
                 new_end_point := {| row := 0; column := 2 |} |}
              (list_byte_of_string "xy = 1 + 2")
              {| t_id := 10;
                 t_root := Syn "module" 0 10
                             (words (list_byte_of_string "xy = 1 + 2") 0 None) |}
              Hp h4_tree)
    as (t' & h2 & old' & new' & Hrun & _ & Hnew & _ & _ & Htext & _);
    [vm_compute; reflexivity | vm_compute; reflexivity |].
  exists t', h2, new'. auto.
Defined.
